(** * The Monaco viewer shell: tabs, file bridge and surgical replace

    A shallow embedding of [src/index.js]: the tab manager ([getTab],
    [getActiveTab], [languageFromPath], [renderTabs], [switchTab],
    [addTab] with the content observer it registers, [closeTab]), the file
    operations ([doOpen], [doSave], [doSaveAs]) and the surgical-replace
    dialog ([showSurgicalReplace], [applySurgicalReplace],
    [cancelSurgicalReplace]).

    The program is glue code around three collaborators that are not part
    of the repository: the JavaScript runtime ([JSON.parse],
    [JSON.stringify]), the editor widget (text models, the single visible
    editor instance) and the host application reached through
    [window.pywebview.api].  The module-level variables of the script
    ([tabs], [nextTabId], [activeTabId], [editor]) and the parts of the
    page it touches are gathered in one [State] record that every function
    threads explicitly; calls that leave the program (host API, browser
    alert, the edit handed to a model) and tab-bar rebuilds are appended
    to a trace.

    Tab objects are mutated in place by the script and captured by
    closures; here a tab is addressed by its identifier, which the
    invariant [WF] shows to be unique in every reachable state.

    The asynchronous functions ([closeTab], [doOpen], [doSave],
    [doSaveAs]) are embedded twice.  As functions they take the host's
    answer as an argument and run the code on both sides of the [await]
    in one go.  In the event loop the two halves are separate events: the
    half after the [await] is kept in [pending] with what it captured and
    runs when the host answers, after whatever happened in between.

    Text is held as the bytes of its UTF-8 encoding; lengths and columns
    are counted in UTF-16 code units, as JavaScript counts them. *)

From Stdlib Require Import QArith Ascii String.
From stdpp Require Import base numbers list strings option.

Set Warnings "-register-all".

Local Open Scope Z_scope.
Local Open Scope string_scope.

(** ** JavaScript values *)

Module Js.

(** Values that [JSON.parse] can produce, plus [undefined], which is what a
    read of a missing property yields.  Numbers are rationals: the code
    below only asks whether a number is zero. *)
Inductive JsVal : Type :=
| JUndefined
| JNull
| JBool (b : bool)
| JNum (q : Q)
| JStr (s : string)
| JArr (items : list JsVal)
| JObj (fields : list (string * JsVal)).

Inductive Exn : Type :=
| SyntaxError (msg : string)
| TypeError (msg : string)
| Error (msg : string).

(** [e.message] *)
Definition message (e : Exn) : string :=
  match e with
  | SyntaxError m | TypeError m | Error m => m
  end.

(** [v == null]: true for [null] and [undefined] only. *)
Definition nullish (v : JsVal) : bool :=
  match v with
  | JUndefined | JNull => true
  | _ => false
  end.

(** Truthiness, as used by [||], [?:] and [if]. *)
Definition truthy (v : JsVal) : bool :=
  match v with
  | JUndefined | JNull => false
  | JBool b => b
  | JNum q => negb (Qnum q =? 0)%Z
  | JStr s => negb (String.eqb s "")
  | JArr _ | JObj _ => true
  end.

(** A string used as a condition: only the empty string is falsy. *)
Definition truthy_str (s : string) : bool := negb (String.eqb s "").

(** Own property of an object literal; when a key is repeated in the JSON
    text the last binding wins. *)
Definition own_prop (fields : list (string * JsVal)) (k : string) : option JsVal :=
  snd <$> (snd <$> list_find (λ kv, kv.1 = k) (reverse fields)).

(** [data.k] for a property name [k] that no built-in prototype defines
    (the schema's field names): a [TypeError] on [null]/[undefined],
    [undefined] on primitives, arrays and objects without the key. *)
Definition get_prop (data : JsVal) (k : string) : Exn + JsVal :=
  match data with
  | JUndefined =>
      inl (TypeError ("Cannot read properties of undefined (reading '" +:+ k +:+ "')"))
  | JNull =>
      inl (TypeError ("Cannot read properties of null (reading '" +:+ k +:+ "')"))
  | JObj fields => inr (default JUndefined (own_prop fields k))
  | _ => inr JUndefined
  end.

(** Replace the value of an existing key in place (assignment to a property
    of an object literal keeps the key order); append when absent. *)
Fixpoint set_prop (fields : list (string * JsVal)) (k : string) (v : JsVal)
  : list (string * JsVal) :=
  match fields with
  | [] => [(k, v)]
  | (k', v') :: rest =>
      if String.eqb k' k then (k', v) :: rest else (k', v') :: set_prop rest k v
  end.

Definition num (z : Z) : JsVal := JNum (inject_Z z).

(** [typeof v === 'number'] *)
Definition is_number (v : JsVal) : bool :=
  match v with
  | JNum _ => true
  | _ => false
  end.

(** [x > y] on numbers. *)
Definition num_gt (x y : Q) : bool := negb (Qle_bool x y).

(** [a === b] for two values read from different places of a parsed
    JSON text: primitives are compared by value, and two arrays or
    objects are never the same object. *)
Definition strict_eq (a b : JsVal) : bool :=
  match a, b with
  | JUndefined, JUndefined | JNull, JNull => true
  | JBool x, JBool y => Bool.eqb x y
  | JNum x, JNum y => Qeq_bool x y
  | JStr x, JStr y => String.eqb x y
  | _, _ => false
  end.

End Js.
Import Js.

(** ** Strings *)

Definition LF : ascii := "010"%char.
Definition CR : ascii := "013"%char.
Definition nl : string := String LF "".

Fixpoint has_sep (is_sep : ascii → bool) (s : string) : bool :=
  match s with
  | EmptyString => false
  | String c rest => is_sep c || has_sep is_sep rest
  end.

(** [s.split(sep).pop()] for a separator class [is_sep]: the part of [s]
    after the last separator, all of [s] when there is none. *)
Fixpoint last_segment (is_sep : ascii → bool) (s : string) : string :=
  match s with
  | EmptyString => EmptyString
  | String c rest =>
      if has_sep is_sep rest then last_segment is_sep rest
      else if is_sep c then rest
      else s
  end.

(** [p.split('.').pop()] *)
Definition after_last_dot : string → string :=
  last_segment (λ c, Ascii.eqb c "."%char).

(** [p.split(/[\\/]/).pop()] *)
Definition basename : string → string :=
  last_segment (λ c, Ascii.eqb c "/"%char || Ascii.eqb c "\"%char).

(** The lines of a text buffer: split at LF, CR LF and CR. *)
Fixpoint lines_of (s : string) : list string :=
  match s with
  | EmptyString => [EmptyString]
  | String c rest =>
      if Ascii.eqb c LF then EmptyString :: lines_of rest
      else if Ascii.eqb c CR then
        match rest with
        | String c' rest' =>
            if Ascii.eqb c' LF then EmptyString :: lines_of rest'
            else EmptyString :: lines_of rest
        | EmptyString => EmptyString :: lines_of rest
        end
      else
        match lines_of rest with
        | l :: ls => String c l :: ls
        | [] => [String c EmptyString]
        end
  end.

(** [s.length]: the number of UTF-16 code units of the text whose UTF-8
    bytes are [s].  A continuation byte counts for nothing, the first
    byte of a four-byte sequence (a character outside the basic plane, a
    surrogate pair in UTF-16) for two, every other byte for one. *)
Fixpoint utf16_length (s : string) : nat :=
  match s with
  | EmptyString => 0%nat
  | String c rest =>
      let b := N_of_ascii c in
      ((if N.ltb b 128 then 1 else if N.ltb b 192 then 0
        else if N.ltb b 240 then 1 else 2) + utf16_length rest)%nat
  end.

(** Line ends of a text: how many lone CR, lone LF and CR LF it has. *)
Fixpoint count_eol (s : string) : nat * nat * nat :=
  match s with
  | EmptyString => (0, 0, 0)%nat
  | String c rest =>
      if Ascii.eqb c LF then
        let '(cr, lf, crlf) := count_eol rest in (cr, S lf, crlf)
      else if Ascii.eqb c CR then
        match rest with
        | String c' rest' =>
            if Ascii.eqb c' LF then
              let '(cr, lf, crlf) := count_eol rest' in (cr, lf, S crlf)
            else
              let '(cr, lf, crlf) := count_eol rest in (S cr, lf, crlf)
        | EmptyString => (1, 0, 0)%nat
        end
      else count_eol rest
  end.

(** [s.replace(/\r\n|\r|\n/g, eol)] *)
Fixpoint replace_eol (eol : string) (s : string) : string :=
  match s with
  | EmptyString => EmptyString
  | String c rest =>
      if Ascii.eqb c LF then eol +:+ replace_eol eol rest
      else if Ascii.eqb c CR then
        match rest with
        | String c' rest' =>
            if Ascii.eqb c' LF then eol +:+ replace_eol eol rest'
            else eol +:+ replace_eol eol rest
        | EmptyString => eol
        end
      else String c (replace_eol eol rest)
  end.

(** The text without a leading byte order mark (U+FEFF, in UTF-8 the
    bytes EF BB BF). *)
Definition strip_bom (s : string) : string :=
  match s with
  | String a (String b (String c rest)) =>
      if Ascii.eqb a "239"%char && Ascii.eqb b "187"%char && Ascii.eqb c "191"%char
      then rest else s
  | _ => s
  end.

(** ** The editor widget, as the program uses it

    The widget is a third-party collaborator.  What follows records the
    part of its behaviour the script relies on: coordinates are 1-based,
    a range object orders its two ends, a new model normalises the line
    ends of its text, a line's maximum column is its length plus one, the
    editor refuses a range whose coordinates are not numbers, a view
    state saved from the editor can be restored into it. *)

Module Monaco.

(** A range object: its four fields.  The script gives them whatever
    the JSON held, so they need not be numbers.  The constructor is
    [newRange] below. *)
Record Range : Type := mkRange {
  startLineNumber : JsVal;
  startColumn : JsVal;
  endLineNumber : JsVal;
  endColumn : JsVal
}.

(** [Range.isIRange(r)]: the four fields are numbers.  The editor's
    [revealRangeInCenter] and [setSelection] throw on anything else. *)
Definition isIRange (r : Range) : bool :=
  is_number (startLineNumber r) && is_number (startColumn r)
  && is_number (endLineNumber r) && is_number (endColumn r).

(** The editor's selection: numeric coordinates. *)
Record Selection : Type := mkSelection {
  selStartLine : Z;
  selStartColumn : Z;
  selEndLine : Z;
  selEndColumn : Z
}.

(** [selection.isEmpty()] *)
Definition isEmpty (s : Selection) : bool :=
  Z.eqb (selStartLine s) (selEndLine s) && Z.eqb (selStartColumn s) (selEndColumn s).

(** What [saveViewState] captures: scroll offsets and cursor/selection. *)
Record ViewState : Type := mkViewState {
  scrollTop : Z;
  scrollLeft : Z;
  selection : Selection
}.

Definition initialView : ViewState :=
  mkViewState 0 0 (mkSelection 1 1 1 1).

(** A registered language: [id] and, possibly, its file extensions. *)
Record Language : Type := mkLanguage {
  lang_id : string;
  extensions : option (list string)
}.

(** A text model.  [uri] is the identity of the model object; [value] is
    the text [getValue()] returns. *)
Record TextModel : Type := mkTextModel {
  uri : nat;
  value : string;
  languageId : string
}.

(** The text a model created by [monaco.editor.createModel(text, lang)]
    holds, as [getValue()] returns it: a leading byte order mark is
    dropped, and every line end is replaced by the one the text uses
    most, CR LF when more than half of its line ends contain a CR and LF
    otherwise.  Text with one kind of line end keeps it. *)
Definition createModel_value (text : string) : string :=
  let t := strip_bom text in
  let '(cr, lf, crlf) := count_eol t in
  if Nat.ltb (cr + lf + crlf) (2 * (cr + crlf))
  then replace_eol (String CR nl) t
  else replace_eol nl t.

(** The single visible editor instance: the model it shows (by identity)
    and its current view. *)
Record Editor : Type := mkEditor {
  ed_model : option nat;
  ed_view : ViewState
}.

(** [editor.setModel(m)]: nothing happens when [m] is already shown;
    otherwise the new model is attached with a fresh view. *)
Definition setModel (m : option nat) (e : Editor) : Editor :=
  if decide (ed_model e = m) then e else mkEditor m initialView.

(** [editor.saveViewState()]: [null] without a model. *)
Definition saveViewState (e : Editor) : option ViewState :=
  match ed_model e with
  | Some _ => Some (ed_view e)
  | None => None
  end.

(** [editor.restoreViewState(vs)]: ignored without a model. *)
Definition restoreViewState (vs : ViewState) (e : Editor) : Editor :=
  match ed_model e with
  | Some _ => mkEditor (ed_model e) vs
  | None => e
  end.

(** [editor.getSelection()]: [null] without a model. *)
Definition getSelection (e : Editor) : option Selection :=
  match ed_model e with
  | Some _ => Some (selection (ed_view e))
  | None => None
  end.

(** [model.dispose()]: an editor showing the model drops it. *)
Definition dispose (m : TextModel) (e : Editor) : Editor :=
  if decide (ed_model e = Some (uri m)) then mkEditor None initialView else e.

End Monaco.
Import Monaco.

(** ** The platform

    Behaviour of the runtime and of the widget that the script observes
    but does not define. *)
Class Platform : Type := {
  (** [JSON.parse(text)]: a value, or the exception it throws. *)
  JSON_parse : string → Exn + JsVal;
  (** [JSON.stringify(v, null, 2)] *)
  JSON_stringify : JsVal → string;
  (** [monaco.languages.getLanguages()] *)
  getLanguages : list Language;
  (** What [model.pushEditOperations([], [{range, text}], ...)] does to the
      buffer: the exception it throws, or the new text together with
      whether the widget notified the model's content listeners. *)
  applyEdits : string → Range → JsVal → Exn + (string * bool);
  (** Where [editor.revealRangeInCenter(range, Smooth)] leaves the view,
      for a range of numbers. *)
  revealRangeInCenter : Range → ViewState → ViewState;
  (** Where [editor.setSelection(range)] leaves the view, for a range of
      numbers. *)
  setSelection : Range → ViewState → ViewState;
  (** [a > b] when [a] and [b] are not both numbers: the runtime coerces
      the operands before it compares them. *)
  js_gt : JsVal → JsVal → bool;
  (** What [model.getLineMaxColumn(x)] does on the text [v] when [x] is
      not a whole number: the widget lets through whatever does not
      compare as below 1 or beyond the last line, and then reads its
      buffer with it. *)
  lineMaxColumn_coerced : string → JsVal → Exn + JsVal;
  (** [monaco.editor.setModelLanguage] on a model that was disposed:
      it returns, or throws. *)
  setModelLanguage_disposed : Exn + unit
}.

(** *** The widget, continued *)

Section Widget.
Context `{Platform}.

(** [a > b] *)
Definition gt (a b : JsVal) : bool :=
  match a, b with
  | JNum x, JNum y => num_gt x y
  | _, _ => js_gt a b
  end.

(** [new monaco.Range(startLine, startColumn, endLine, endColumn)]: when
    the start lies after the end the constructor swaps the two ends. *)
Definition newRange (startLine startColumn endLine endColumn : JsVal) : Range :=
  if gt startLine endLine || (strict_eq startLine endLine && gt startColumn endColumn)
  then mkRange endLine endColumn startLine startColumn
  else mkRange startLine startColumn endLine endColumn.

(** [model.getLineMaxColumn(lineNumber)]: for a number below 1 or beyond
    the last line the widget throws; for a whole number within the
    buffer the answer is the length of that line plus one. *)
Definition getLineMaxColumn (m : TextModel) (lineNumber : JsVal) : Exn + JsVal :=
  match lineNumber with
  | JNum q =>
      if num_gt (inject_Z 1) q
         || num_gt q (inject_Z (Z.of_nat (List.length (lines_of (value m))))) then
        inl (Error "Illegal value for lineNumber")
      else if Z.eqb (Z.modulo (Qnum q) (Zpos (Qden q))) 0 then
        match lines_of (value m) !! Z.to_nat (Z.div (Qnum q) (Zpos (Qden q)) - 1) with
        | Some line => inr (num (Z.of_nat (utf16_length line) + 1))
        | None => inl (Error "Illegal value for lineNumber")
        end
      else lineMaxColumn_coerced (value m) lineNumber
  | _ => lineMaxColumn_coerced (value m) lineNumber
  end.

End Widget.

(** ** Program state *)

(** One open document ([newTab] in [addTab]). *)
Record Tab : Type := mkTab {
  id : Z;
  path : option string;
  model : TextModel;
  viewState : option ViewState;
  isDirty : bool
}.

(** The close affordance of a rendered tab: the filled marker of a dirty
    tab, or the close control. *)
Inductive CloseIcon : Type := DirtyMarker | CloseControl.

(** One element [renderTabs] appends to the tab bar: the tab its click
    handlers refer to, the [active] class, and the two values the
    element's markup is built from, the name and the icon.  The name goes
    into [innerHTML] as it is: what the element shows is the browser's
    reading of it as markup ([shown_name] below says when that is the
    name itself). *)
Record TabEl : Type := mkTabEl {
  el_tab : Z;
  el_active : bool;
  el_name : string;
  el_icon : CloseIcon
}.

(** Text that markup leaves alone: no [<], no [&], and neither of the
    two characters the parser rewrites on its own account, NUL and CR. *)
Definition plain_text (s : string) : bool :=
  negb (has_sep (λ c, Ascii.eqb c "<"%char || Ascii.eqb c "&"%char
                      || Ascii.eqb c "000"%char || Ascii.eqb c CR) s).

(** The text of the name span of a tab element: the name when it is plain
    text.  Any other name is read as markup by the browser, element by
    element and entity by entity; that reading is not part of this
    development. *)
Definition shown_name (el_name : string) : option string :=
  if plain_text el_name then Some el_name else None.

Inductive Focus : Type := FocusEditor | FocusSurgText | FocusElsewhere.

(** The page elements the script reads and writes: the modal overlay's
    [hidden] class, the textarea [surg-text], the tab bar, the status-bar
    path, and which element has input focus.  The elements themselves are
    taken to exist. *)
Record Dom : Type := mkDom {
  modal_hidden : bool;
  surg_value : string;
  surg_placeholder : string;
  tabs_container : list TabEl;
  status_filepath : string;
  focus : Focus
}.

(** Which of the guarded entries of [window.pywebview.api] are present.
    [confirm_dialog], [save_dialog] and [save_as_dialog] are called
    unguarded and are taken to exist. *)
Record HostApi : Type := mkHostApi {
  has_create_alert : bool;
  has_set_active_tab : bool;
  has_open_dialog : bool
}.

(** Calls that leave the program ([push_edit]: the one edit operation
    handed to the model with identity [m]), and tab-bar rebuilds. *)
Inductive Effect : Type :=
| push_edit (m : nat) (range : Range) (text : JsVal)
| create_alert (title msg : string)
| browser_alert (msg : string)
| set_active_tab (p : option string) (dirty : bool)
| confirm_dialog (title msg : string)
| open_dialog
| save_dialog (text : string) (p : option string)
| save_as_dialog (text : string) (p : option string)
| render_tabs.

(** A handler suspended at an [await], with what the rest of it uses:
    [closeTab] waiting for [confirm_dialog] (the index and the identifier
    of the tab), [doOpen] waiting for [open_dialog], [doSave] or
    [doSaveAs] waiting for the save dialog (the tab object, named by its
    identifier). *)
Inductive Pending : Type :=
| AwaitConfirm (tabIdx : nat) (tabId : Z)
| AwaitOpen
| AwaitSave (tabId : Z).

Record State : Type := mkState {
  tabs : list Tab;
  nextTabId : Z;
  activeTabId : Z;
  editor : Editor;
  (** number of models the widget has created so far *)
  modelCount : nat;
  dom : Dom;
  host : HostApi;
  trace : list Effect;
  (** handlers waiting for the host, oldest first *)
  pending : list Pending
}.

(** The script's initial bindings, before [bootMonaco] adds the first
    tab: no tabs, the editor created with [model: null], the modal
    hidden. *)
Definition initState (h : HostApi) : State :=
  mkState [] 0 (-1) (mkEditor None initialView) 0
          (mkDom true "" "" [] "" FocusElsewhere) h [] [].

(** *** Field updates *)

Definition with_tabs (ts : list Tab) (st : State) : State :=
  mkState ts (nextTabId st) (activeTabId st) (editor st) (modelCount st)
          (dom st) (host st) (trace st) (pending st).

Definition with_activeTabId (a : Z) (st : State) : State :=
  mkState (tabs st) (nextTabId st) a (editor st) (modelCount st)
          (dom st) (host st) (trace st) (pending st).

Definition with_editor (e : Editor) (st : State) : State :=
  mkState (tabs st) (nextTabId st) (activeTabId st) e (modelCount st)
          (dom st) (host st) (trace st) (pending st).

Definition with_dom (d : Dom) (st : State) : State :=
  mkState (tabs st) (nextTabId st) (activeTabId st) (editor st) (modelCount st)
          d (host st) (trace st) (pending st).

Definition emit (e : Effect) (st : State) : State :=
  mkState (tabs st) (nextTabId st) (activeTabId st) (editor st) (modelCount st)
          (dom st) (host st) (trace st ++ [e]) (pending st).

Definition with_pending (ps : list Pending) (st : State) : State :=
  mkState (tabs st) (nextTabId st) (activeTabId st) (editor st) (modelCount st)
          (dom st) (host st) (trace st) ps.

(** A handler reaches its [await]. *)
Definition suspend (p : Pending) (st : State) : State :=
  with_pending (pending st ++ [p]) st.

Definition set_viewState (vs : option ViewState) (t : Tab) : Tab :=
  mkTab (id t) (path t) (model t) vs (isDirty t).

Definition set_isDirty (d : bool) (t : Tab) : Tab :=
  mkTab (id t) (path t) (model t) (viewState t) d.

Definition set_path (p : option string) (t : Tab) : Tab :=
  mkTab (id t) p (model t) (viewState t) (isDirty t).

Definition set_model (m : TextModel) (t : Tab) : Tab :=
  mkTab (id t) (path t) m (viewState t) (isDirty t).

(** The tab's model with new text: same object, same language. *)
Definition set_value (v : string) (t : Tab) : Tab :=
  set_model (mkTextModel (uri (model t)) v (languageId (model t))) t.

(** The tab's model with a new language: same object, same text. *)
Definition set_language (lang : string) (t : Tab) : Tab :=
  set_model (mkTextModel (uri (model t)) (value (model t)) lang) t.

Definition set_focus (f : Focus) (d : Dom) : Dom :=
  mkDom (modal_hidden d) (surg_value d) (surg_placeholder d)
        (tabs_container d) (status_filepath d) f.

Definition set_modal_hidden (b : bool) (d : Dom) : Dom :=
  mkDom b (surg_value d) (surg_placeholder d)
        (tabs_container d) (status_filepath d) (focus d).

(** *** Tab helper functions *)

(** [tabs.findIndex(t => t.id === tabId)] *)
Definition findIndex (tabId : Z) (ts : list Tab) : option nat :=
  fst <$> list_find (λ t, id t = tabId) ts.

(** [getTab]: [tabs.find(t => t.id === tabId)] *)
Definition getTab (tabId : Z) (st : State) : option Tab :=
  snd <$> list_find (λ t, id t = tabId) (tabs st).

Definition getActiveTab (st : State) : option Tab :=
  getTab (activeTabId st) st.

(** An assignment to a field of the object [getTab(tabId)] returned: the
    first tab carrying that id is changed where it sits in [tabs]. *)
Definition update_tab (tabId : Z) (f : Tab → Tab) (st : State) : State :=
  match findIndex tabId (tabs st) with
  | Some i => with_tabs (alter f i (tabs st)) st
  | None => st
  end.

(** ** Exceptions

    A computation that may throw: the state reached travels with the
    outcome, because a JavaScript exception does not undo assignments made
    before it. *)

Definition M (A : Type) : Type := State → (Exn + A) * State.

#[global] Instance M_ret : MRet M := λ A a st, (inr a, st).

#[global] Instance M_bind : MBind M := λ A B f m st,
  match m st with
  | (inl e, st') => (inl e, st')
  | (inr a, st') => f a st'
  end.

Definition throw {A : Type} (e : Exn) : M A := λ st, (inl e, st).

(** A value or exception computed without touching the state. *)
Definition lift_exn {A : Type} (r : Exn + A) : M A := λ st, (r, st).

Definition gets {A : Type} (f : State → A) : M A := λ st, (inr (f st), st).

Definition modify (f : State → State) : M unit := λ st, (inr tt, f st).

(** [try { m } catch (e) { h(e) }] *)
Definition try_catch (m : M unit) (h : Exn → State → State) : State → State :=
  λ st, match m st with
        | (inl e, st') => h e st'
        | (inr _, st') => st'
        end.

(** ** The script *)

Definition SURGICAL_SCHEMA : list (string * JsVal) :=
  [ ("file_path", JStr "string (optional, for context)");
    ("start_line", JStr "number");
    ("end_line", JStr "number");
    ("start_column", JStr "number (optional)");
    ("end_column", JStr "number (optional)");
    ("replacement_code", JStr "string") ].

(** Answer of the host to [save_dialog] / [save_as_dialog]. *)
Record SaveResponse : Type := mkSaveResponse {
  saved : bool;
  res_path : option string
}.

(** Answer of the host to [open_dialog]; [open_text] is [None] when
    [typeof res.text] is not ['string']. *)
Record OpenResponse : Type := mkOpenResponse {
  open_path : option string;
  open_text : option string
}.

Section Script.
Context `{Platform}.

(** *** Tab bar *)

Definition languageFromPath (p : option string) : string :=
  match p with
  | None => "plaintext"
  | Some p =>
      if negb (truthy_str p) then "plaintext"
      else
        let ext := "." +:+ after_last_dot p in
        let hit :=
          List.find (λ l, match extensions l with
                          | Some exts => bool_decide (ext ∈ exts)
                          | None => false
                          end) getLanguages in
        match hit with
        | Some l => lang_id l
        | None => "plaintext"
        end
  end.

(** [x || fallback] for a nullable string [x]. *)
Definition path_or {A : Type} (p : option string) (some : string → A) (fallback : A) : A :=
  match p with
  | Some s => if truthy_str s then some s else fallback
  | None => fallback
  end.

Definition tabEl (st : State) (tab : Tab) : TabEl :=
  mkTabEl (id tab)
          (bool_decide (id tab = activeTabId st))
          (path_or (path tab) basename "Untitled")
          (if isDirty tab then DirtyMarker else CloseControl).

Definition renderTabs (st : State) : State :=
  let activeTab := getActiveTab st in
  let st1 :=
    with_dom (mkDom (modal_hidden (dom st)) (surg_value (dom st))
                    (surg_placeholder (dom st)) (tabEl st <$> tabs st)
                    (status_filepath (dom st)) (focus (dom st)))
             (emit render_tabs st) in
  let st2 :=
    if has_set_active_tab (host st1) then
      emit (set_active_tab
              (activeTab ≫= λ t, path_or (path t) Some None)
              (from_option isDirty false activeTab)) st1
    else st1 in
  with_dom (mkDom (modal_hidden (dom st2)) (surg_value (dom st2))
                  (surg_placeholder (dom st2)) (tabs_container (dom st2))
                  (from_option (λ t, path_or (path t) (λ s, s) "[Untitled]")
                               "[Untitled]" activeTab)
                  (focus (dom st2))) st2.

(** *** Tab manager *)

Definition switchTab (tabId : Z) (st : State) : State :=
  if decide (activeTabId st = tabId) then st
  else
    let st1 :=
      match getActiveTab st with
      | Some currentTab =>
          update_tab (id currentTab) (set_viewState (saveViewState (editor st))) st
      | None => st
      end in
    let st2 := with_activeTabId tabId st1 in
    let newTab := getActiveTab st2 in
    let st3 := with_editor (setModel (uri ∘ model <$> newTab) (editor st2)) st2 in
    let st4 :=
      match newTab ≫= viewState with
      | Some vs => with_editor (restoreViewState vs (editor st3)) st3
      | None => st3
      end in
    renderTabs (with_dom (set_focus FocusEditor (dom st4)) st4).

(** The observer [addTab] registers on the new tab's model, for the tab
    [tabId]: the widget calls it after every change of that model's
    content.  A disposed model notifies nobody, so the tab is in the
    collection whenever it runs. *)
Definition onDidChangeContent (tabId : Z) (st : State) : State :=
  match getTab tabId st with
  | Some newTab =>
      if negb (isDirty newTab) then
        renderTabs (update_tab tabId (set_isDirty true) st)
      else st
  | None => st
  end.

Definition addTab (p : option string) (text : string) (st : State) : State :=
  let existing :=
    path_or p (λ s, List.find (λ t, bool_decide (path t = Some s)) (tabs st)) None in
  match existing with
  | Some t => switchTab (id t) st
  | None =>
      let newTab :=
        mkTab (nextTabId st) p
              (mkTextModel (modelCount st) (createModel_value text)
                           (languageFromPath p))
              None false in
      let st1 :=
        mkState (tabs st ++ [newTab]) (nextTabId st + 1) (activeTabId st)
                (editor st) (S (modelCount st)) (dom st) (host st) (trace st)
                (pending st) in
      switchTab (id newTab) st1
  end.

(** [closeTab], lines after the confirmation: remove the tab at
    [tabIdx], dispose its model, and re-select when the closed tab was the
    active one.  [tabIdx] was computed before the confirmation was awaited;
    when nothing sits at that index any more the read of [removedTab.model]
    throws. *)
Definition closeTab_remove (tabIdx : nat) (tabId : Z) : M unit := λ st,
  match tabs st !! tabIdx with
  | None =>
      (inl (TypeError "Cannot read properties of undefined (reading 'model')"), st)
  | Some removedTab =>
      let st1 := with_tabs (delete tabIdx (tabs st)) st in
      let st2 := with_editor (dispose (model removedTab) (editor st1)) st1 in
      if decide (activeTabId st2 = tabId) then
        let newActiveIdx := Z.to_nat (Z.max 0 (Z.of_nat tabIdx - 1)) in
        let newActiveTab :=
          if bool_decide (0 < List.length (tabs st2))%nat then tabs st2 !! newActiveIdx
          else None in
        (inr tt, switchTab (from_option id (-1) newActiveTab) st2)
      else (inr tt, st2)
  end.

(** [closeTab], last statement: never leave the bar empty. *)
Definition closeTab_refill (st : State) : State :=
  if bool_decide (List.length (tabs st) = 0%nat) then addTab None "" st
  else renderTabs st.

(** [closeTab(event, tabId)]; [confirmed] is the host's answer to
    [confirm_dialog], consulted only for a dirty tab. *)
Definition closeTab (confirmed : bool) (tabId : Z) : M unit := λ st,
  match findIndex tabId (tabs st) with
  | None => (inr tt, st)
  | Some tabIdx =>
      match getTab tabId st with
      | None =>
          (inl (TypeError "Cannot read properties of undefined (reading 'isDirty')"), st)
      | Some tabToClose =>
          let proceed : M unit := closeTab_remove tabIdx tabId ;; modify closeTab_refill in
          if isDirty tabToClose then
            let st1 :=
              emit (confirm_dialog "Unsaved Changes"
                      "You have unsaved changes. Are you sure you want to close this tab?")
                   st in
            if negb confirmed then (inr tt, st1) else proceed st1
          else proceed st
      end
  end.

(** [closeTab] up to its [await]: a tab that is not dirty is closed on
    the spot; for a dirty one the confirmation is requested and the rest
    waits, holding on to [tabIdx] and [tabId]. *)
Definition closeTab_begin (tabId : Z) : M unit := λ st,
  match findIndex tabId (tabs st) with
  | None => (inr tt, st)
  | Some tabIdx =>
      match getTab tabId st with
      | None =>
          (inl (TypeError "Cannot read properties of undefined (reading 'isDirty')"), st)
      | Some tabToClose =>
          if isDirty tabToClose then
            (inr tt,
             suspend (AwaitConfirm tabIdx tabId)
               (emit (confirm_dialog "Unsaved Changes"
                        "You have unsaved changes. Are you sure you want to close this tab?")
                     st))
          else (closeTab_remove tabIdx tabId ;; modify closeTab_refill) st
      end
  end.

(** [closeTab] after its [await], with the host's answer and the index
    and identifier computed before it. *)
Definition closeTab_resume (confirmed : bool) (tabIdx : nat) (tabId : Z) : M unit :=
  if negb confirmed then mret tt
  else closeTab_remove tabIdx tabId ;; modify closeTab_refill.

(** *** File operations *)

(** [doOpen]; [res] is the host's answer to [open_dialog]. *)
Definition doOpen (res : option OpenResponse) (st : State) : State :=
  if negb (has_open_dialog (host st)) then st
  else
    let st1 := emit open_dialog st in
    match res with
    | Some r =>
        match open_path r, open_text r with
        | Some p, Some text => addTab (Some p) text st1
        | _, _ => st1
        end
    | None => st1
    end.

(** The body both save functions run once the host has answered, on the
    tab object [tab] they looked up beforehand. *)
Definition save_response (tabId : Z) (res : option SaveResponse) (st : State) : State :=
  match res with
  | Some r =>
      if saved r then
        path_or (res_path r)
          (λ p,
             let st1 := update_tab tabId (set_path (Some p)) st in
             let st2 := update_tab tabId (set_isDirty false) st1 in
             let st3 :=
               update_tab tabId (λ t, set_language (languageFromPath (path t)) t) st2 in
             renderTabs st3)
          st
      else st
  | None => st
  end.

(** [doSave]; [res] is the host's answer to [save_dialog]. *)
Definition doSave (res : option SaveResponse) (st : State) : State :=
  match getActiveTab st with
  | None => st
  | Some tab =>
      save_response (id tab) res
        (emit (save_dialog (value (model tab)) (path tab)) st)
  end.

(** [doSaveAs]; [res] is the host's answer to [save_as_dialog]. *)
Definition doSaveAs (res : option SaveResponse) (st : State) : State :=
  match getActiveTab st with
  | None => st
  | Some tab =>
      save_response (id tab) res
        (emit (save_as_dialog (value (model tab)) (path tab)) st)
  end.

(** The halves of the three functions, as the event loop runs them. *)

(** [doOpen] up to its [await]. *)
Definition doOpen_begin (st : State) : State :=
  if negb (has_open_dialog (host st)) then st
  else suspend AwaitOpen (emit open_dialog st).

(** [doOpen] after its [await]. *)
Definition doOpen_resume (res : option OpenResponse) (st : State) : State :=
  match res with
  | Some r =>
      match open_path r, open_text r with
      | Some p, Some text => addTab (Some p) text st
      | _, _ => st
      end
  | None => st
  end.

(** [doSave] and [doSaveAs] up to their [await]: the active tab is looked
    up, its text and path go to the host, and the rest waits with the
    tab object. *)
Definition doSave_begin (st : State) : State :=
  match getActiveTab st with
  | None => st
  | Some tab =>
      suspend (AwaitSave (id tab))
        (emit (save_dialog (value (model tab)) (path tab)) st)
  end.

Definition doSaveAs_begin (st : State) : State :=
  match getActiveTab st with
  | None => st
  | Some tab =>
      suspend (AwaitSave (id tab))
        (emit (save_as_dialog (value (model tab)) (path tab)) st)
  end.

(** [doSave] and [doSaveAs] after their [await], on the tab object they
    hold.  When that tab was closed in the meantime the object is no
    longer in [tabs] and its model is disposed: the two assignments are
    lost, and the tab bar is rebuilt unless [setModelLanguage] throws. *)
Definition save_resume (tabId : Z) (res : option SaveResponse) (st : State) : State :=
  match getTab tabId st with
  | Some _ => save_response tabId res st
  | None =>
      match res with
      | Some r =>
          if saved r then
            path_or (res_path r)
              (λ _, match setModelLanguage_disposed with
                    | inl _ => st
                    | inr _ => renderTabs st
                    end)
              st
          else st
      | None => st
      end
  end.

(** *** Surgical replace *)

Definition showSurgicalReplace (st : State) : State :=
  let sel := getSelection (editor st) in
  let set3 (sl el : JsVal) (fields : list (string * JsVal)) :=
    set_prop (set_prop fields "start_line" sl) "end_line" el in
  let sampleSchema :=
    match sel with
    | Some s =>
        if negb (isEmpty s) then
          set_prop
            (set_prop
               (set_prop
                  (set3 (num (selStartLine s)) (num (selEndLine s)) SURGICAL_SCHEMA)
                  "start_column" (num (selStartColumn s)))
               "end_column" (num (selEndColumn s)))
            "replacement_code" (JStr "Your replacement text here...")
        else
          set_prop (set3 (num 1) (num 1) SURGICAL_SCHEMA)
                   "replacement_code" (JStr "Your replacement text here...")
    | None =>
        set_prop (set3 (num 1) (num 1) SURGICAL_SCHEMA)
                 "replacement_code" (JStr "Your replacement text here...")
    end in
  with_dom (mkDom false "" (JSON_stringify (JObj sampleSchema))
                  (tabs_container (dom st)) (status_filepath (dom st))
                  FocusSurgText) st.

Definition cancelSurgicalReplace (st : State) : State :=
  with_dom (set_focus FocusEditor (set_modal_hidden true (dom st))) st.

(** [tab.model.pushEditOperations([], [{range, text}], () => null)] on the
    model of the tab [tabId]: the buffer changes as the widget decides,
    and the widget then runs the content observer if it notifies. *)
Definition pushEditOperations (tabId : Z) (m : TextModel) (range : Range) (text : JsVal)
  : M unit :=
  modify (emit (push_edit (uri m) range text)) ;;
  '(v, notified) ← lift_exn (applyEdits (value m) range text) ;
  modify (update_tab tabId (set_value v)) ;;
  if notified : bool then modify (onDidChangeContent tabId) else mret tt.

(** [editor.revealRangeInCenter(range, Smooth)]: the editor throws unless
    the four coordinates are numbers, and has nothing to scroll while it
    shows no model. *)
Definition editor_revealRangeInCenter (range : Range) : M unit := λ st,
  if isIRange range then
    (inr tt,
     match ed_model (editor st) with
     | Some _ =>
         with_editor (mkEditor (ed_model (editor st))
                               (revealRangeInCenter range (ed_view (editor st)))) st
     | None => st
     end)
  else (inl (Error "Invalid arguments"), st).

(** [editor.setSelection(range)], with the same conditions. *)
Definition editor_setSelection (range : Range) : M unit := λ st,
  if isIRange range then
    (inr tt,
     match ed_model (editor st) with
     | Some _ =>
         with_editor (mkEditor (ed_model (editor st))
                               (setSelection range (ed_view (editor st)))) st
     | None => st
     end)
  else (inl (Error "Invalid arguments"), st).

(** The [try] block of [applySurgicalReplace]. *)
Definition applySurgicalReplace_try : M unit :=
  input ← gets (λ st, surg_value (dom st)) ;
  data ← lift_exn (JSON_parse input) ;
  sline ← lift_exn (get_prop data "start_line") ;
  eline ← lift_exn (get_prop data "end_line") ;
  scol ← lift_exn (get_prop data "start_column") ;
  ecol ← lift_exn (get_prop data "end_column") ;
  text ← lift_exn (get_prop data "replacement_code") ;
  (if nullish sline || nullish eline || nullish text then
     throw (Error "Missing required fields in JSON: start_line, end_line, replacement_code")
   else mret tt) ;;
  tab ← gets getActiveTab ;
  match tab with
  | Some tab =>
      let startColumn := if truthy scol then scol else num 1 in
      endColumn ← (if truthy ecol then mret ecol
                   else lift_exn (getLineMaxColumn (model tab) eline)) ;
      let range := newRange sline startColumn eline endColumn in
      pushEditOperations (id tab) (model tab) range text ;;
      editor_revealRangeInCenter range
  | None => mret tt
  end ;;
  modify cancelSurgicalReplace.

(** The [catch] block: a host alert when the host offers one, the
    browser's otherwise. *)
Definition applySurgicalReplace_catch (e : Exn) (st : State) : State :=
  let msg :=
    "Could not apply changes. Please ensure the text is valid JSON and matches the required schema."
    +:+ nl +:+ nl +:+ message e in
  if has_create_alert (host st) then emit (create_alert "JSON Parse Error" msg) st
  else emit (browser_alert msg) st.

Definition applySurgicalReplace (st : State) : State :=
  if negb (truthy_str (surg_value (dom st))) then cancelSurgicalReplace st
  else try_catch applySurgicalReplace_try applySurgicalReplace_catch st.

End Script.

(** ** The event loop

    Everything that can happen after boot: the handlers the script
    installs, the host answering a handler that waits for it, and what
    the user and the widget do on their own account (typing in the
    dialog's textarea, scrolling or moving the cursor, editing the
    visible model, the host API appearing).  A handler that waits can be
    answered at any later time, in any order, or never. *)

(** What the host answers a suspended handler with. *)
Inductive Answer : Type :=
| Confirmed (confirmed : bool)
| Opened (res : option OpenResponse)
| Saved (res : option SaveResponse).

Inductive Event : Type :=
| EvAddTab (p : option string) (text : string)
| EvSwitchTab (tabId : Z)
| EvCloseTab (tabId : Z)
| EvOpen
| EvSave
| EvSaveAs
| EvAnswer (n : nat) (a : Answer)
| EvShowSurgical
| EvApplySurgical
| EvCancelSurgical
| EvInput (text : string)
| EvView (v : ViewState)
| EvEdit (text : string)
| EvHost (h : HostApi).

Section Loop.
Context `{Platform}.

(** The user edits the visible document: the active tab's model gets the
    new text and the widget notifies its observer. *)
Definition userEdit (text : string) (st : State) : State :=
  match getActiveTab st with
  | Some tab =>
      onDidChangeContent (id tab) (update_tab (id tab) (set_value text) st)
  | None => st
  end.

Definition step (ev : Event) (st : State) : State :=
  match ev with
  | EvAddTab p text => addTab p text st
  | EvSwitchTab tabId =>
      (* the click handler of a rendered tab element *)
      if bool_decide (tabId ∈ el_tab <$> tabs_container (dom st)) then switchTab tabId st
      else st
  | EvCloseTab tabId => (closeTab_begin tabId st).2
  | EvOpen => doOpen_begin st
  | EvSave => doSave_begin st
  | EvSaveAs => doSaveAs_begin st
  | EvAnswer n a =>
      (* the host answers the handler at position [n] of [pending]; an
         answer is of the kind the handler asked for *)
      match pending st !! n with
      | Some p =>
          let st1 := with_pending (delete n (pending st)) st in
          match p, a with
          | AwaitConfirm tabIdx tabId, Confirmed confirmed =>
              (closeTab_resume confirmed tabIdx tabId st1).2
          | AwaitOpen, Opened res => doOpen_resume res st1
          | AwaitSave tabId, Saved res => save_resume tabId res st1
          | _, _ => st
          end
      | None => st
      end
  | EvShowSurgical => showSurgicalReplace st
  | EvApplySurgical => applySurgicalReplace st
  | EvCancelSurgical => cancelSurgicalReplace st
  | EvInput text =>
      with_dom (mkDom (modal_hidden (dom st)) text (surg_placeholder (dom st))
                      (tabs_container (dom st)) (status_filepath (dom st))
                      (focus (dom st))) st
  | EvView v =>
      with_editor (restoreViewState v (editor st)) st
  | EvEdit text => userEdit text st
  | EvHost h =>
      mkState (tabs st) (nextTabId st) (activeTabId st) (editor st)
              (modelCount st) (dom st) h (trace st) (pending st)
  end.

Definition run (evs : list Event) (st : State) : State :=
  foldl (λ s ev, step ev s) st evs.

(** States the program can be in. *)
Inductive reachable : State → Prop :=
| reachable_init h : reachable (initState h)
| reachable_step ev st : reachable st → reachable (step ev st).

End Loop.

(** ** Vocabulary of the properties *)

(** The state is well formed: identifiers are distinct and were handed
    out by the counter, as were the active identifier (or it is -1) and
    the identifiers behind the rendered tab elements; models are distinct
    objects the widget has created; and the editor shows the active tab's
    model (none without an active tab). *)
Record WF (st : State) : Prop := mkWF {
  wf_ids : NoDup (id <$> tabs st);
  wf_fresh : Forall (λ i, 0 ≤ i < nextTabId st) (id <$> tabs st);
  wf_active : -1 ≤ activeTabId st < nextTabId st;
  wf_rendered : Forall (λ i, 0 ≤ i < nextTabId st) (el_tab <$> tabs_container (dom st));
  wf_uris : NoDup (uri ∘ model <$> tabs st);
  wf_created : Forall (λ u, (u < modelCount st)%nat) (uri ∘ model <$> tabs st);
  wf_shown : ed_model (editor st) = uri ∘ model <$> getActiveTab st
}.

(** A tab without its saved view state. *)
Definition content (t : Tab) : Z * option string * TextModel * bool :=
  (id t, path t, model t, isDirty t).



(** An edit handed to a model. *)
Definition is_edit (e : Effect) : bool :=
  match e with
  | push_edit _ _ _ => true
  | _ => false
  end.

(** An alert of either kind. *)
Definition is_alert (e : Effect) : bool :=
  match e with
  | create_alert _ _ | browser_alert _ => true
  | _ => false
  end.

(** The parsed input is an object that has the field [k] with a value
    other than [null]. *)
Definition present (data : JsVal) (k : string) : bool :=
  match data with
  | JObj fields =>
      match own_prop fields k with
      | Some v => negb (nullish v)
      | None => false
      end
  | _ => false
  end.

Definition has_required (data : JsVal) : bool :=
  present data "start_line" && present data "end_line" && present data "replacement_code".

(** The field [k] of the parsed input, [undefined] when absent. *)
Definition field (data : JsVal) (k : string) : JsVal :=
  match data with
  | JObj fields => default JUndefined (own_prop fields k)
  | _ => JUndefined
  end.

(** What a tab-bar rebuild tells the host about the active tab, when the
    host listens. *)
Definition host_notification (st : State) : list Effect :=
  if has_set_active_tab (host st) then
    [set_active_tab (getActiveTab st ≫= λ t, path_or (path t) Some None)
                    (from_option isDirty false (getActiveTab st))]
  else [].

(** The error dialog shown for the exception [e]: the host's alert when
    available, the browser's otherwise. *)
Definition alert_of (st : State) (e : Exn) : Effect :=
  let msg :=
    "Could not apply changes. Please ensure the text is valid JSON and matches the required schema."
    +:+ nl +:+ nl +:+ message e in
  if has_create_alert (host st) then create_alert "JSON Parse Error" msg
  else browser_alert msg.

(** ** A concrete platform for running the script

    A small stand-in for the runtime and the widget: a JSON reader that
    knows a handful of texts, a three-language registry, and a buffer that
    performs single-line replacements.  It is used to evaluate the script
    on concrete inputs. *)

Module Demo.

Definition dq : string := String "034"%char "".

(** ["k":] *)
Definition key (k : string) : string := dq +:+ k +:+ dq +:+ ":".

(** [{"start_line":2,"end_line":2,"replacement_code":"X"}] *)
Definition patch_text : string :=
  "{" +:+ key "start_line" +:+ "2," +:+ key "end_line" +:+ "2,"
      +:+ key "replacement_code" +:+ dq +:+ "X" +:+ dq +:+ "}".

Definition patch : JsVal :=
  JObj [("start_line", num 2); ("end_line", num 2); ("replacement_code", JStr "X")].

(** [{"start_line":2,"end_line":2}] *)
Definition patch_no_code_text : string :=
  "{" +:+ key "start_line" +:+ "2," +:+ key "end_line" +:+ "2}".

Definition patch_no_code : JsVal :=
  JObj [("start_line", num 2); ("end_line", num 2)].

(** [{"start_line":2,"end_line":1,"replacement_code":"X"}]: the start
    line after the end line. *)
Definition patch_reversed_text : string :=
  "{" +:+ key "start_line" +:+ "2," +:+ key "end_line" +:+ "1,"
      +:+ key "replacement_code" +:+ dq +:+ "X" +:+ dq +:+ "}".

Definition patch_reversed : JsVal :=
  JObj [("start_line", num 2); ("end_line", num 1); ("replacement_code", JStr "X")].

(** [{"start_line":2,"end_line":2,"start_column":"1","replacement_code":"X"}]:
    the start column given as a string. *)
Definition patch_column_text : string :=
  "{" +:+ key "start_line" +:+ "2," +:+ key "end_line" +:+ "2,"
      +:+ key "start_column" +:+ dq +:+ "1" +:+ dq +:+ ","
      +:+ key "replacement_code" +:+ dq +:+ "X" +:+ dq +:+ "}".

Definition patch_column : JsVal :=
  JObj [("start_line", num 2); ("end_line", num 2); ("start_column", JStr "1");
        ("replacement_code", JStr "X")].

Definition parse (text : string) : Exn + JsVal :=
  if String.eqb text patch_text then inr patch
  else if String.eqb text patch_no_code_text then inr patch_no_code
  else if String.eqb text patch_reversed_text then inr patch_reversed
  else if String.eqb text patch_column_text then inr patch_column
  else if String.eqb text "null" then inr JNull
  else if String.eqb text "[]" then inr (JArr [])
  else inl (SyntaxError "Unexpected token").

Definition languages : list Language :=
  [ mkLanguage "plaintext" (Some [".txt"]);
    mkLanguage "python" (Some [".py"; ".pyw"]);
    mkLanguage "javascript" (Some [".js"; ".mjs"]);
    mkLanguage "custom" None ].

Definition whole (v : JsVal) : option Z :=
  match v with
  | JNum q => if Z.eqb (Zpos (Qden q)) 1 then Some (Qnum q) else None
  | _ => None
  end.

Definition join_lines (ls : list string) : string :=
  match ls with
  | [] => ""
  | l :: rest => foldl (λ acc x, acc +:+ nl +:+ x) l rest
  end.

(** A coordinate of the range of an edit: the buffer takes 1 for one
    that is not a number. *)
Definition coord (v : JsVal) : option Z :=
  match v with
  | JNum _ => whole v
  | _ => Some 1
  end.

(** Replace [startColumn, endColumn) of one line by [text]. *)
Definition edit (v : string) (r : Range) (text : JsVal) : Exn + (string * bool) :=
  match coord (startLineNumber r), coord (startColumn r),
        coord (endLineNumber r), coord (endColumn r), text with
  | Some sl, Some sc, Some el, Some ec, JStr t =>
      let ls := lines_of v in
      let i := Z.to_nat (sl - 1) in
      match ls !! i with
      | Some line =>
          if Z.eqb sl el && Z.leb 1 sl && Z.leb 1 sc && Z.leb sc ec
             && Z.leb ec (Z.of_nat (String.length line) + 1) then
            let a := Z.to_nat (sc - 1) in
            let b := Z.to_nat (ec - 1) in
            let line' :=
              substring 0 a line +:+ t +:+ substring b (String.length line - b) line in
            inr (join_lines (<[i := line']> ls), true)
          else inl (Error "unsupported edit")
      | None => inl (Error "unsupported edit")
      end
  | _, _, _, _, _ => inl (Error "unsupported edit")
  end.

(** [editor.setSelection]: a range of whole numbers becomes the
    selection, anything else is ignored. *)
Definition select (r : Range) (v : ViewState) : ViewState :=
  match whole (startLineNumber r), whole (startColumn r),
        whole (endLineNumber r), whole (endColumn r) with
  | Some sl, Some sc, Some el, Some ec =>
      mkViewState (scrollTop v) (scrollLeft v) (mkSelection sl sc el ec)
  | _, _, _, _ => v
  end.

#[global] Instance platform : Platform := {|
  JSON_parse := parse;
  JSON_stringify := λ _, "{}";
  getLanguages := languages;
  applyEdits := edit;
  revealRangeInCenter := λ r v, v;
  setSelection := select;
  js_gt := λ _ _, false;
  lineMaxColumn_coerced := λ _ _, inl (Error "unsupported line number");
  setModelLanguage_disposed := inr tt
|}.

Definition host_off : HostApi := mkHostApi false false false.
Definition host_on : HostApi := mkHostApi true true true.

(** Two lines, the second ten characters long. *)
Definition two_lines : string := "first" +:+ nl +:+ "0123456789".

(** After boot with a file and one more untitled tab. *)
Definition two_tabs : State :=
  run [EvAddTab (Some "/tmp/a.py") two_lines; EvAddTab None ""] (initState host_on).

(** One tab, clean. *)
Definition one_tab : State :=
  run [EvAddTab (Some "/tmp/a.py") two_lines] (initState host_on).

(** One tab, edited by the user. *)
Definition one_dirty_tab : State :=
  run [EvAddTab (Some "/tmp/a.py") two_lines; EvEdit "changed"] (initState host_on).

(** The dialog open on [one_tab] with the given text typed in. *)
Definition dialog_with (text : string) : State :=
  run [EvShowSurgical; EvInput text] one_tab.

(** The tabs of these states. *)
Definition file_tab : Tab :=
  mkTab 0 (Some "/tmp/a.py") (mkTextModel 0 two_lines "python") None false.

Definition file_tab_left : Tab :=
  mkTab 0 (Some "/tmp/a.py") (mkTextModel 0 two_lines "python") (Some initialView) false.

Definition file_tab_dirty : Tab :=
  mkTab 0 (Some "/tmp/a.py") (mkTextModel 0 "changed" "python") None true.

Definition untitled_tab : Tab :=
  mkTab 1 None (mkTextModel 1 "" "plaintext") None false.

(** A view scrolled down, cursor on line 7. *)
Definition scrolled : ViewState := mkViewState 120 0 (mkSelection 7 3 7 3).

(** Another view. *)
Definition elsewhere : ViewState := mkViewState 40 8 (mkSelection 2 1 2 5).

(** [two_tabs] after the user scrolled the untitled tab. *)
Definition two_tabs_scrolled : State := run [EvView scrolled] two_tabs.

(** One untitled tab holding a single line, with the dialog open on it
    and a patch for line 2 typed in. *)
Definition short_tab : Tab :=
  mkTab 0 None (mkTextModel 0 "one line" "plaintext") None false.

Definition short_dialog : State :=
  run [EvAddTab None "one line"; EvShowSurgical; EvInput patch_text]
      (initState host_on).

(** [two_tabs] after the file's tab was closed. *)
Definition closed_first : State := run [EvCloseTab 0] two_tabs.



(** A first line of ten characters and a second line, in an untitled tab
    with the dialog open and the reversed patch typed in. *)
Definition ten_first : string := "0123456789" +:+ nl +:+ "second".

Definition ten_first_tab : Tab :=
  mkTab 0 None (mkTextModel 0 ten_first "plaintext") None false.

Definition reversed_dialog : State :=
  run [EvAddTab None ten_first; EvShowSurgical; EvInput patch_reversed_text]
      (initState host_on).

(** A file, an untitled tab the user typed into, and one more untitled
    tab, which is the active one. *)
Definition three_tabs : State :=
  run [EvAddTab (Some "/tmp/a.py") two_lines; EvAddTab None ""; EvEdit "draft";
       EvAddTab None ""]
      (initState host_on).

Definition draft_tab : Tab :=
  mkTab 1 None (mkTextModel 1 "draft" "plaintext") (Some initialView) true.

Definition last_tab : Tab :=
  mkTab 2 None (mkTextModel 2 "" "plaintext") None false.

(** The user asks to close the edited tab, and closes the file's tab
    before answering the confirmation. *)
Definition asked_late : State := run [EvCloseTab 1; EvCloseTab 0] three_tabs.

End Demo.

(** The collection once [switchTab] has stored the editor's view state in
    the outgoing active tab (nothing changes without an active tab). *)
Definition outgoing_saved (st : State) : State :=
  update_tab (activeTabId st) (set_viewState (saveViewState (editor st))) st.

(** The editor once [switchTab] has attached the model of [newTab] and
    restored its saved view state, if any. *)
Definition incoming_shown (newTab : option Tab) (e : Editor) : Editor :=
  let e' := setModel (uri ∘ model <$> newTab) e in
  match newTab ≫= viewState with
  | Some vs => restoreViewState vs e'
  | None => e'
  end.

(** The state [addTab] hands to [switchTab] when it creates a tab: the new
    tab appended, both counters advanced. *)
Definition appended `{Platform} (p : option string) (text : string) (st : State) : State :=
  mkState (tabs st ++ [mkTab (nextTabId st) p
                             (mkTextModel (modelCount st) (createModel_value text)
                                          (languageFromPath p))
                             None false])
          (nextTabId st + 1) (activeTabId st) (editor st) (S (modelCount st))
          (dom st) (host st) (trace st) (pending st).

(** The tab [p] dedups against: the first one carrying that path, for a
    path that is neither [null] nor empty. *)
Definition existing_tab (p : option string) (st : State) : option Tab :=
  path_or p (λ s, List.find (λ t, bool_decide (path t = Some s)) (tabs st)) None.

(** A tab after a successful save to [p]. *)
Definition saved_tab `{Platform} (p : string) (tab : Tab) : Tab :=
  mkTab (id tab) (Some p)
        (mkTextModel (uri (model tab)) (value (model tab)) (languageFromPath (Some p)))
        (viewState tab) false.

(** The host's answer reports success and carries a path. *)
Definition save_succeeded (res : option SaveResponse) (p : string) : Prop :=
  res = Some (mkSaveResponse true (Some p)) ∧ p ≠ "".

(** The host's answer is absent, unsuccessful, or carries no path. *)
Definition save_declined (res : option SaveResponse) : Prop :=
  res = None
  ∨ ∃ r, res = Some r
         ∧ (saved r = false ∨ res_path r = None ∨ res_path r = Some "").

(** [closeTab] right after the tab at [tabIdx] was taken out and its model
    disposed. *)
Definition removed_at (tabIdx : nat) (removedTab : Tab) (st : State) : State :=
  with_editor (dispose (model removedTab) (editor st))
              (with_tabs (delete tabIdx (tabs st)) st).

(** [Math.max(0, tabIdx - 1)] *)
Definition newActiveIdx (tabIdx : nat) : nat :=
  Z.to_nat (Z.max 0 (Z.of_nat tabIdx - 1)).

(** The request [closeTab] sends for a dirty tab. *)
Definition unsaved_changes : Effect :=
  confirm_dialog "Unsaved Changes"
    "You have unsaved changes. Are you sure you want to close this tab?".

(** The tab a fresh [addTab(null, '')] creates in [st], without its view. *)
Definition blank_tab (st : State) : Z * option string * TextModel * bool :=
  (nextTabId st, None, mkTextModel (modelCount st) "" "plaintext", false).

(** A computation keeps the invariant, whether it returns or throws. *)
Definition keeps_WF {A : Type} (m : M A) : Prop :=
  ∀ st, WF st → WF (m st).2.

(** ** The first tab at boot

    [bootMonaco], from the creation of the first tab to the boot-time
    replacement or selection (the statements between the theme and the
    key handlers).  The editor itself, created just before with
    [model: null], is the one of [initState]; its options and the theme
    have no counterpart in [State].  Nothing catches an exception here:
    when one is thrown the rest of [bootMonaco], which installs the
    handlers, does not run. *)

(** The decoded boot payload; [path] is a string or missing, [text] is
    a string, the other fields are whatever the JSON holds. *)
Record Boot : Type := mkBoot {
  boot_path : option string;
  boot_text : string;
  boot_replaceText : JsVal;
  boot_sline : JsVal;
  boot_eline : JsVal;
  boot_scol : JsVal;
  boot_ecol : JsVal;
  boot_autosave : JsVal
}.

Section Boot.
Context `{Platform}.

(** The result is whether [doSave] was scheduled ([BOOT.autosave]). *)
Definition bootMonaco_open (BOOT : Boot) : M bool :=
  modify (addTab (boot_path BOOT) (boot_text BOOT)) ;;
  tab ← gets getActiveTab ;
  match tab with
  | Some tab =>
      if negb (nullish (boot_replaceText BOOT))
         && truthy (boot_sline BOOT) && truthy (boot_eline BOOT) then
        let startColumn := if truthy (boot_scol BOOT) then boot_scol BOOT else num 1 in
        endColumn ← (if truthy (boot_ecol BOOT) then mret (boot_ecol BOOT)
                     else lift_exn (getLineMaxColumn (model tab) (boot_eline BOOT))) ;
        let range := newRange (boot_sline BOOT) startColumn (boot_eline BOOT) endColumn in
        pushEditOperations (id tab) (model tab) range (boot_replaceText BOOT) ;;
        editor_setSelection (newRange (num 0) (num 0) (num 0) (num 0)) ;;
        editor_revealRangeInCenter range ;;
        mret (truthy (boot_autosave BOOT))
      else if truthy (boot_sline BOOT) && truthy (boot_eline BOOT) then
        let range := newRange (boot_sline BOOT) (num 1) (boot_eline BOOT) (num 1) in
        editor_revealRangeInCenter range ;;
        editor_setSelection range ;;
        mret false
      else mret false
  | None => mret false
  end.

End Boot.

(** ** Vocabulary of the further properties *)

(** The tab bar shows the tabs as they are: one element per tab, in
    order, with the current name, highlight and icon. *)
Definition in_sync (st : State) : Prop :=
  tabs_container (dom st) = tabEl st <$> tabs st.

(** Some tab is active. *)
Definition live (st : State) : Prop := is_Some (getActiveTab st).

(** The dialog as the user sees it: hidden or not, the text typed in,
    the template shown as placeholder. *)
Definition dialog (st : State) : bool * string * string :=
  (modal_hidden (dom st), surg_value (dom st), surg_placeholder (dom st)).

(** The alerts raised so far. *)
Definition alerts (tr : list Effect) : list Effect := List.filter is_alert tr.

(** The document a tab holds: which tab, which model object, which text. *)
Definition doc (t : Tab) : Z * nat * string :=
  (id t, uri (model t), value (model t)).

(** A property of the state that a computation keeps, whether it returns
    or throws. *)
Definition keeps {A : Type} (P : State → Prop) (m : M A) : Prop :=
  ∀ st, P st → P (m st).2.

(** Events of the surgical-replace dialog. *)
Definition is_dialog_event (ev : Event) : bool :=
  match ev with
  | EvShowSurgical | EvApplySurgical | EvCancelSurgical | EvInput _ => true
  | _ => false
  end.

(** Events that edit a document. *)
Definition is_edit_event (ev : Event) : bool :=
  match ev with
  | EvEdit _ | EvApplySurgical => true
  | _ => false
  end.

(** The state [switchTab] hands to [renderTabs] when it does switch. *)
Definition switched (tabId : Z) (st : State) : State :=
  let o := outgoing_saved st in
  with_dom (set_focus FocusEditor (dom o))
    (with_editor (incoming_shown (getTab tabId o) (editor o))
       (with_activeTabId tabId o)).

(** The template [showSurgicalReplace] shows for the selection [sel]. *)
Definition sampleSchema (sel : option Selection) : list (string * JsVal) :=
  let lines (sl el : JsVal) :=
    set_prop (set_prop SURGICAL_SCHEMA "start_line" sl) "end_line" el in
  let default :=
    set_prop (lines (num 1) (num 1))
             "replacement_code" (JStr "Your replacement text here...") in
  match sel with
  | Some s =>
      if negb (isEmpty s) then
        set_prop
          (set_prop
             (set_prop (lines (num (selStartLine s)) (num (selEndLine s)))
                       "start_column" (num (selStartColumn s)))
             "end_column" (num (selEndColumn s)))
          "replacement_code" (JStr "Your replacement text here...")
      else default
  | None => default
  end.

(** From [st] to [st'] the dialog was left alone and no alert was
    raised. *)
Definition calm (st st' : State) : Prop :=
  dialog st' = dialog st ∧ alerts (trace st') = alerts (trace st).



(** From [st] to [st'] no tab was added, removed or re-selected: the
    same identifiers in the same order, the same active tab, the same
    counter. *)
Definition same_shape (st st' : State) : Prop :=
  id <$> tabs st' = id <$> tabs st
  ∧ activeTabId st' = activeTabId st
  ∧ nextTabId st' = nextTabId st.

(** From [st] to [st'], seen through [g]: every tab of [st'] was in [st]
    already, or carries the identifier that was next in [st]; and the
    counter did not go back. *)
Definition grows {B : Type} (g : Tab → B) (st st' : State) : Prop :=
  (∀ x, x ∈ g <$> tabs st' →
     x ∈ g <$> tabs st ∨ ∃ t, x = g t ∧ id t = nextTabId st)
  ∧ (nextTabId st ≤ nextTabId st')%Z.


(** The tab [bootMonaco] creates from the payload. *)
Definition first_tab `{Platform} (BOOT : Boot) : Tab :=
  mkTab 0 (boot_path BOOT)
        (mkTextModel 0 (createModel_value (boot_text BOOT))
                     (languageFromPath (boot_path BOOT)))
        None false.

(** Whether the boot-time replacement is attempted:
    [BOOT.replaceText != null && BOOT.sline && BOOT.eline]. *)
Definition boot_replaces (BOOT : Boot) : bool :=
  negb (nullish (boot_replaceText BOOT))
  && truthy (boot_sline BOOT) && truthy (boot_eline BOOT).

(** [BOOT.ecol || tab.model.getLineMaxColumn(BOOT.eline)], on the first
    tab: the widget is asked only when the payload gives no end column,
    and may throw. *)
Definition boot_endColumn `{Platform} (BOOT : Boot) : Exn + JsVal :=
  if truthy (boot_ecol BOOT) then inr (boot_ecol BOOT)
  else getLineMaxColumn (model (first_tab BOOT)) (boot_eline BOOT).

(** [new monaco.Range(BOOT.sline, BOOT.scol || 1, BOOT.eline, endColumn)]. *)
Definition boot_range `{Platform} (BOOT : Boot) (endColumn : JsVal) : Range :=
  newRange (boot_sline BOOT)
           (if truthy (boot_scol BOOT) then boot_scol BOOT else num 1)
           (boot_eline BOOT) endColumn.

(** Boot payloads for the concrete runs. *)
Module BootDemo.

(** A file, with a replacement for its second line and autosave. *)
Definition patching : Boot :=
  mkBoot (Some "/tmp/a.py") Demo.two_lines (JStr "X") (num 2) (num 2)
         JUndefined JUndefined (JBool true).

(** The same file with lines to reveal but no replacement text. *)
Definition revealing : Boot :=
  mkBoot (Some "/tmp/a.py") Demo.two_lines JNull (num 2) (num 2)
         JUndefined JUndefined (JBool true).

(** The same, the lines given as strings. *)
Definition revealing_strings : Boot :=
  mkBoot (Some "/tmp/a.py") Demo.two_lines JNull (JStr "2") (JStr "2")
         JUndefined JUndefined (JBool true).

(** The replacement with its start column given as a string. *)
Definition patching_column : Boot :=
  mkBoot (Some "/tmp/a.py") Demo.two_lines (JStr "X") (num 2) (num 2)
         (JStr "1") JUndefined (JBool true).

End BootDemo.

(** The status bar names the active tab's file: when a tab is active,
    [status-filepath] holds [activeTab.path || '[Untitled]']. *)
Definition status_ok (st : State) : Prop :=
  ∀ t, getActiveTab st = Some t →
       status_filepath (dom st) = path_or (path t) (λ s, s) "[Untitled]".




(** From [st] to [st'] the tab at [tabIdx] was taken out and nothing else
    moved: the other tabs are as they were, in order, the same tab is
    active, and the editor is as it was. *)
Definition leaves_out (tabIdx : nat) (st st' : State) : Prop :=
  tabs st' = delete tabIdx (tabs st)
  ∧ activeTabId st' = activeTabId st
  ∧ getActiveTab st' = getActiveTab st
  ∧ editor st' = editor st.

(** * Properties *)

Example basename_ex : basename "C:\dir/sub\file.py" = "file.py".
Proof. reflexivity. Qed.

Example after_last_dot_ex :
  after_last_dot "a.b/c.tar.gz" = "gz" ∧ after_last_dot "Makefile" = "Makefile".
Proof. split; reflexivity. Qed.

Example lines_of_ex :
  lines_of ("ab" +:+ nl +:+ "c" +:+ String CR nl +:+ nl) = ["ab"; "c"; ""; ""].
Proof. reflexivity. Qed.

Section Facts.
Context `{Platform}.

(** ** Reading the parsed input *)

Lemma truthy_str_false s : truthy_str s = false ↔ s = "".
Proof.
  unfold truthy_str. destruct (String.eqb_spec s ""); simpl; split; congruence.
Qed.

Lemma truthy_str_true s : truthy_str s = true ↔ s ≠ "".
Proof.
  unfold truthy_str. destruct (String.eqb_spec s ""); simpl; split; congruence.
Qed.

Lemma get_prop_object fields k :
  get_prop (JObj fields) k = inr (field (JObj fields) k).
Proof. reflexivity. Qed.

Lemma nullish_field data k : nullish (field data k) = negb (present data k).
Proof.
  destruct data; simpl; try reflexivity.
  destruct (own_prop fields k) as [v|]; simpl; [|reflexivity].
  by rewrite negb_involutive.
Qed.


(** Only [null] and [undefined] refuse a property read. *)
Lemma get_prop_throws data k e :
  get_prop data k = inl e → data = JNull ∨ data = JUndefined.
Proof. destruct data; simpl; intros; try discriminate; auto. Qed.

Lemma get_prop_total data k k' e :
  get_prop data k = inl e → ∃ e', get_prop data k' = inl e'.
Proof. destruct data; simpl; intros; try discriminate; eauto. Qed.

Lemma has_required_nullish data :
  nullish (field data "start_line") || nullish (field data "end_line")
    || nullish (field data "replacement_code") = negb (has_required data).
Proof.
  rewrite !nullish_field. unfold has_required.
  by rewrite !negb_andb.
Qed.

(** ** The alert of the catch block *)

Lemma catch_is_alert e st : applySurgicalReplace_catch e st = emit (alert_of st e) st.
Proof.
  unfold applySurgicalReplace_catch, alert_of.
  by destruct (has_create_alert (host st)).
Qed.

Lemma alert_of_is_alert st e : is_alert (alert_of st e) = true.
Proof. unfold alert_of. by destruct (has_create_alert (host st)). Qed.

(** The [try] block stops at the validation, or earlier, when a required
    field is missing. *)
Lemma try_missing st data :
  JSON_parse (surg_value (dom st)) = inr data →
  has_required data = false →
  ∃ e, applySurgicalReplace_try st = (inl e, st).
Proof.
  intros Hparse Hreq.
  unfold applySurgicalReplace_try, mbind, M_bind, gets, lift_exn. simpl.
  rewrite Hparse.
  destruct (get_prop data "start_line") as [e|sline] eqn:Hs.
  { eauto. }
  assert (Hobj : ∀ k, get_prop data k = inr (field data k)).
  { intros k. destruct data; simpl in *; try discriminate; reflexivity. }
  rewrite (Hobj "start_line") in Hs. injection Hs as <-.
  rewrite !Hobj.
  rewrite has_required_nullish, Hreq. simpl.
  unfold throw. eauto.
Qed.

(** ** Surgical replace: invalid and empty input *)

(** C1. Applying the dialog on input that parses as JSON but lacks
    [start_line], [end_line] or [replacement_code] (absent or [null])
    shows an error dialog and does nothing else: the tabs and their
    models, the editor, the active tab and the page, hence the dialog's
    visibility, are as before, and the only new entry of the trace is the
    alert, so no edit operation was pushed and the cancel routine, which
    would hide the dialog and move the focus, did not run. *)
Theorem apply_missing_field_alerts (st : State) (data : JsVal) :
  surg_value (dom st) ≠ "" →
  JSON_parse (surg_value (dom st)) = inr data →
  has_required data = false →
  ∃ e,
    applySurgicalReplace st = emit (alert_of st e) st
    ∧ is_alert (alert_of st e) = true
    ∧ tabs (applySurgicalReplace st) = tabs st
    ∧ activeTabId (applySurgicalReplace st) = activeTabId st
    ∧ editor (applySurgicalReplace st) = editor st
    ∧ dom (applySurgicalReplace st) = dom st
    ∧ modal_hidden (dom (applySurgicalReplace st)) = modal_hidden (dom st)
    ∧ trace (applySurgicalReplace st) = (trace st ++ [alert_of st e])%list.
Proof.
  intros Hne Hparse Hreq.
  destruct (try_missing st data Hparse Hreq) as [e He].
  exists e.
  assert (Heq : applySurgicalReplace st = emit (alert_of st e) st).
  { unfold applySurgicalReplace.
    apply truthy_str_true in Hne. rewrite Hne. simpl.
    unfold try_catch. rewrite He. apply catch_is_alert. }
  rewrite Heq. split; [reflexivity|].
  split; [apply alert_of_is_alert|].
  repeat split.
Qed.

(** C10. With an empty input field, applying is cancelling: same resulting
    state, the dialog hidden, the focus on the editor, nothing added to
    the trace (no alert of any kind) and no tab or model touched. *)
Theorem apply_empty_is_cancel (st : State) :
  surg_value (dom st) = "" →
  applySurgicalReplace st = cancelSurgicalReplace st
  ∧ modal_hidden (dom (applySurgicalReplace st)) = true
  ∧ focus (dom (applySurgicalReplace st)) = FocusEditor
  ∧ trace (applySurgicalReplace st) = trace st
  ∧ tabs (applySurgicalReplace st) = tabs st
  ∧ activeTabId (applySurgicalReplace st) = activeTabId st
  ∧ editor (applySurgicalReplace st) = editor st.
Proof.
  intros Hempty.
  assert (Heq : applySurgicalReplace st = cancelSurgicalReplace st).
  { unfold applySurgicalReplace. apply truthy_str_false in Hempty.
    by rewrite Hempty. }
  rewrite Heq. repeat split.
Qed.

(** ** Finding and updating tabs *)

Lemma list_find_alter {A : Type} (P : A → Prop) `{∀ x, Decision (P x)}
    (f : A → A) (l : list A) (j : nat) :
  (∀ y, P (f y) ↔ P y) →
  list_find P (alter f j l)
  = (λ ix : nat * A, (ix.1, if decide (ix.1 = j) then f ix.2 else ix.2)) <$> list_find P l.
Proof.
  intros Hf. revert j. induction l as [|x l IH]; intros j; [reflexivity|].
  destruct j as [|j]; simpl.
  - destruct (decide (P x)) as [Hq|Hq].
    + rewrite decide_True by (by apply Hf). reflexivity.
    + rewrite decide_False by (by rewrite Hf).
      destruct (list_find P l) as [[i y]|]; reflexivity.
  - destruct (decide (P x)); [reflexivity|].
    change (list_alter f j l) with (alter f j l).
    rewrite IH. destruct (list_find P l) as [[i y]|]; simpl; [|reflexivity].
    repeat case_decide; try lia; reflexivity.
Qed.

Lemma find_first (tabId : Z) (st : State) (i : nat) (t : Tab) :
  list_find (λ t, id t = tabId) (tabs st) = Some (i, t) →
  findIndex tabId (tabs st) = Some i ∧ getTab tabId st = Some t
  ∧ tabs st !! i = Some t ∧ id t = tabId.
Proof.
  intros Hf. unfold findIndex, getTab. rewrite Hf.
  apply list_find_Some in Hf as (? & ? & _). auto.
Qed.

Lemma getTab_Some (tabId : Z) (st : State) (t : Tab) :
  getTab tabId st = Some t →
  ∃ i, list_find (λ t, id t = tabId) (tabs st) = Some (i, t).
Proof.
  unfold getTab. destruct (list_find _ _) as [[i x]|]; simpl; [|discriminate].
  intros [= ->]. eauto.
Qed.

Lemma getTab_id (tabId : Z) (st : State) (t : Tab) :
  getTab tabId st = Some t → id t = tabId ∧ t ∈ tabs st.
Proof.
  intros [i Hf]%getTab_Some. apply list_find_Some in Hf as (Hl & ? & _).
  split; [done|]. by eapply list_elem_of_lookup_2.
Qed.

Lemma getTab_None (tabId : Z) (st : State) :
  getTab tabId st = None ↔ ∀ t, t ∈ tabs st → id t ≠ tabId.
Proof.
  unfold getTab. split.
  - destruct (list_find _ _) eqn:Hf; [discriminate|]. intros _.
    rewrite list_find_None, Forall_forall in Hf. intros t Ht.
    apply list_elem_of_In in Ht. by apply Hf.
  - intros Hall. destruct (list_find _ _) as [[i x]|] eqn:Hf; [|reflexivity].
    apply list_find_Some in Hf as (Hl & Hid & _).
    exfalso. eapply Hall; [|exact Hid]. by eapply list_elem_of_lookup_2.
Qed.

Lemma getTab_with_tabs (tabId : Z) (st st' : State) :
  tabs st' = tabs st → getTab tabId st' = getTab tabId st.
Proof. unfold getTab. by intros ->. Qed.

Section UpdateTab.
Variable f : Tab → Tab.
Hypothesis f_id : ∀ t, id (f t) = id t.

Lemma update_tab_frame k st :
  nextTabId (update_tab k f st) = nextTabId st
  ∧ activeTabId (update_tab k f st) = activeTabId st
  ∧ editor (update_tab k f st) = editor st
  ∧ modelCount (update_tab k f st) = modelCount st
  ∧ dom (update_tab k f st) = dom st
  ∧ host (update_tab k f st) = host st
  ∧ trace (update_tab k f st) = trace st.
Proof. unfold update_tab. destruct (findIndex k (tabs st)); repeat split. Qed.

Lemma update_tab_length k st :
  List.length (tabs (update_tab k f st)) = List.length (tabs st).
Proof.
  unfold update_tab. destruct (findIndex k (tabs st)); [|reflexivity].
  simpl. apply length_alter.
Qed.

(** Whatever [f] leaves alone in a tab is left alone in the collection. *)
Lemma update_tab_preserves {B : Type} (g : Tab → B) k st :
  (∀ t, g (f t) = g t) → g <$> tabs (update_tab k f st) = g <$> tabs st.
Proof.
  intros Hg. unfold update_tab. destruct (findIndex k (tabs st)) as [i|]; [|reflexivity].
  simpl. rewrite (list_fmap_alter g f (λ x, x)).
  - by rewrite list_alter_id.
  - apply list.Forall_forall. intros; apply Hg.
Qed.

Lemma update_tab_ids k st : id <$> tabs (update_tab k f st) = id <$> tabs st.
Proof. by apply update_tab_preserves. Qed.

Lemma getTab_update_tab_eq k st :
  getTab k (update_tab k f st) = f <$> getTab k st.
Proof.
  unfold update_tab, findIndex, getTab.
  destruct (list_find _ (tabs st)) as [[i t]|] eqn:Hf; simpl; [|by rewrite Hf].
  rewrite list_find_alter by (intros y; by rewrite f_id).
  rewrite Hf. simpl. by rewrite decide_True.
Qed.

Lemma getTab_update_tab_ne k k' st :
  k ≠ k' → getTab k' (update_tab k f st) = getTab k' st.
Proof.
  intros Hne. unfold update_tab, findIndex.
  destruct (list_find _ (tabs st)) as [[i t]|] eqn:Hf; simpl; [|reflexivity].
  unfold getTab. simpl.
  rewrite list_find_alter by (intros y; by rewrite f_id).
  destruct (list_find (λ t, id t = k') (tabs st)) as [[i' t']|] eqn:Hf'; simpl;
    [|reflexivity].
  case_decide as Hi; [|reflexivity]. subst i'.
  apply list_find_Some in Hf as (Hl & Hid & _).
  apply list_find_Some in Hf' as (Hl' & Hid' & _). congruence.
Qed.

Lemma getTab_update_tab_preserves {B : Type} (g : Tab → B) k k' st :
  (∀ t, g (f t) = g t) → g <$> getTab k' (update_tab k f st) = g <$> getTab k' st.
Proof.
  intros Hg. destruct (decide (k = k')) as [->|Hne].
  - rewrite getTab_update_tab_eq. destruct (getTab k' st); simpl; [|reflexivity].
    by rewrite Hg.
  - by rewrite getTab_update_tab_ne.
Qed.

End UpdateTab.

(** ** Rendering the tab bar *)

Lemma renderTabs_frame st :
  tabs (renderTabs st) = tabs st
  ∧ nextTabId (renderTabs st) = nextTabId st
  ∧ activeTabId (renderTabs st) = activeTabId st
  ∧ editor (renderTabs st) = editor st
  ∧ modelCount (renderTabs st) = modelCount st
  ∧ host (renderTabs st) = host st.
Proof.
  unfold renderTabs. simpl.
  destruct (has_set_active_tab (host st)); repeat split.
Qed.

Lemma renderTabs_dom st :
  modal_hidden (dom (renderTabs st)) = modal_hidden (dom st)
  ∧ surg_value (dom (renderTabs st)) = surg_value (dom st)
  ∧ surg_placeholder (dom (renderTabs st)) = surg_placeholder (dom st)
  ∧ focus (dom (renderTabs st)) = focus (dom st)
  ∧ tabs_container (dom (renderTabs st)) = tabEl st <$> tabs st.
Proof.
  unfold renderTabs. simpl.
  destruct (has_set_active_tab (host st)); repeat split.
Qed.

Lemma renderTabs_trace st :
  trace (renderTabs st) = (trace st ++ render_tabs :: host_notification st)%list.
Proof.
  unfold renderTabs, host_notification. simpl.
  destruct (has_set_active_tab (host st)); simpl.
  - by rewrite <- app_assoc.
  - reflexivity.
Qed.

Lemma getTab_renderTabs k st : getTab k (renderTabs st) = getTab k st.
Proof. apply getTab_with_tabs, renderTabs_frame. Qed.




(** ** The content observer *)

Lemma set_isDirty_id d t : id (set_isDirty d t) = id t.
Proof. reflexivity. Qed.

Lemma set_viewState_id v t : id (set_viewState v t) = id t.
Proof. reflexivity. Qed.

Lemma set_path_id p t : id (set_path p t) = id t.
Proof. reflexivity. Qed.

Lemma set_model_id m t : id (set_model m t) = id t.
Proof. reflexivity. Qed.




(** ** Switching tabs *)

Lemma switchTab_same st : switchTab (activeTabId st) st = st.
Proof. unfold switchTab. by rewrite decide_True. Qed.

Lemma outgoing_saved_eq st :
  match getActiveTab st with
  | Some currentTab =>
      update_tab (id currentTab) (set_viewState (saveViewState (editor st))) st
  | None => st
  end = outgoing_saved st.
Proof.
  unfold outgoing_saved. destruct (getActiveTab st) as [cur|] eqn:Hact.
  - by apply getTab_id in Hact as [-> _].
  - unfold update_tab, findIndex. unfold getActiveTab, getTab in Hact.
    by destruct (list_find _ _).
Qed.

(** What [switchTab] does when it is not a no-op, field by field. *)
Lemma switchTab_other j st :
  activeTabId st ≠ j →
  tabs (switchTab j st) = tabs (outgoing_saved st)
  ∧ activeTabId (switchTab j st) = j
  ∧ editor (switchTab j st)
    = incoming_shown (getTab j (outgoing_saved st)) (editor st)
  ∧ focus (dom (switchTab j st)) = FocusEditor
  ∧ modal_hidden (dom (switchTab j st)) = modal_hidden (dom st)
  ∧ surg_value (dom (switchTab j st)) = surg_value (dom st).
Proof.
  intros Hne. unfold switchTab. rewrite decide_False by done.
  rewrite outgoing_saved_eq.
  destruct (update_tab_frame (set_viewState (saveViewState (editor st)))
              (activeTabId st) st) as (_ & _ & He & _ & Hd & _ & _).
  fold (outgoing_saved st) in He, Hd.
  set (st2 := with_activeTabId j (outgoing_saved st)).
  assert (Hnew : getActiveTab st2 = getTab j (outgoing_saved st)) by reflexivity.
  rewrite Hnew.
  set (newTab := getTab j (outgoing_saved st)).
  assert (Hed : editor st2 = editor st) by (subst st2; simpl; exact He).
  unfold incoming_shown. fold newTab.
  destruct (newTab ≫= viewState) as [vs|] eqn:Hvs;
    match goal with
    | |- context [renderTabs ?s] =>
        destruct (renderTabs_frame s) as (-> & _ & -> & -> & _ & _);
        destruct (renderTabs_dom s) as (-> & -> & _ & -> & _)
    end; simpl; rewrite ?He, ?Hd; repeat split.
Qed.

Lemma switchTab_counters j st :
  nextTabId (switchTab j st) = nextTabId st
  ∧ modelCount (switchTab j st) = modelCount st
  ∧ host (switchTab j st) = host st.
Proof.
  unfold switchTab. case_decide; [done|].
  rewrite outgoing_saved_eq.
  destruct (update_tab_frame (set_viewState (saveViewState (editor st)))
              (activeTabId st) st) as (Hn & _ & _ & Hm & _ & Hh & _).
  fold (outgoing_saved st) in Hn, Hm, Hh.
  match goal with
  | |- context [renderTabs ?s] =>
      destruct (renderTabs_frame s) as (_ & -> & _ & _ & -> & ->)
  end.
  destruct (_ ≫= viewState); simpl; auto.
Qed.

Lemma switchTab_active j st : activeTabId (switchTab j st) = j.
Proof.
  destruct (decide (activeTabId st = j)) as [<-|Hne].
  - by rewrite switchTab_same.
  - by apply switchTab_other.
Qed.

(** Switching changes nothing in a tab but, possibly, its saved view. *)
Lemma switchTab_preserves {B : Type} (g : Tab → B) j st :
  (∀ v t, g (set_viewState v t) = g t) →
  g <$> tabs (switchTab j st) = g <$> tabs st.
Proof.
  intros Hg. destruct (decide (activeTabId st = j)) as [<-|Hne].
  - by rewrite switchTab_same.
  - destruct (switchTab_other j st Hne) as (-> & _).
    unfold outgoing_saved. apply update_tab_preserves. intros; apply Hg.
Qed.


Lemma switchTab_length j st :
  List.length (tabs (switchTab j st)) = List.length (tabs st).
Proof.
  rewrite <- (length_fmap id (tabs (switchTab j st))), <- (length_fmap id (tabs st)).
  by rewrite (switchTab_preserves id).
Qed.

(** ** Adding tabs *)

Lemma addTab_existing p text st t :
  existing_tab p st = Some t → addTab p text st = switchTab (id t) st.
Proof. unfold addTab, existing_tab. by intros ->. Qed.

Lemma addTab_new p text st :
  existing_tab p st = None →
  addTab p text st = switchTab (nextTabId st) (appended p text st).
Proof. unfold addTab, existing_tab. by intros ->. Qed.

Lemma existing_tab_null st : existing_tab None st = None.
Proof. reflexivity. Qed.

Lemma existing_tab_empty st : existing_tab (Some "") st = None.
Proof. reflexivity. Qed.

Lemma existing_tab_Some p st t :
  existing_tab p st = Some t →
  ∃ s, p = Some s ∧ s ≠ "" ∧ t ∈ tabs st ∧ path t = Some s.
Proof.
  unfold existing_tab, path_or. destruct p as [s|]; [|discriminate].
  destruct (truthy_str s) eqn:Hs; [|discriminate].
  intros Hfind. apply List.find_some in Hfind as [Hin Hp].
  apply bool_decide_eq_true in Hp. apply list_elem_of_In in Hin.
  apply truthy_str_true in Hs. eauto.
Qed.

Lemma existing_tab_found s st t :
  s ≠ "" → t ∈ tabs st → path t = Some s → is_Some (existing_tab (Some s) st).
Proof.
  intros Hs Hin Hp. unfold existing_tab, path_or.
  apply truthy_str_true in Hs. rewrite Hs.
  destruct (List.find _ _) eqn:Hfind; [eauto|].
  exfalso. apply list_elem_of_In in Hin.
  eapply List.find_none in Hfind; [|exact Hin].
  simpl in Hfind. apply bool_decide_eq_false in Hfind. done.
Qed.


(** ** Closing a dirty tab, declined *)

(** C6. When the tab to close is dirty and the host answers the
    confirmation with false, the call returns with every part of the
    state as it was: the tab list (each tab with its model and dirty
    flag), the active tab, the editor and the page; the trace gains the
    confirmation request and nothing else. *)
Theorem closeTab_declined (st : State) (tabId : Z) (t : Tab) :
  getTab tabId st = Some t →
  isDirty t = true →
  ∃ st',
    closeTab false tabId st = (inr tt, st')
    ∧ tabs st' = tabs st
    ∧ activeTabId st' = activeTabId st
    ∧ getTab tabId st' = Some t
    ∧ editor st' = editor st
    ∧ dom st' = dom st
    ∧ nextTabId st' = nextTabId st
    ∧ trace st'
      = (trace st ++ [confirm_dialog "Unsaved Changes"
           "You have unsaved changes. Are you sure you want to close this tab?"])%list.
Proof.
  intros Hget Hdirty.
  destruct (getTab_Some _ _ _ Hget) as [i Hf].
  destruct (find_first _ _ _ _ Hf) as (Hidx & _ & _ & _).
  eexists. unfold closeTab. rewrite Hidx, Hget, Hdirty. simpl.
  split; [reflexivity|]. repeat split. exact Hget.
Qed.

(** ** Saving *)

Lemma save_response_succeeded k res p st tab :
  save_succeeded res p → getTab k st = Some tab → id tab = k →
  getTab k (save_response k res st) = Some (saved_tab p tab).
Proof.
  intros [-> Hp] Hget Hid. unfold save_response, path_or. simpl.
  apply truthy_str_true in Hp. rewrite Hp.
  rewrite getTab_renderTabs.
  rewrite !getTab_update_tab_eq by reflexivity.
  rewrite Hget. reflexivity.
Qed.

Lemma save_response_declined k res st :
  save_declined res → save_response k res st = st.
Proof.
  intros [->|(r & -> & Hr)]; [reflexivity|].
  unfold save_response, path_or.
  destruct Hr as [-> | [-> | ->]]; [reflexivity| |]; by destruct (saved r).
Qed.

(** C9. Saving the active tab.  When the host reports success and names a
    path, the tab then has that path, a cleared dirty flag and the
    language derived from the new path, its identifier, text and saved
    view being as before.  When the answer is absent, unsuccessful or
    names no path, the state is as before but for the record of the
    request itself: the tab keeps its path and dirty flag and no alert is
    raised.  [doSaveAs] behaves the same way. *)
Theorem save_outcome (st : State) (tab : Tab) (res : option SaveResponse) :
  getActiveTab st = Some tab →
  (∀ p, save_succeeded res p →
     getTab (id tab) (doSave res st) = Some (saved_tab p tab)
     ∧ getTab (id tab) (doSaveAs res st) = Some (saved_tab p tab))
  ∧ (save_declined res →
     tabs (doSave res st) = tabs st
     ∧ getTab (id tab) (doSave res st) = Some tab
     ∧ trace (doSave res st)
       = (trace st ++ [save_dialog (value (model tab)) (path tab)])%list
     ∧ tabs (doSaveAs res st) = tabs st
     ∧ getTab (id tab) (doSaveAs res st) = Some tab
     ∧ trace (doSaveAs res st)
       = (trace st ++ [save_as_dialog (value (model tab)) (path tab)])%list).
Proof.
  intros Hact.
  assert (Hget : getTab (id tab) st = Some tab).
  { unfold getActiveTab in Hact. by destruct (getTab_id _ _ _ Hact) as [-> _]. }
  unfold doSave, doSaveAs. rewrite Hact. split.
  - intros p Hok. split; by apply save_response_succeeded.
  - intros Hno. rewrite !save_response_declined by done.
    repeat split; exact Hget.
Qed.

(** ** Opening a path that is already open *)

Lemma content_set_viewState v t : content (set_viewState v t) = content t.
Proof. reflexivity. Qed.

Lemma appended_content p text st :
  content <$> tabs (appended p text st)
  = ((content <$> tabs st)
       ++ [(nextTabId st, p,
            mkTextModel (modelCount st) (createModel_value text) (languageFromPath p),
            false)])%list.
Proof. unfold appended. simpl. by rewrite fmap_app. Qed.


(** A path that is [null] or empty never dedups. *)
Lemma addTab_falsy_path p text st :
  p = None ∨ p = Some "" →
  content <$> tabs (addTab p text st)
  = ((content <$> tabs st)
       ++ [(nextTabId st, p,
            mkTextModel (modelCount st) (createModel_value text) "plaintext",
            false)])%list
  ∧ List.length (tabs (addTab p text st)) = S (List.length (tabs st))
  ∧ activeTabId (addTab p text st) = nextTabId st.
Proof.
  intros Hp.
  assert (Hnone : existing_tab p st = None) by (by destruct Hp as [-> | ->]).
  assert (Hlang : languageFromPath p = "plaintext") by (by destruct Hp as [-> | ->]).
  rewrite (addTab_new _ _ _ Hnone).
  split; [|split].
  - rewrite (switchTab_preserves content) by apply content_set_viewState.
    by rewrite appended_content, Hlang.
  - rewrite switchTab_length. unfold appended. simpl.
    rewrite length_app. simpl. lia.
  - apply switchTab_active.
Qed.


(** ** Closing tabs *)

Lemma closeTab_remove_eq tabIdx tabId st removedTab :
  tabs st !! tabIdx = Some removedTab →
  closeTab_remove tabIdx tabId st
  = (inr tt,
     if decide (activeTabId st = tabId) then
       switchTab (from_option id (-1)
                    (tabs (removed_at tabIdx removedTab st) !! newActiveIdx tabIdx))
                 (removed_at tabIdx removedTab st)
     else removed_at tabIdx removedTab st).
Proof.
  intros Hl. unfold closeTab_remove. rewrite Hl. simpl.
  fold (removed_at tabIdx removedTab st). fold (newActiveIdx tabIdx).
  case_decide; [|reflexivity].
  case_bool_decide as Hlen; [reflexivity|].
  replace (tabs (removed_at tabIdx removedTab st) !! newActiveIdx tabIdx)
    with (@None Tab); [reflexivity|].
  symmetry. apply lookup_ge_None_2. simpl in *. lia.
Qed.

Lemma closeTab_remove_frame tabIdx tabId st removedTab :
  tabs st !! tabIdx = Some removedTab →
  let st' := (closeTab_remove tabIdx tabId st).2 in
  content <$> tabs st' = delete tabIdx (content <$> tabs st)
  ∧ nextTabId st' = nextTabId st
  ∧ modelCount st' = modelCount st
  ∧ host st' = host st.
Proof.
  intros Hl. rewrite (closeTab_remove_eq _ _ _ _ Hl). simpl.
  case_decide.
  - rewrite (switchTab_preserves content) by apply content_set_viewState.
    match goal with
    | |- context [switchTab ?j ?s] =>
        destruct (switchTab_counters j s) as (-> & -> & ->)
    end.
    simpl. by rewrite list_fmap_delete.
  - simpl. by rewrite list_fmap_delete.
Qed.

Lemma closeTab_refill_nonempty st : tabs (closeTab_refill st) ≠ [].
Proof.
  unfold closeTab_refill. case_bool_decide as Hlen.
  - intros Hnil. apply (f_equal List.length) in Hnil.
    rewrite addTab_new, switchTab_length in Hnil by reflexivity.
    unfold appended in Hnil. simpl in Hnil. rewrite length_app in Hnil.
    simpl in Hnil. lia.
  - destruct (renderTabs_frame st) as (-> & _).
    intros Hnil. by rewrite Hnil in Hlen.
Qed.

(** How a close that goes ahead unfolds. *)
Lemma closeTab_proceeds confirmed tabId st tabIdx t :
  list_find (λ t, id t = tabId) (tabs st) = Some (tabIdx, t) →
  isDirty t = false ∨ confirmed = true →
  let st0 := if isDirty t then emit unsaved_changes st else st in
  closeTab confirmed tabId st
  = (inr tt, closeTab_refill (closeTab_remove tabIdx tabId st0).2).
Proof.
  intros Hf Hgo.
  destruct (find_first _ _ _ _ Hf) as (Hidx & Hget & Hl & _).
  unfold closeTab. rewrite Hidx, Hget.
  unfold mbind, M_bind, modify.
  destruct (isDirty t) eqn:Hd; simpl.
  - destruct Hgo as [Hgo|Hgo]; [discriminate|]. subst confirmed. simpl.
    fold unsaved_changes.
    by rewrite (closeTab_remove_eq tabIdx tabId (emit unsaved_changes st) t).
  - by rewrite (closeTab_remove_eq tabIdx tabId st t).
Qed.

(** [closeTab] always completes. *)
Lemma closeTab_returns confirmed tabId st :
  (closeTab confirmed tabId st).1 = inr tt.
Proof.
  unfold closeTab, findIndex, getTab.
  destruct (list_find _ _) as [[i t]|] eqn:Hf; simpl; [|reflexivity].
  apply list_find_Some in Hf as (Hl & _ & _).
  unfold mbind, M_bind, modify.
  destruct (isDirty t); [destruct confirmed; simpl; [|reflexivity]|].
  - by rewrite (closeTab_remove_eq i tabId _ t).
  - by rewrite (closeTab_remove_eq i tabId _ t).
Qed.

(** C4. [closeTab] on a state with at least one tab completes and leaves
    at least one tab; when it closes the only tab (clean, or dirty and
    confirmed), exactly one tab remains, and it is a fresh one: new
    identifier, no path, a new empty plain-text model, not dirty. *)
Theorem closeTab_never_empty (confirmed : bool) (tabId : Z) (st : State) :
  tabs st ≠ [] →
  ∃ st',
    closeTab confirmed tabId st = (inr tt, st')
    ∧ tabs st' ≠ []
    ∧ (∀ t, tabs st = [t] → id t = tabId →
         isDirty t = false ∨ confirmed = true →
         content <$> tabs st' = [blank_tab st]).
Proof.
  intros Hne.
  exists (closeTab confirmed tabId st).2.
  split.
  { rewrite <- (closeTab_returns confirmed tabId st).
    by destruct (closeTab confirmed tabId st). }
  split.
  - unfold closeTab, findIndex, getTab.
    destruct (list_find _ _) as [[i t]|] eqn:Hf; simpl; [|exact Hne].
    apply list_find_Some in Hf as (Hl & _ & _).
    unfold mbind, M_bind, modify.
    destruct (isDirty t); [destruct confirmed; simpl; [|exact Hne]|].
    + rewrite (closeTab_remove_eq i tabId _ t) by done.
      apply closeTab_refill_nonempty.
    + rewrite (closeTab_remove_eq i tabId _ t) by done.
      apply closeTab_refill_nonempty.
  - intros t Hone Hid Hgo.
    assert (Hf : list_find (λ t, id t = tabId) (tabs st) = Some (0%nat, t)).
    { rewrite Hone. simpl. by rewrite decide_True. }
    rewrite (closeTab_proceeds confirmed tabId st 0 t Hf Hgo). simpl.
    set (st0 := if isDirty t then emit unsaved_changes st else st).
    assert (Hl : tabs st0 !! 0%nat = Some t).
    { subst st0. destruct (isDirty t); simpl; by rewrite Hone. }
    destruct (closeTab_remove_frame 0 tabId st0 t Hl) as (Hc & Hn & Hm & _).
    set (st1 := (closeTab_remove 0 tabId st0).2) in *.
    assert (Hnil : tabs st1 = []).
    { apply (fmap_nil_inv content). rewrite Hc.
      subst st0. destruct (isDirty t); simpl; by rewrite Hone. }
    unfold closeTab_refill. rewrite Hnil. simpl.
    pose proof (addTab_falsy_path None "" st1) as Hnew.
    destruct (Hnew (or_introl eq_refl)) as (-> & _).
    rewrite Hnil. simpl. unfold blank_tab. rewrite Hn, Hm.
    subst st0. by destruct (isDirty t).
Qed.

(** ** Re-selection after closing the active tab *)

Lemma find_unique (l : list Tab) (i : nat) (t : Tab) :
  NoDup (id <$> l) → l !! i = Some t →
  list_find (λ x, id x = id t) l = Some (i, t).
Proof.
  intros Hnd Hl. apply list_find_Some. split; [done|]. split; [done|].
  intros j y Hj Hlt Hid.
  assert (i = j); [|lia].
  apply (NoDup_lookup (id <$> l) i j (id t) Hnd);
    rewrite list_lookup_fmap; [by rewrite Hl | by rewrite Hj, <- Hid].
Qed.

Lemma delete_misses (l : list Tab) (i : nat) (t x : Tab) :
  NoDup (id <$> l) → l !! i = Some t → x ∈ delete i l → id x ≠ id t.
Proof.
  intros Hnd Hl [j Hj]%list_elem_of_lookup_1 Hid.
  rewrite list_lookup_delete in Hj.
  destruct (decide (j < i)%nat) as [Hlt|Hge].
  - assert (i = j); [|lia].
    apply (NoDup_lookup (id <$> l) i j (id t) Hnd);
      rewrite list_lookup_fmap; [by rewrite Hl | by rewrite Hj, <- Hid].
  - assert (i = S j); [|lia].
    apply (NoDup_lookup (id <$> l) i (S j) (id t) Hnd);
      rewrite list_lookup_fmap; [by rewrite Hl | by rewrite Hj, <- Hid].
Qed.

Lemma NoDup_ids_delete (l : list Tab) (i : nat) :
  NoDup (id <$> l) → NoDup (id <$> delete i l).
Proof.
  intros Hnd. rewrite list_fmap_delete.
  eapply sublist_NoDup; [exact Hnd | apply sublist_delete].
Qed.

(** Without a tab carrying the active identifier there is no view state
    to store. *)
Lemma outgoing_saved_absent st :
  getActiveTab st = None → outgoing_saved st = st.
Proof.
  unfold outgoing_saved, update_tab, findIndex, getActiveTab, getTab.
  by destruct (list_find _ _).
Qed.

(** ** View state across switches *)

Lemma incoming_shown_model t e :
  ed_model (incoming_shown (Some t) e) = Some (uri (model t)).
Proof.
  unfold incoming_shown, setModel, restoreViewState. simpl.
  case_decide as Heq; destruct (viewState t); simpl; rewrite ?Heq; reflexivity.
Qed.

Lemma incoming_shown_view t e vs :
  viewState t = Some vs → ed_view (incoming_shown (Some t) e) = vs.
Proof.
  intros Hvs. unfold incoming_shown. simpl. rewrite Hvs.
  unfold setModel, restoreViewState. case_decide as Heq; simpl; [|reflexivity].
  by rewrite Heq.
Qed.

(** ** Surgical replace: the range that is pushed *)

Lemma num_gt_inject a b : num_gt (inject_Z a) (inject_Z b) = Z.ltb b a.
Proof.
  unfold num_gt, Qle_bool, inject_Z. simpl. rewrite !Z.mul_1_r.
  by rewrite Z.ltb_antisym.
Qed.

(** The widget's contract for a whole line number. *)
Lemma getLineMaxColumn_whole m n :
  getLineMaxColumn m (num n)
  = if Z.ltb n 1 || Z.ltb (Z.of_nat (List.length (lines_of (value m)))) n then
      inl (Error "Illegal value for lineNumber")
    else
      match lines_of (value m) !! Z.to_nat (n - 1) with
      | Some line => inr (num (Z.of_nat (utf16_length line) + 1))
      | None => inl (Error "Illegal value for lineNumber")
      end.
Proof.
  unfold getLineMaxColumn, num. rewrite !num_gt_inject.
  destruct (_ || _); [reflexivity|].
  unfold inject_Z. simpl Qnum. simpl Qden.
  by rewrite Z.mod_1_r, Z.div_1_r.
Qed.

(** The widget's contract for a line that exists. *)
Lemma getLineMaxColumn_line m n line :
  lines_of (value m) !! n = Some line →
  getLineMaxColumn m (num (Z.of_nat (S n)))
  = inr (num (Z.of_nat (utf16_length line) + 1)).
Proof.
  intros Hl. rewrite getLineMaxColumn_whole.
  pose proof (lookup_lt_Some _ _ _ Hl) as Hlt.
  replace (Z.ltb (Z.of_nat (S n)) 1) with false by (symmetry; apply Z.ltb_ge; lia).
  replace (Z.ltb (Z.of_nat (List.length (lines_of (value m)))) (Z.of_nat (S n)))
    with false by (symmetry; apply Z.ltb_ge; lia).
  simpl orb. cbv iota.
  replace (Z.to_nat (Z.of_nat (S n) - 1)) with n by lia.
  by rewrite Hl.
Qed.

Lemma onDidChangeContent_trace k st :
  ∃ rest, trace (onDidChangeContent k st) = (trace st ++ rest)%list
          ∧ Forall (λ e, is_edit e = false) rest.
Proof.
  unfold onDidChangeContent. destruct (getTab k st) as [t|].
  - destruct (isDirty t); cbn [negb].
    + exists []. by rewrite app_nil_r.
    + rewrite renderTabs_trace.
      destruct (update_tab_frame (set_isDirty true) k st) as (_&_&_&_&_&_&->).
      eexists. split; [reflexivity|].
      unfold host_notification. destruct (has_set_active_tab _); repeat constructor.
  - exists []. by rewrite app_nil_r.
Qed.

(** The model is asked once; what follows in the trace is no edit. *)
Lemma pushEditOperations_trace k m r text st :
  ∃ rest,
    trace (pushEditOperations k m r text st).2
    = (trace st ++ push_edit (uri m) r text :: rest)%list
    ∧ Forall (λ e, is_edit e = false) rest.
Proof.
  unfold pushEditOperations, mbind, M_bind, modify, lift_exn, mret, M_ret. simpl.
  destruct (applyEdits (value m) r text) as [e|[v notified]]; simpl.
  - by exists [].
  - set (st1 := update_tab k _ _).
    assert (Ht1 : trace st1 = (trace st ++ [push_edit (uri m) r text])%list).
    { subst st1.
      match goal with
      | |- trace (update_tab ?k ?f ?s) = _ =>
          by destruct (update_tab_frame f k s) as (_&_&_&_&_&_&->)
      end. }
    destruct notified; simpl.
    + destruct (onDidChangeContent_trace k st1) as (rest & -> & Hrest).
      rewrite Ht1, <- app_assoc. simpl. eauto.
    + rewrite Ht1. by exists [].
Qed.

(** With valid input and an active tab the [try] block comes down to the
    edit, the reveal and the closing of the dialog. *)
Lemma try_reaches_edit st data tab maxColumn :
  JSON_parse (surg_value (dom st)) = inr data →
  has_required data = true →
  getActiveTab st = Some tab →
  (truthy (field data "end_column") = false →
   getLineMaxColumn (model tab) (field data "end_line") = inr maxColumn) →
  applySurgicalReplace_try st
  = ((pushEditOperations (id tab) (model tab)
        (newRange (field data "start_line")
                  (if truthy (field data "start_column")
                   then field data "start_column" else num 1)
                  (field data "end_line")
                  (if truthy (field data "end_column")
                   then field data "end_column" else maxColumn))
        (field data "replacement_code") ;;
      editor_revealRangeInCenter
        (newRange (field data "start_line")
                  (if truthy (field data "start_column")
                   then field data "start_column" else num 1)
                  (field data "end_line")
                  (if truthy (field data "end_column")
                   then field data "end_column" else maxColumn))) ;;
     modify cancelSurgicalReplace) st.
Proof.
  intros Hparse Hreq Hact Hmax.
  assert (Hobj : ∀ k, get_prop data k = inr (field data k)).
  { intros k. destruct data; simpl in *; try discriminate; reflexivity. }
  unfold applySurgicalReplace_try.
  unfold mbind at 1 2 3 4 5 6 7 8, M_bind at 1 2 3 4 5 6 7 8, gets, lift_exn at 1 2 3 4 5 6.
  rewrite Hparse, !Hobj.
  rewrite has_required_nullish, Hreq. cbn [negb].
  unfold mret at 1, M_ret at 1. cbv beta iota.
  unfold mbind at 1, M_bind at 1. cbv beta iota. rewrite Hact.
  unfold mbind at 1 2 4, M_bind at 1 2 4.
  destruct (truthy (field data "end_column")).
  - reflexivity.
  - unfold lift_exn at 1. rewrite Hmax by reflexivity. reflexivity.
Qed.

(** What a successful edit leaves in the tab. *)
Lemma pushEditOperations_value k m r text st t :
  getTab k st = Some t →
  match applyEdits (value m) r text with
  | inl e =>
      pushEditOperations k m r text st = (inl e, emit (push_edit (uri m) r text) st)
  | inr (v, notified) =>
      ∃ st1, pushEditOperations k m r text st = (inr tt, st1)
             ∧ value ∘ model <$> getTab k st1 = Some v
  end.
Proof.
  intros Hget. unfold pushEditOperations, mbind, M_bind, modify, lift_exn.
  destruct (applyEdits (value m) r text) as [e|[v notified]]; [reflexivity|].
  set (st1 := update_tab k (set_value v) (emit (push_edit (uri m) r text) st)).
  assert (H1 : value ∘ model <$> getTab k st1 = Some v).
  { unfold st1. rewrite getTab_update_tab_eq by done.
    change (getTab k (emit (push_edit (uri m) r text) st)) with (getTab k st).
    by rewrite Hget. }
  destruct notified.
  - eexists. split; [reflexivity|].
    unfold onDidChangeContent.
    destruct (getTab k st1) as [t1|] eqn:Hg; [|by rewrite Hg].
    destruct (isDirty t1); cbn [negb]; [by rewrite Hg|].
    rewrite getTab_renderTabs.
    rewrite (getTab_update_tab_preserves (set_isDirty true) (set_isDirty_id true)
               (value ∘ model) k k st1) by done.
    by rewrite Hg.
  - eexists. split; [reflexivity|]. exact H1.
Qed.

(** C2, as the code has it.  An application that reaches the edit (valid
    input, an active tab, an end column that can be resolved) passes to
    the range constructor [start_line] and [end_line] as given, start
    column 1 when [start_column] is absent or falsy and the given one
    otherwise, and as end column the end line's maximum column when
    [end_column] is absent or falsy and the given one otherwise.  The
    constructor keeps the two ends when the start does not lie after the
    end, and swaps them when it does.  The range it returns is the one
    the model is asked to edit, once; the tab then holds the text the
    widget returns for that range, or its old text when the widget
    refuses.  For an end line ten characters long the maximum column is
    11, one past the tenth character: with [end_column] left out and a
    start that does not lie after it, the range ends at column 11, so it
    runs through column 10 to the end of the line. *)
Theorem surgical_default_columns (st : State) (data : JsVal) (tab : Tab)
    (maxColumn : JsVal) :
  surg_value (dom st) ≠ "" →
  JSON_parse (surg_value (dom st)) = inr data →
  has_required data = true →
  getActiveTab st = Some tab →
  let sline := field data "start_line" in
  let eline := field data "end_line" in
  let scol := field data "start_column" in
  let ecol := field data "end_column" in
  let text := field data "replacement_code" in
  let sc := if truthy scol then scol else num 1 in
  let ec := if truthy ecol then ecol else maxColumn in
  let start_after_end := gt sline eline || (strict_eq sline eline && gt sc ec) in
  let range := if start_after_end then mkRange eline ec sline sc
               else mkRange sline sc eline ec in
  (truthy ecol = false → getLineMaxColumn (model tab) eline = inr maxColumn) →
  (∃ rest,
     trace (applySurgicalReplace st)
     = (trace st ++ push_edit (uri (model tab)) range text :: rest)%list
     ∧ Forall (λ e, is_edit e = false) rest)
  ∧ match applyEdits (value (model tab)) range text with
    | inl _ => tabs (applySurgicalReplace st) = tabs st
    | inr (v, _) =>
        value ∘ model <$> getTab (id tab) (applySurgicalReplace st) = Some v
    end
  ∧ (∀ n line,
       eline = num (Z.of_nat (S n)) →
       lines_of (value (model tab)) !! n = Some line →
       utf16_length line = 10%nat →
       truthy ecol = false →
       maxColumn = num 11
       ∧ (start_after_end = false → endLineNumber range = eline ∧ endColumn range = num 11)).
Proof.
  intros Hne Hparse Hreq Hact sline eline scol ecol text sc ec start_after_end range Hmax.
  assert (Hrange : range = newRange sline sc eline ec) by reflexivity.
  assert (Hget : getTab (id tab) st = Some tab).
  { unfold getActiveTab in Hact. by destruct (getTab_id _ _ _ Hact) as [-> _]. }
  assert (Happly : applySurgicalReplace st
            = try_catch
                ((pushEditOperations (id tab) (model tab) range text ;;
                  editor_revealRangeInCenter range) ;;
                 modify cancelSurgicalReplace)
                applySurgicalReplace_catch st).
  { unfold applySurgicalReplace. apply truthy_str_true in Hne. rewrite Hne.
    cbn [negb]. unfold try_catch.
    by rewrite (try_reaches_edit st data tab maxColumn Hparse Hreq Hact Hmax). }
  clearbody range. subst sline eline scol ecol text.
  pose proof (pushEditOperations_value (id tab) (model tab) range
                (field data "replacement_code") st tab Hget) as Hpush.
  destruct (pushEditOperations_trace (id tab) (model tab) range
              (field data "replacement_code") st) as [rest1 [Htr1 Hno1]].
  rewrite Happly. unfold try_catch, mbind, M_bind.
  destruct (applyEdits (value (model tab)) range (field data "replacement_code"))
    as [e|[v notified]].
  - rewrite Hpush in Htr1 |- *. rewrite catch_is_alert.
    split; [|split; [reflexivity|]].
    + exists [alert_of (emit (push_edit (uri (model tab)) range
                               (field data "replacement_code")) st) e].
      split; [simpl; by rewrite <- app_assoc|].
      repeat constructor. unfold alert_of. by destruct (has_create_alert _).
    + intros n line He Hl Hlen Hfalsy. split.
      * specialize (Hmax Hfalsy). rewrite He in Hmax.
        rewrite (getLineMaxColumn_line _ _ _ Hl), Hlen in Hmax.
        by injection Hmax as <-.
      * intros Hnot. rewrite Hrange. unfold newRange.
        fold start_after_end. rewrite Hnot. simpl. split; [reflexivity|].
        unfold ec. rewrite Hfalsy.
        specialize (Hmax Hfalsy). rewrite He in Hmax.
        rewrite (getLineMaxColumn_line _ _ _ Hl), Hlen in Hmax.
        by injection Hmax as <-.
  - destruct Hpush as (st1 & Hp & Hv). rewrite Hp in Htr1 |- *.
    cbn [snd] in Htr1.
    unfold editor_revealRangeInCenter, modify, cancelSurgicalReplace.
    split; [|split].
    + destruct (isIRange range).
      * exists rest1. split; [|exact Hno1]. simpl.
        destruct (ed_model (editor st1)); exact Htr1.
      * rewrite catch_is_alert. exists (rest1 ++ [alert_of st1 (Error "Invalid arguments")])%list.
        split.
        { simpl. rewrite Htr1, <- app_assoc. reflexivity. }
        apply list.Forall_app. split; [exact Hno1|].
        repeat constructor. unfold alert_of. by destruct (has_create_alert _).
    + destruct (isIRange range).
      * destruct (ed_model (editor st1)); exact Hv.
      * rewrite catch_is_alert. exact Hv.
    + intros n line He Hl Hlen Hfalsy. split.
      * specialize (Hmax Hfalsy). rewrite He in Hmax.
        rewrite (getLineMaxColumn_line _ _ _ Hl), Hlen in Hmax.
        by injection Hmax as <-.
      * intros Hnot. rewrite Hrange. unfold newRange.
        fold start_after_end. rewrite Hnot. simpl. split; [reflexivity|].
        unfold ec. rewrite Hfalsy.
        specialize (Hmax Hfalsy). rewrite He in Hmax.
        rewrite (getLineMaxColumn_line _ _ _ Hl), Hlen in Hmax.
        by injection Hmax as <-.
Qed.

(** ** The invariant of the event loop *)

Lemma WF_init h : WF (initState h).
Proof. split; simpl; try constructor; try lia; reflexivity. Qed.

Lemma WF_update_tab k f st :
  (∀ t, id (f t) = id t) → (∀ t, uri (model (f t)) = uri (model t)) →
  WF st → WF (update_tab k f st).
Proof.
  intros Hid Huri [].
  destruct (update_tab_frame f k st) as (Hn & Ha & He & Hm & Hd & _ & _).
  split; rewrite ?Hn, ?Ha, ?He, ?Hm, ?Hd,
           ?(update_tab_preserves f id) by done; try done.
  - by rewrite (update_tab_preserves f (uri ∘ model)) by (intros; apply Huri).
  - by rewrite (update_tab_preserves f (uri ∘ model)) by (intros; apply Huri).
  - unfold getActiveTab. rewrite Ha.
    by rewrite (getTab_update_tab_preserves f Hid (uri ∘ model))
      by (intros; apply Huri).
Qed.

Lemma el_tab_tabEl st (ts : list Tab) : el_tab <$> (tabEl st <$> ts) = id <$> ts.
Proof. rewrite <- list_fmap_compose. reflexivity. Qed.

Lemma WF_renderTabs st : WF st → WF (renderTabs st).
Proof.
  intros [].
  destruct (renderTabs_frame st) as (Ht & Hn & Ha & He & Hm & _).
  destruct (renderTabs_dom st) as (_ & _ & _ & _ & Hc).
  split; rewrite ?Ht, ?Hn, ?Ha, ?He, ?Hm, ?Hc, ?el_tab_tabEl; try done.
  unfold getActiveTab. by rewrite Ha, getTab_renderTabs.
Qed.

Lemma WF_emit e st : WF st → WF (emit e st).
Proof. by intros []. Qed.

(** Changes to the page that leave the tab bar alone. *)
Lemma WF_with_dom d st :
  tabs_container d = tabs_container (dom st) → WF st → WF (with_dom d st).
Proof. intros Hc []. split; simpl; rewrite ?Hc; done. Qed.

(** Changes to the editor that keep its model. *)
Lemma WF_with_editor e st :
  ed_model e = ed_model (editor st) → WF st → WF (with_editor e st).
Proof. intros He []. split; simpl; rewrite ?He; done. Qed.

Lemma incoming_shown_none e : ed_model (incoming_shown None e) = None.
Proof.
  unfold incoming_shown, setModel. simpl. case_decide as Heq; [exact Heq|reflexivity].
Qed.

Lemma WF_switchTab j st : -1 ≤ j < nextTabId st → WF st → WF (switchTab j st).
Proof.
  intros Hj Hwf. destruct (decide (activeTabId st = j)) as [<-|Hne].
  { by rewrite switchTab_same. }
  assert (Hout : WF (outgoing_saved st)) by (by apply WF_update_tab).
  destruct (switchTab_other j st Hne) as (Ht & Ha & He & _).
  destruct (switchTab_counters j st) as (Hn & Hm & _).
  assert (Hc : tabs_container (dom (switchTab j st)) = tabEl
                 (with_dom (set_focus FocusEditor (dom (outgoing_saved st)))
                    (with_editor (incoming_shown (getTab j (outgoing_saved st))
                                    (editor (outgoing_saved st)))
                       (with_activeTabId j (outgoing_saved st))))
               <$> tabs (outgoing_saved st)).
  { unfold switchTab. rewrite decide_False by done. rewrite outgoing_saved_eq.
    unfold incoming_shown.
    destruct (getActiveTab (with_activeTabId j (outgoing_saved st)) ≫= viewState);
      match goal with
      | |- context [renderTabs ?s] =>
          by destruct (renderTabs_dom s) as (_ & _ & _ & _ & ->)
      end. }
  destruct (update_tab_frame (set_viewState (saveViewState (editor st)))
              (activeTabId st) st) as (Hn' & _ & _ & Hm' & _ & _ & _).
  fold (outgoing_saved st) in Hn', Hm'.
  destruct Hout.
  split; rewrite ?Ht, ?Hn, ?Hm, ?Ha, ?Hc, ?el_tab_tabEl, <- ?Hn', <- ?Hm'; try done.
  - rewrite Hn'. lia.
  - rewrite He. unfold getActiveTab. rewrite Ha.
    rewrite (getTab_with_tabs j (outgoing_saved st) (switchTab j st)) by done.
    destruct (getTab j (outgoing_saved st)) as [t|]; simpl.
    + apply incoming_shown_model.
    + apply incoming_shown_none.
Qed.

Lemma getTab_appended_old p text k st :
  k ≠ nextTabId st → getTab k (appended p text st) = getTab k st.
Proof.
  intros Hk. unfold getTab, appended. simpl.
  destruct (list_find (λ t, id t = k) (tabs st)) as [[i t]|] eqn:Hf.
  - by rewrite (list_find_app_l _ _ _ _ _ Hf).
  - rewrite list_find_app_r by done. simpl. by rewrite decide_False.
Qed.

Lemma WF_appended p text st : WF st → WF (appended p text st).
Proof.
  intros [].
  assert (Hshown : getActiveTab (appended p text st) = getActiveTab st).
  { unfold getActiveTab. simpl. apply getTab_appended_old. lia. }
  split; [| | | | | |by rewrite Hshown];
    unfold appended; simpl; rewrite ?fmap_app; simpl.
  - apply list.NoDup_app. split; [done|]. split; [|apply NoDup_singleton].
    intros i Hi [->|[]%elem_of_nil]%elem_of_cons.
    rewrite list.Forall_forall in wf_fresh0. specialize (wf_fresh0 _ Hi). lia.
  - apply list.Forall_app. split.
    + eapply list.Forall_impl; [exact wf_fresh0|]. simpl. lia.
    + apply Forall_singleton. lia.
  - lia.
  - eapply list.Forall_impl; [exact wf_rendered0|]. simpl. lia.
  - apply list.NoDup_app. split; [done|]. split; [|apply NoDup_singleton].
    intros u Hu [->|[]%elem_of_nil]%elem_of_cons.
    rewrite list.Forall_forall in wf_created0. specialize (wf_created0 _ Hu). lia.
  - apply list.Forall_app. split.
    + eapply list.Forall_impl; [exact wf_created0|]. simpl. lia.
    + apply Forall_singleton. lia.
Qed.

Lemma WF_ids_of_tab st t : WF st → t ∈ tabs st → 0 ≤ id t < nextTabId st.
Proof.
  intros [] Ht. rewrite list.Forall_forall in wf_fresh0.
  apply wf_fresh0. by apply list_elem_of_fmap_2.
Qed.

Lemma WF_addTab p text st : WF st → WF (addTab p text st).
Proof.
  intros Hwf. unfold addTab. fold (existing_tab p st).
  destruct (existing_tab p st) as [t|] eqn:Hex.
  - apply existing_tab_Some in Hex as (s & _ & _ & Hin & _).
    apply WF_switchTab; [|done].
    pose proof (WF_ids_of_tab st t Hwf Hin). lia.
  - fold (appended p text st).
    apply WF_switchTab; [|by apply WF_appended].
    destruct Hwf. simpl. lia.
Qed.

Lemma WF_onDidChangeContent k st : WF st → WF (onDidChangeContent k st).
Proof.
  intros Hwf. unfold onDidChangeContent.
  destruct (getTab k st) as [t|]; [|done].
  destruct (isDirty t); [done|]. simpl.
  by apply WF_renderTabs, WF_update_tab.
Qed.

Lemma WF_save_response k res st : WF st → WF (save_response k res st).
Proof.
  intros Hwf. unfold save_response, path_or.
  destruct res as [r|]; [|done]. destruct (saved r); [|done].
  destruct (res_path r) as [p|]; [|done]. destruct (truthy_str p); [|done].
  apply WF_renderTabs. repeat apply WF_update_tab; done.
Qed.

Lemma WF_doSave res st : WF st → WF (doSave res st).
Proof.
  intros Hwf. unfold doSave. destruct (getActiveTab st); [|done].
  by apply WF_save_response, WF_emit.
Qed.

Lemma WF_doSaveAs res st : WF st → WF (doSaveAs res st).
Proof.
  intros Hwf. unfold doSaveAs. destruct (getActiveTab st); [|done].
  by apply WF_save_response, WF_emit.
Qed.

Lemma WF_doOpen res st : WF st → WF (doOpen res st).
Proof.
  intros Hwf. unfold doOpen. destruct (has_open_dialog (host st)); [|done]. simpl.
  destruct res as [r|]; [|by apply WF_emit].
  destruct (open_path r), (open_text r); try (by apply WF_emit).
  by apply WF_addTab, WF_emit.
Qed.

Lemma list_find_delete_other {A : Type} (P : A → Prop) `{∀ x, Decision (P x)}
    (l : list A) (i : nat) (x : A) :
  l !! i = Some x → ¬ P x →
  snd <$> list_find P (delete i l) = snd <$> list_find P l.
Proof.
  revert i. induction l as [|y l IH]; intros i Hl Hx; [done|].
  destruct i as [|i]; simpl in *.
  - injection Hl as ->. rewrite decide_False by done.
    by destruct (list_find P l) as [[]|].
  - destruct (decide (P y)); [done|].
    specialize (IH i Hl Hx).
    change (list_delete i l) with (delete i l).
    destruct (list_find P (delete i l)) as [[]|], (list_find P l) as [[]|];
      simpl in *; congruence.
Qed.

Lemma WF_removed_at tabIdx t st :
  tabs st !! tabIdx = Some t → WF st → WF (removed_at tabIdx t st).
Proof.
  intros Hl Hwf. pose proof Hwf as [].
  assert (Hsub : ∀ {B} (g : Tab → B),
             g <$> delete tabIdx (tabs st) `sublist_of` g <$> tabs st).
  { intros B g. rewrite list_fmap_delete. apply sublist_delete. }
  assert (Hshown : ed_model (dispose (model t) (editor st))
                   = uri ∘ model <$> getActiveTab (removed_at tabIdx t st)).
  { unfold getActiveTab, getTab. simpl.
    destruct (decide (id t = activeTabId st)) as [Heq|Hne].
    - (* the active tab is the one removed *)
      assert (Hact : getActiveTab st = Some t).
      { unfold getActiveTab, getTab. rewrite <- Heq.
        by rewrite (find_unique (tabs st) tabIdx t). }
      rewrite Hact in wf_shown0. simpl in wf_shown0.
      unfold dispose. rewrite decide_True by done. simpl.
      replace (list_find _ _) with (@None (nat * Tab)); [done|].
      symmetry. apply list_find_None, list.Forall_forall. intros x Hx.
      rewrite <- Heq. by eapply delete_misses.
    - rewrite (list_find_delete_other _ _ _ _ Hl) by done.
      fold (getTab (activeTabId st) st). fold (getActiveTab st).
      rewrite <- wf_shown0. unfold dispose.
      rewrite decide_False; [done|].
      rewrite wf_shown0. destruct (getActiveTab st) as [ta|] eqn:Hact; [|done].
      simpl. intros [= Hu].
      destruct (getTab_Some _ _ _ Hact) as [j Hj].
      apply list_find_Some in Hj as (Hlj & Hidj & _).
      assert (j = tabIdx); [|congruence].
      apply (NoDup_lookup (uri ∘ model <$> tabs st) j tabIdx (uri (model t)));
        [done| |]; rewrite list_lookup_fmap; [rewrite Hlj|rewrite Hl]; simpl; congruence. }
  split; simpl; try done.
  - eapply sublist_NoDup; [exact wf_ids0 | apply Hsub].
  - apply list.Forall_forall. intros x Hx.
    rewrite list.Forall_forall in wf_fresh0. apply wf_fresh0.
    eapply elem_of_sublist; [exact Hx | apply Hsub].
  - eapply sublist_NoDup; [exact wf_uris0 | apply Hsub].
  - apply list.Forall_forall. intros x Hx.
    rewrite list.Forall_forall in wf_created0. apply wf_created0.
    eapply elem_of_sublist; [exact Hx | apply Hsub].
Qed.

Lemma WF_closeTab_refill st : WF st → WF (closeTab_refill st).
Proof.
  intros Hwf. unfold closeTab_refill. case_bool_decide.
  - by apply WF_addTab.
  - by apply WF_renderTabs.
Qed.

Lemma WF_closeTab confirmed tabId st : WF st → WF (closeTab confirmed tabId st).2.
Proof.
  intros Hwf. unfold closeTab, findIndex, getTab.
  destruct (list_find _ _) as [[i t]|] eqn:Hf; simpl; [|done].
  apply list_find_Some in Hf as (Hl & _ & _).
  assert (Hgo : ∀ st0, WF st0 → tabs st0 !! i = Some t →
            WF ((closeTab_remove i tabId ;; modify closeTab_refill) st0).2).
  { intros st0 Hwf0 Hl0. unfold mbind, M_bind, modify.
    rewrite (closeTab_remove_eq i tabId st0 t Hl0). simpl.
    apply WF_closeTab_refill.
    pose proof (WF_removed_at i t st0 Hl0 Hwf0) as Hrem.
    case_decide; [|done].
    apply WF_switchTab; [|done].
    destruct (delete i (tabs st0) !! newActiveIdx i) as [t'|] eqn:Ht'; simpl.
    - apply list_elem_of_lookup_2 in Ht'.
      pose proof (WF_ids_of_tab _ t' Hrem Ht') as Hrange. simpl in Hrange. lia.
    - destruct Hrem. simpl in *. lia. }
  destruct (isDirty t).
  - destruct confirmed; simpl.
    + apply Hgo; [by apply WF_emit | done].
    + by apply WF_emit.
  - by apply Hgo.
Qed.

(** The halves the event loop runs.  The index a suspended [closeTab]
    holds may be stale: the invariant does not depend on it. *)

Lemma WF_with_pending ps st : WF st → WF (with_pending ps st).
Proof. by intros []. Qed.

Lemma WF_close_proceed i k st :
  WF st → WF ((closeTab_remove i k ;; modify closeTab_refill) st).2.
Proof.
  intros Hwf. unfold mbind, M_bind, modify.
  destruct (tabs st !! i) as [t|] eqn:Hl.
  - rewrite (closeTab_remove_eq i k st t Hl). simpl.
    apply WF_closeTab_refill.
    pose proof (WF_removed_at i t st Hl Hwf) as Hrem.
    case_decide; [|done].
    apply WF_switchTab; [|done].
    destruct (delete i (tabs st) !! newActiveIdx i) as [t'|] eqn:Ht'; simpl.
    + apply list_elem_of_lookup_2 in Ht'.
      pose proof (WF_ids_of_tab _ t' Hrem Ht') as Hrange. simpl in Hrange. lia.
    + destruct Hrem. simpl in *. lia.
  - unfold closeTab_remove. by rewrite Hl.
Qed.

Lemma WF_closeTab_begin tabId st : WF st → WF (closeTab_begin tabId st).2.
Proof.
  intros Hwf. unfold closeTab_begin.
  destruct (findIndex tabId (tabs st)) as [i|]; [|done].
  destruct (getTab tabId st) as [t|]; [|done].
  destruct (isDirty t).
  - by apply WF_with_pending, WF_emit.
  - by apply WF_close_proceed.
Qed.

Lemma WF_closeTab_resume confirmed i k st :
  WF st → WF (closeTab_resume confirmed i k st).2.
Proof.
  intros Hwf. unfold closeTab_resume. destruct confirmed; [|done].
  by apply WF_close_proceed.
Qed.

Lemma WF_doOpen_begin st : WF st → WF (doOpen_begin st).
Proof.
  intros Hwf. unfold doOpen_begin. destruct (negb _); [done|].
  by apply WF_with_pending, WF_emit.
Qed.

Lemma WF_doOpen_resume res st : WF st → WF (doOpen_resume res st).
Proof.
  intros Hwf. unfold doOpen_resume. destruct res as [r|]; [|done].
  destruct (open_path r), (open_text r); try done. by apply WF_addTab.
Qed.

Lemma WF_doSave_begin st : WF st → WF (doSave_begin st).
Proof.
  intros Hwf. unfold doSave_begin. destruct (getActiveTab st); [|done].
  by apply WF_with_pending, WF_emit.
Qed.

Lemma WF_doSaveAs_begin st : WF st → WF (doSaveAs_begin st).
Proof.
  intros Hwf. unfold doSaveAs_begin. destruct (getActiveTab st); [|done].
  by apply WF_with_pending, WF_emit.
Qed.

Lemma WF_save_resume k res st : WF st → WF (save_resume k res st).
Proof.
  intros Hwf. unfold save_resume.
  destruct (getTab k st); [by apply WF_save_response|].
  destruct res as [r|]; [|done]. destruct (saved r); [|done].
  unfold path_or. destruct (res_path r) as [p|]; [|done].
  destruct (truthy_str p); [|done].
  destruct setModelLanguage_disposed; [done | by apply WF_renderTabs].
Qed.

Lemma keeps_WF_bind {A B : Type} (m : M A) (f : A → M B) :
  keeps_WF m → (∀ a, keeps_WF (f a)) → keeps_WF (m ≫= f).
Proof.
  intros Hm Hf st Hwf. unfold mbind, M_bind.
  specialize (Hm st Hwf). destruct (m st) as [[e|a] st']; simpl in *; [done|].
  by apply Hf.
Qed.

Lemma keeps_WF_pure {A : Type} (r : Exn + A) : keeps_WF (lift_exn r).
Proof. by intros st Hwf. Qed.

Lemma keeps_WF_gets {A : Type} (f : State → A) : keeps_WF (gets f).
Proof. by intros st Hwf. Qed.

Lemma keeps_WF_modify (f : State → State) :
  (∀ st, WF st → WF (f st)) → keeps_WF (modify f).
Proof. intros Hf st Hwf. by apply Hf. Qed.

Lemma WF_cancelSurgicalReplace st : WF st → WF (cancelSurgicalReplace st).
Proof. intros Hwf. by apply WF_with_dom. Qed.

Lemma keeps_WF_pushEditOperations k m r text :
  keeps_WF (pushEditOperations k m r text).
Proof.
  unfold pushEditOperations.
  apply keeps_WF_bind; [apply keeps_WF_modify; intros; by apply WF_emit|].
  intros _. apply keeps_WF_bind; [apply keeps_WF_pure|].
  intros [v notified].
  apply keeps_WF_bind; [apply keeps_WF_modify; intros; by apply WF_update_tab|].
  intros _. destruct notified.
  - apply keeps_WF_modify. intros. by apply WF_onDidChangeContent.
  - by intros st Hwf.
Qed.

Lemma keeps_WF_reveal r : keeps_WF (editor_revealRangeInCenter r).
Proof.
  intros st Hwf. unfold editor_revealRangeInCenter.
  destruct (isIRange r); [|done]. simpl.
  destruct (ed_model (editor st)) eqn:He; [|done].
  apply WF_with_editor; [by rewrite He | done].
Qed.

Lemma keeps_WF_select r : keeps_WF (editor_setSelection r).
Proof.
  intros st Hwf. unfold editor_setSelection.
  destruct (isIRange r); [|done]. simpl.
  destruct (ed_model (editor st)) eqn:He; [|done].
  apply WF_with_editor; [by rewrite He | done].
Qed.

Lemma keeps_WF_try : keeps_WF applySurgicalReplace_try.
Proof.
  unfold applySurgicalReplace_try.
  apply keeps_WF_bind; [apply keeps_WF_gets|]. intros input.
  repeat (apply keeps_WF_bind; [apply keeps_WF_pure|]; intros ?).
  apply keeps_WF_bind.
  { destruct (_ || _); by intros st Hwf. }
  intros _. apply keeps_WF_bind; [apply keeps_WF_gets|]. intros [tab|].
  - apply keeps_WF_bind.
    + apply keeps_WF_bind.
      { destruct (truthy _); [by intros st Hwf | apply keeps_WF_pure]. }
      intros endColumn.
      apply keeps_WF_bind; [apply keeps_WF_pushEditOperations|].
      intros _. apply keeps_WF_reveal.
    + intros _. apply keeps_WF_modify, WF_cancelSurgicalReplace.
  - apply keeps_WF_bind; [by intros st Hwf|].
    intros _. apply keeps_WF_modify, WF_cancelSurgicalReplace.
Qed.

Lemma WF_applySurgicalReplace st : WF st → WF (applySurgicalReplace st).
Proof.
  intros Hwf. unfold applySurgicalReplace.
  destruct (negb _); [by apply WF_cancelSurgicalReplace|].
  unfold try_catch. pose proof (keeps_WF_try st Hwf) as Htry.
  destruct (applySurgicalReplace_try st) as [[e|[]] st']; simpl in Htry; [|done].
  rewrite catch_is_alert. by apply WF_emit.
Qed.

Lemma WF_userEdit text st : WF st → WF (userEdit text st).
Proof.
  intros Hwf. unfold userEdit. destruct (getActiveTab st) as [tab|]; [|done].
  by apply WF_onDidChangeContent, WF_update_tab.
Qed.

Lemma WF_step ev st : WF st → WF (step ev st).
Proof.
  intros Hwf. destruct ev; unfold step.
  - by apply WF_addTab.
  - case_bool_decide as Hin; [|done].
    apply WF_switchTab; [|done].
    destruct Hwf. rewrite list.Forall_forall in wf_rendered0.
    specialize (wf_rendered0 _ Hin). lia.
  - by apply WF_closeTab_begin.
  - by apply WF_doOpen_begin.
  - by apply WF_doSave_begin.
  - by apply WF_doSaveAs_begin.
  - destruct (pending st !! n) as [p|]; [|done].
    pose proof (WF_with_pending (delete n (pending st)) st Hwf) as Hwf1.
    destruct p, a; try done.
    + by apply WF_closeTab_resume.
    + by apply WF_doOpen_resume.
    + by apply WF_save_resume.
  - unfold showSurgicalReplace. by apply WF_with_dom.
  - by apply WF_applySurgicalReplace.
  - by apply WF_cancelSurgicalReplace.
  - by apply WF_with_dom.
  - apply WF_with_editor; [|done]. unfold restoreViewState.
    destruct (ed_model (editor st)) eqn:He; simpl; congruence.
  - by apply WF_userEdit.
  - by destruct Hwf.
Qed.

(** Every state of the event loop is well formed. *)
Lemma reachable_WF st : reachable st → WF st.
Proof.
  induction 1 as [h|ev st _ IH]; [apply WF_init | by apply WF_step].
Qed.

Lemma reachable_run evs st : reachable st → reachable (run evs st).
Proof.
  revert st. induction evs as [|ev evs IH]; intros st Hr; [done|].
  simpl. apply IH. by constructor.
Qed.

(** ** Properties of well-formed states *)


(** C5. Closing the active tab, when the close goes ahead (the tab is
    clean, or dirty and confirmed).  The collection is the old one
    without the closed tab.  When tabs remain, the active tab is the one
    now at the closed tab's former index minus one, clamped to zero, both
    right after the re-selection and when [closeTab] returns.  When none
    remains, right after the re-selection, before the blank tab is added,
    the active identifier is -1 and no tab is active. *)
Theorem closeTab_reselects (confirmed : bool) (st : State) (tabIdx : nat) (t : Tab) :
  WF st →
  tabs st !! tabIdx = Some t →
  activeTabId st = id t →
  isDirty t = false ∨ confirmed = true →
  let remaining := delete tabIdx (tabs st) in
  let st0 := if isDirty t then emit unsaved_changes st else st in
  let reselected := (closeTab_remove tabIdx (id t) st0).2 in
  let final := (closeTab confirmed (id t) st).2 in
  tabs reselected = remaining
  ∧ (remaining ≠ [] →
       ∃ t', remaining !! newActiveIdx tabIdx = Some t'
         ∧ getActiveTab reselected = Some t'
         ∧ tabs final = remaining
         ∧ getActiveTab final = Some t')
  ∧ (remaining = [] →
       activeTabId reselected = -1 ∧ getActiveTab reselected = None).
Proof.
  intros [Hnd _ _ _ _ _ _] Hl Hact Hgo remaining st0 reselected final.
  assert (Htabs0 : tabs st0 = tabs st) by (subst st0; by destruct (isDirty t)).
  assert (Hact0 : activeTabId st0 = id t) by (subst st0; by destruct (isDirty t)).
  assert (Hl0 : tabs st0 !! tabIdx = Some t) by (by rewrite Htabs0).
  set (st2 := removed_at tabIdx t st0).
  assert (Htabs2 : tabs st2 = remaining).
  { subst st2 remaining. simpl. by rewrite Htabs0. }
  assert (Hgone : getActiveTab st2 = None).
  { unfold getActiveTab. apply getTab_None. intros x Hx.
    rewrite Htabs2 in Hx. change (activeTabId st2) with (activeTabId st0).
    rewrite Hact0. by eapply delete_misses. }
  set (j := from_option id (-1) (tabs st2 !! newActiveIdx tabIdx)).
  assert (Hre : reselected = switchTab j st2).
  { subst reselected. rewrite (closeTab_remove_eq _ _ _ _ Hl0). simpl.
    by rewrite decide_True. }
  assert (Htabs : tabs reselected = remaining).
  { rewrite Hre. destruct (decide (activeTabId st2 = j)) as [Heq|Hne].
    - by rewrite <- Heq, switchTab_same.
    - destruct (switchTab_other j st2 Hne) as (-> & _).
      by rewrite outgoing_saved_absent. }
  assert (Hactive : activeTabId reselected = j).
  { rewrite Hre. apply switchTab_active. }
  assert (Hfinal : final = closeTab_refill reselected).
  { subst final reselected.
    rewrite (closeTab_proceeds confirmed (id t) st tabIdx t); [done| |done].
    by apply find_unique. }
  split; [exact Htabs|]. split.
  - intros Hne.
    assert (Hlen : (newActiveIdx tabIdx < List.length remaining)%nat).
    { pose proof (lookup_lt_Some _ _ _ Hl) as Hlt. subst remaining.
      assert (List.length (delete tabIdx (tabs st)) ≠ 0%nat).
      { intros Hz. apply Hne. by apply nil_length_inv. }
      rewrite length_delete in * by eauto. unfold newActiveIdx. lia. }
    destruct (lookup_lt_is_Some_2 _ _ Hlen) as [t' Ht'].
    exists t'. split; [exact Ht'|].
    assert (Hj : j = id t') by (subst j; by rewrite Htabs2, Ht').
    assert (Hfind : list_find (λ x, id x = id t') remaining
                    = Some (newActiveIdx tabIdx, t')).
    { apply find_unique; [|done]. by apply NoDup_ids_delete. }
    assert (Hget : getActiveTab reselected = Some t').
    { unfold getActiveTab, getTab. by rewrite Hactive, Hj, Htabs, Hfind. }
    split; [exact Hget|].
    assert (Hrender : final = renderTabs reselected).
    { rewrite Hfinal. unfold closeTab_refill. rewrite bool_decide_eq_false_2; [done|].
      rewrite Htabs. lia. }
    rewrite Hrender. destruct (renderTabs_frame reselected) as (Ht & _ & Ha & _).
    split; [by rewrite Ht|].
    unfold getActiveTab. rewrite Ha. by rewrite getTab_renderTabs.
  - intros Hnil.
    assert (Hj : j = -1) by (subst j; by rewrite Htabs2, Hnil).
    split; [by rewrite Hactive|].
    unfold getActiveTab. apply getTab_None. rewrite Htabs, Hnil.
    intros x Hx. by apply elem_of_nil in Hx.
Qed.

(** C8. In a well-formed state with tab [a] active, switching to another
    tab [b] stores the editor's view state in [a]; whatever the user then
    does to the view while on [b], switching back to [a] leaves the
    editor on [a]'s model with exactly the view it had before leaving
    (and stores [b]'s view in turn).  A tab entered with a saved view
    state gets it restored.  Switching to the tab that is already active
    changes nothing. *)
Theorem switch_away_and_back (st : State) (a b : Z) (ta tb : Tab) (v : ViewState) :
  WF st →
  activeTabId st = a →
  getTab a st = Some ta →
  getTab b st = Some tb →
  a ≠ b →
  let away := switchTab b st in
  let moved := step (EvView v) away in
  let back := switchTab a moved in
  viewState <$> getTab a away = Some (Some (ed_view (editor st)))
  ∧ activeTabId away = b
  ∧ ed_model (editor away) = Some (uri (model tb))
  ∧ (∀ vb, viewState tb = Some vb → ed_view (editor away) = vb)
  ∧ activeTabId back = a
  ∧ ed_model (editor back) = Some (uri (model ta))
  ∧ ed_view (editor back) = ed_view (editor st)
  ∧ viewState <$> getTab b back = Some (Some v)
  ∧ switchTab a back = back
  ∧ switchTab a st = st.
Proof.
  intros Hwf Hact Ha Hb Hne away moved back.
  assert (Hshown : ed_model (editor st) = Some (uri (model ta))).
  { destruct Hwf as [_ _ _ _ _ _ ->]. unfold getActiveTab. by rewrite Hact, Ha. }
  assert (Hsave : saveViewState (editor st) = Some (ed_view (editor st))).
  { unfold saveViewState. by rewrite Hshown. }
  (* leaving a *)
  assert (Hne1 : activeTabId st ≠ b) by congruence.
  destruct (switchTab_other b st Hne1) as (Ht1 & Ha1 & He1 & _).
  fold away in Ht1, Ha1, He1.
  assert (Hb0 : getTab b (outgoing_saved st) = Some tb).
  { unfold outgoing_saved. rewrite Hact.
    by rewrite getTab_update_tab_ne by (done || apply set_viewState_id). }
  assert (Ha0 : getTab a (outgoing_saved st)
                = Some (set_viewState (Some (ed_view (editor st))) ta)).
  { unfold outgoing_saved. rewrite Hact.
    rewrite getTab_update_tab_eq by apply set_viewState_id.
    by rewrite Ha, Hsave. }
  rewrite Hb0 in He1.
  assert (Ha_away : getTab a away
                    = Some (set_viewState (Some (ed_view (editor st))) ta)).
  { by rewrite (getTab_with_tabs a (outgoing_saved st) away). }
  assert (Hb_away : getTab b away = Some tb).
  { by rewrite (getTab_with_tabs b (outgoing_saved st) away). }
  assert (Hm_away : ed_model (editor away) = Some (uri (model tb))).
  { rewrite He1. apply incoming_shown_model. }
  (* the user moves the view on b *)
  assert (He_moved : editor moved = mkEditor (Some (uri (model tb))) v).
  { subst moved. simpl. unfold restoreViewState. by rewrite Hm_away. }
  assert (Ht_moved : tabs moved = tabs away) by reflexivity.
  assert (Ha_moved : activeTabId moved = b) by (subst moved; simpl; exact Ha1).
  (* coming back *)
  assert (Hne2 : activeTabId moved ≠ a) by congruence.
  destruct (switchTab_other a moved Hne2) as (Ht2 & Ha2 & He2 & _).
  fold back in Ht2, Ha2, He2.
  assert (Ha_out : getTab a (outgoing_saved moved)
                   = Some (set_viewState (Some (ed_view (editor st))) ta)).
  { unfold outgoing_saved. rewrite Ha_moved.
    rewrite getTab_update_tab_ne by (done || apply set_viewState_id).
    by rewrite (getTab_with_tabs a away moved). }
  assert (Hb_out : getTab b (outgoing_saved moved) = Some (set_viewState (Some v) tb)).
  { unfold outgoing_saved. rewrite Ha_moved.
    rewrite getTab_update_tab_eq by apply set_viewState_id.
    rewrite (getTab_with_tabs b away moved) by done.
    rewrite Hb_away, He_moved. reflexivity. }
  rewrite Ha_out in He2.
  split; [by rewrite Ha_away|].
  split; [exact Ha1|].
  split; [exact Hm_away|].
  split; [intros vb Hvb; rewrite He1; by apply incoming_shown_view|].
  split; [exact Ha2|].
  split; [by rewrite He2, incoming_shown_model|].
  split; [rewrite He2; by apply incoming_shown_view|].
  split; [by rewrite (getTab_with_tabs b (outgoing_saved moved) back), Hb_out|].
  split; [rewrite <- Ha2 at 1; apply switchTab_same|].
  rewrite <- Hact. apply switchTab_same.
Qed.

End Facts.

(** * Concrete runs *)

Lemma reachable_two_tabs : reachable Demo.two_tabs.
Proof. apply reachable_run, reachable_init. Qed.

Lemma reachable_one_tab : reachable Demo.one_tab.
Proof. apply reachable_run, reachable_init. Qed.

Lemma reachable_one_dirty_tab : reachable Demo.one_dirty_tab.
Proof. apply reachable_run, reachable_init. Qed.

Lemma reachable_dialog text : reachable (Demo.dialog_with text).
Proof. apply reachable_run, reachable_one_tab. Qed.


Lemma reachable_two_tabs_scrolled : reachable Demo.two_tabs_scrolled.
Proof. apply reachable_run, reachable_two_tabs. Qed.

(** Input that lacks [replacement_code]: an alert through the host, the
    dialog still open, the tab as it was. *)
Lemma apply_missing_field_alerts_witness :
  surg_value (dom (Demo.dialog_with Demo.patch_no_code_text)) ≠ ""
  ∧ JSON_parse (surg_value (dom (Demo.dialog_with Demo.patch_no_code_text)))
    = inr Demo.patch_no_code
  ∧ has_required Demo.patch_no_code = false
  ∧ ∃ e,
      trace (applySurgicalReplace (Demo.dialog_with Demo.patch_no_code_text))
      = (trace (Demo.dialog_with Demo.patch_no_code_text)
           ++ [alert_of (Demo.dialog_with Demo.patch_no_code_text) e])%list
      ∧ tabs (applySurgicalReplace (Demo.dialog_with Demo.patch_no_code_text))
        = [Demo.file_tab]
      ∧ modal_hidden (dom (applySurgicalReplace (Demo.dialog_with Demo.patch_no_code_text)))
        = false.
Proof.
  assert (H1 : surg_value (dom (Demo.dialog_with Demo.patch_no_code_text)) ≠ "")
    by (vm_compute; discriminate).
  assert (H2 : JSON_parse (surg_value (dom (Demo.dialog_with Demo.patch_no_code_text)))
               = inr Demo.patch_no_code) by reflexivity.
  assert (H3 : has_required Demo.patch_no_code = false) by reflexivity.
  split; [exact H1|]. split; [exact H2|]. split; [exact H3|].
  destruct (apply_missing_field_alerts _ _ H1 H2 H3)
    as (e & _ & _ & Ht & _ & _ & _ & Hm & Htr).
  exists e. split; [exact Htr|]. split.
  - rewrite Ht. reflexivity.
  - rewrite Hm. reflexivity.
Defined.

(** Line 2 is ten characters long and the patch names no columns: the
    one edit runs from column 1 to column 11, and the line is replaced
    whole. *)
Lemma surgical_default_columns_witness :
  surg_value (dom (Demo.dialog_with Demo.patch_text)) ≠ ""
  ∧ JSON_parse (surg_value (dom (Demo.dialog_with Demo.patch_text))) = inr Demo.patch
  ∧ has_required Demo.patch = true
  ∧ getActiveTab (Demo.dialog_with Demo.patch_text) = Some Demo.file_tab
  ∧ lines_of (value (model Demo.file_tab)) !! 1%nat = Some "0123456789"
  ∧ (∃ rest,
       trace (applySurgicalReplace (Demo.dialog_with Demo.patch_text))
       = (trace (Demo.dialog_with Demo.patch_text)
            ++ push_edit 0 (mkRange (num 2) (num 1) (num 2) (num 11)) (JStr "X")
            :: rest)%list
       ∧ Forall (λ e, is_edit e = false) rest)
  ∧ value ∘ model <$> getTab 0 (applySurgicalReplace (Demo.dialog_with Demo.patch_text))
    = Some ("first" +:+ nl +:+ "X").
Proof.
  assert (H1 : surg_value (dom (Demo.dialog_with Demo.patch_text)) ≠ "")
    by (vm_compute; discriminate).
  assert (H2 : JSON_parse (surg_value (dom (Demo.dialog_with Demo.patch_text)))
               = inr Demo.patch) by reflexivity.
  assert (H3 : has_required Demo.patch = true) by reflexivity.
  assert (H4 : getActiveTab (Demo.dialog_with Demo.patch_text) = Some Demo.file_tab)
    by reflexivity.
  assert (H5 : truthy (field Demo.patch "end_column") = false →
               getLineMaxColumn (model Demo.file_tab) (field Demo.patch "end_line")
               = inr (num 11)) by reflexivity.
  split; [exact H1|]. split; [exact H2|]. split; [exact H3|]. split; [exact H4|].
  split; [reflexivity|].
  pose proof (surgical_default_columns _ _ _ (num 11) H1 H2 H3 H4 H5) as Hthm.
  cbv zeta in Hthm. destruct Hthm as (Htr & Hval & _).
  split; [exact Htr | exact Hval].
Defined.

(** With the start line after the end line the widget's range constructor
    swaps the two ends: the edit the model is asked for starts at column
    11 of the ten-character line, although no column was given.  So C2
    does not hold for every application. *)
Lemma surgical_start_after_end :
  ¬ (∀ (P : Platform) (st : State) (data : JsVal) (tab : Tab) (line : string)
       (n : nat) (range : Range) (text : JsVal) (rest : list Effect),
       JSON_parse (surg_value (dom st)) = inr data →
       getActiveTab st = Some tab →
       truthy (field data "start_column") = false →
       truthy (field data "end_column") = false →
       field data "end_line" = num (Z.of_nat (S n)) →
       lines_of (value (model tab)) !! n = Some line →
       utf16_length line = 10%nat →
       trace (applySurgicalReplace st)
       = (trace st ++ push_edit (uri (model tab)) range text :: rest)%list →
       startColumn range = num 1 ∧ endColumn range = num 11).
Proof.
  intros Hall.
  destruct (Hall Demo.platform Demo.reversed_dialog Demo.patch_reversed
              Demo.ten_first_tab "0123456789" 0%nat
              (mkRange (num 1) (num 11) (num 2) (num 1)) (JStr "X")
              [alert_of Demo.reversed_dialog (Error "unsupported edit")])
    as [Hsc _]; try reflexivity.
  discriminate Hsc.
Qed.


(** Closing the only tab, dirty and confirmed: one tab afterwards, the
    blank one with the next identifier. *)
Lemma closeTab_never_empty_witness :
  tabs Demo.one_dirty_tab ≠ []
  ∧ tabs Demo.one_dirty_tab = [Demo.file_tab_dirty]
  ∧ ∃ st',
      closeTab true 0 Demo.one_dirty_tab = (inr tt, st')
      ∧ tabs st' ≠ []
      ∧ content <$> tabs st'
        = [(1, None, mkTextModel 1 "" "plaintext", false)].
Proof.
  assert (H1 : tabs Demo.one_dirty_tab ≠ []) by (vm_compute; discriminate).
  assert (H2 : tabs Demo.one_dirty_tab = [Demo.file_tab_dirty]) by reflexivity.
  split; [exact H1|]. split; [exact H2|].
  destruct (closeTab_never_empty true 0 Demo.one_dirty_tab H1)
    as (st' & Hrun & Hne & Hone).
  exists st'. split; [exact Hrun|]. split; [exact Hne|].
  apply (Hone Demo.file_tab_dirty H2 eq_refl (or_intror eq_refl)).
Defined.

(** Closing the active untitled tab at index 1: the file's tab, now at
    index 0, is the active one. *)
Lemma closeTab_reselects_witness :
  WF Demo.two_tabs
  ∧ tabs Demo.two_tabs !! 1%nat = Some Demo.untitled_tab
  ∧ activeTabId Demo.two_tabs = id Demo.untitled_tab
  ∧ isDirty Demo.untitled_tab = false
  ∧ tabs (closeTab false 1 Demo.two_tabs).2 = [Demo.file_tab_left]
  ∧ getActiveTab (closeTab false 1 Demo.two_tabs).2 = Some Demo.file_tab_left.
Proof.
  assert (H1 : WF Demo.two_tabs) by apply reachable_WF, reachable_two_tabs.
  assert (H2 : tabs Demo.two_tabs !! 1%nat = Some Demo.untitled_tab) by reflexivity.
  assert (H3 : activeTabId Demo.two_tabs = id Demo.untitled_tab) by reflexivity.
  assert (H4 : isDirty Demo.untitled_tab = false) by reflexivity.
  split; [exact H1|]. split; [exact H2|]. split; [exact H3|]. split; [exact H4|].
  destruct (closeTab_reselects false Demo.two_tabs 1 Demo.untitled_tab
              H1 H2 H3 (or_introl H4)) as (_ & Hsome & _).
  assert (Hne : delete 1%nat (tabs Demo.two_tabs) ≠ []) by (vm_compute; discriminate).
  destruct (Hsome Hne) as (t' & Ht' & _ & Htabs & Hact).
  vm_compute in Ht'. injection Ht' as <-.
  split; [exact Htabs | exact Hact].
Defined.

(** Declining the confirmation for the dirty tab. *)
Lemma closeTab_declined_witness :
  getTab 0 Demo.one_dirty_tab = Some Demo.file_tab_dirty
  ∧ isDirty Demo.file_tab_dirty = true
  ∧ ∃ st',
      closeTab false 0 Demo.one_dirty_tab = (inr tt, st')
      ∧ tabs st' = [Demo.file_tab_dirty]
      ∧ activeTabId st' = 0
      ∧ editor st' = editor Demo.one_dirty_tab
      ∧ trace st' = (trace Demo.one_dirty_tab ++ [unsaved_changes])%list.
Proof.
  assert (H1 : getTab 0 Demo.one_dirty_tab = Some Demo.file_tab_dirty) by reflexivity.
  assert (H2 : isDirty Demo.file_tab_dirty = true) by reflexivity.
  split; [exact H1|]. split; [exact H2|].
  destruct (closeTab_declined Demo.one_dirty_tab 0 Demo.file_tab_dirty H1 H2)
    as (st' & Hrun & Ht & Ha & _ & He & _ & _ & Htr).
  exists st'. split; [exact Hrun|].
  split; [rewrite Ht; reflexivity|].
  split; [rewrite Ha; reflexivity|].
  split; [exact He | exact Htr].
Defined.


(** Leaving the scrolled untitled tab for the file's tab, moving the view
    there, and coming back: the scrolled view is restored. *)
Lemma switch_away_and_back_witness :
  WF Demo.two_tabs_scrolled
  ∧ activeTabId Demo.two_tabs_scrolled = 1
  ∧ getTab 1 Demo.two_tabs_scrolled = Some Demo.untitled_tab
  ∧ getTab 0 Demo.two_tabs_scrolled = Some Demo.file_tab_left
  ∧ 1 ≠ 0
  ∧ ed_view (editor Demo.two_tabs_scrolled) = Demo.scrolled
  ∧ ed_view (editor (switchTab 0 Demo.two_tabs_scrolled)) = initialView
  ∧ ed_view (editor (switchTab 1 (step (EvView Demo.elsewhere)
                                       (switchTab 0 Demo.two_tabs_scrolled))))
    = Demo.scrolled.
Proof.
  assert (H1 : WF Demo.two_tabs_scrolled)
    by apply reachable_WF, reachable_two_tabs_scrolled.
  assert (H2 : activeTabId Demo.two_tabs_scrolled = 1) by reflexivity.
  assert (H3 : getTab 1 Demo.two_tabs_scrolled = Some Demo.untitled_tab)
    by reflexivity.
  assert (H4 : getTab 0 Demo.two_tabs_scrolled = Some Demo.file_tab_left)
    by reflexivity.
  assert (H5 : 1 ≠ 0) by discriminate.
  split; [exact H1|]. split; [exact H2|]. split; [exact H3|]. split; [exact H4|].
  split; [exact H5|]. split; [reflexivity|].
  destruct (switch_away_and_back Demo.two_tabs_scrolled 1 0
              Demo.untitled_tab Demo.file_tab_left Demo.elsewhere H1 H2 H3 H4 H5)
    as (_ & _ & _ & Hvb & _ & _ & Hback & _).
  split; [apply Hvb; reflexivity | exact Hback].
Defined.

(** Saving the dirty tab as [/tmp/b.js]: new path, clean, JavaScript.
    The same save cancelled: nothing but the request. *)
Lemma save_outcome_witness :
  getActiveTab Demo.one_dirty_tab = Some Demo.file_tab_dirty
  ∧ getTab 0 (doSave (Some (mkSaveResponse true (Some "/tmp/b.js"))) Demo.one_dirty_tab)
    = Some (mkTab 0 (Some "/tmp/b.js") (mkTextModel 0 "changed" "javascript") None false)
  ∧ tabs (doSave (Some (mkSaveResponse false None)) Demo.one_dirty_tab)
    = [Demo.file_tab_dirty]
  ∧ trace (doSave None Demo.one_dirty_tab)
    = (trace Demo.one_dirty_tab ++ [save_dialog "changed" (Some "/tmp/a.py")])%list.
Proof.
  assert (H1 : getActiveTab Demo.one_dirty_tab = Some Demo.file_tab_dirty)
    by reflexivity.
  split; [exact H1|].
  destruct (save_outcome Demo.one_dirty_tab Demo.file_tab_dirty
              (Some (mkSaveResponse true (Some "/tmp/b.js"))) H1) as [Hok _].
  destruct (Hok "/tmp/b.js") as [Hsaved _].
  { split; [reflexivity | discriminate]. }
  destruct (save_outcome Demo.one_dirty_tab Demo.file_tab_dirty
              (Some (mkSaveResponse false None)) H1) as [_ Hno].
  destruct Hno as (Htabs & _).
  { right. eexists. split; [reflexivity|]. left. reflexivity. }
  destruct (save_outcome Demo.one_dirty_tab Demo.file_tab_dirty None H1) as [_ Hnone].
  destruct Hnone as (_ & _ & Htr & _).
  { left. reflexivity. }
  split; [exact Hsaved|]. split; [rewrite Htabs; reflexivity | exact Htr].
Defined.

(** Apply on the freshly opened dialog, nothing typed: the dialog closes
    and the focus is back on the editor. *)
Lemma apply_empty_is_cancel_witness :
  surg_value (dom (Demo.dialog_with "")) = ""
  ∧ modal_hidden (dom (Demo.dialog_with "")) = false
  ∧ applySurgicalReplace (Demo.dialog_with "")
    = cancelSurgicalReplace (Demo.dialog_with "")
  ∧ modal_hidden (dom (applySurgicalReplace (Demo.dialog_with ""))) = true
  ∧ focus (dom (applySurgicalReplace (Demo.dialog_with ""))) = FocusEditor
  ∧ trace (applySurgicalReplace (Demo.dialog_with ""))
    = trace (Demo.dialog_with "").
Proof.
  assert (H1 : surg_value (dom (Demo.dialog_with "")) = "") by reflexivity.
  split; [exact H1|]. split; [reflexivity|].
  destruct (apply_empty_is_cancel (Demo.dialog_with "") H1)
    as (Heq & Hh & Hf & Htr & _).
  split; [exact Heq|]. split; [exact Hh|]. split; [exact Hf | exact Htr].
Defined.

(** The patch applied on the open dialog: line 2 is replaced whole, the
    tab becomes dirty, the dialog closes. *)
Example apply_patch_run :
  tabs (applySurgicalReplace (Demo.dialog_with Demo.patch_text))
  = [mkTab 0 (Some "/tmp/a.py") (mkTextModel 0 ("first" +:+ nl +:+ "X") "python")
           None true]
  ∧ modal_hidden (dom (applySurgicalReplace (Demo.dialog_with Demo.patch_text))) = true
  ∧ focus (dom (applySurgicalReplace (Demo.dialog_with Demo.patch_text))) = FocusEditor.
Proof. repeat split. Qed.

(** The input [null] parses, and reading [start_line] from it throws: the
    alert carries the runtime's message and the dialog stays open. *)
Example apply_null_run :
  applySurgicalReplace (Demo.dialog_with "null")
  = emit (create_alert "JSON Parse Error"
            ("Could not apply changes. Please ensure the text is valid JSON and matches the required schema."
             +:+ nl +:+ nl
             +:+ "Cannot read properties of null (reading 'start_line')"))
         (Demo.dialog_with "null")
  ∧ modal_hidden (dom (applySurgicalReplace (Demo.dialog_with "null"))) = false.
Proof. split; reflexivity. Qed.

(** Text that is not JSON at all takes the same route. *)
Example apply_garbage_run :
  trace (applySurgicalReplace (Demo.dialog_with "{oops"))
  = (trace (Demo.dialog_with "{oops")
       ++ [alert_of (Demo.dialog_with "{oops") (SyntaxError "Unexpected token")])%list.
Proof. reflexivity. Qed.

(** Closing the last tab, clean: the blank tab takes its place and is
    shown in the editor. *)
Example close_last_tab_run :
  tabs (closeTab false 0 Demo.one_tab).2 = [Demo.untitled_tab]
  ∧ activeTabId (closeTab false 0 Demo.one_tab).2 = 1
  ∧ ed_model (editor (closeTab false 0 Demo.one_tab).2) = Some 1%nat.
Proof. repeat split. Qed.

(** * Further properties *)

Section Further.
Context `{Platform}.

(** ** Names and languages *)

Lemma last_segment_clean is_sep s : has_sep is_sep (last_segment is_sep s) = false.
Proof.
  induction s as [|c rest IH]; [reflexivity|]. simpl.
  destruct (has_sep is_sep rest) eqn:Hrest; [exact IH|].
  destruct (is_sep c) eqn:Hc; [exact Hrest|].
  simpl. by rewrite Hc, Hrest.
Qed.

Lemma last_segment_whole is_sep s :
  has_sep is_sep s = false → last_segment is_sep s = s.
Proof.
  destruct s as [|c rest]; [reflexivity|]. simpl.
  intros [Hc Hrest]%orb_false_iff. by rewrite Hrest, Hc.
Qed.

Lemma last_segment_split is_sep s :
  has_sep is_sep s = true →
  ∃ pre c, is_sep c = true ∧ s = pre +:+ String c (last_segment is_sep s).
Proof.
  induction s as [|c rest IH]; [discriminate|]. simpl.
  destruct (has_sep is_sep rest) eqn:Hrest.
  - intros _. destruct (IH eq_refl) as (pre & c' & Hc' & Heq).
    exists (String c pre), c'. split; [exact Hc'|].
    rewrite Heq at 1. reflexivity.
  - rewrite orb_false_r. intros Hc. rewrite Hc.
    by exists "", c.
Qed.

Lemma has_sep_app is_sep s1 s2 :
  has_sep is_sep (s1 +:+ s2) = has_sep is_sep s1 || has_sep is_sep s2.
Proof.
  induction s1 as [|c rest IH]; [reflexivity|]. simpl.
  by rewrite IH, orb_assoc.
Qed.

Lemma last_segment_trailing is_sep s c :
  is_sep c = true → last_segment is_sep (s +:+ String c "") = "".
Proof.
  intros Hc. induction s as [|a rest IH]; simpl.
  - by rewrite Hc.
  - rewrite has_sep_app. simpl. rewrite Hc, orb_true_r. exact IH.
Qed.

Lemma find_split {A : Type} (f : A → bool) (l : list A) (x : A) :
  List.find f l = Some x →
  ∃ l1 l2, l = (l1 ++ x :: l2)%list ∧ f x = true ∧ ∀ y, y ∈ l1 → f y = false.
Proof.
  induction l as [|a l IH]; [discriminate|]. simpl.
  destruct (f a) eqn:Ha.
  - intros [= ->]. exists [], l. split; [reflexivity|]. split; [exact Ha|].
    intros y Hy. by apply elem_of_nil in Hy.
  - intros Hfind. destruct (IH Hfind) as (l1 & l2 & -> & Hx & Hl1).
    exists (a :: l1), l2. split; [reflexivity|]. split; [exact Hx|].
    intros y [->|Hy]%elem_of_cons; [exact Ha | by apply Hl1].
Qed.

Lemma plain_text_app s1 s2 :
  plain_text (s1 +:+ s2) = plain_text s1 && plain_text s2.
Proof. unfold plain_text. by rewrite has_sep_app, negb_orb. Qed.

(** X1. The name of a tab, as [renderTabs] computes it and writes it
    into the markup of the tab element.  Without a path, or with an empty
    one, it is "Untitled".  Otherwise it is the part of the path after
    the last slash or backslash: it contains neither, it is the whole
    path when the path contains neither, the path is some directory part,
    one separator and the name, and a path that ends in a separator gives
    an empty name.  The name is not escaped on its way into the markup:
    the element shows it as it is when the name is plain text, which is
    the case for "Untitled" and for every path that is itself plain text;
    what any other name shows is up to the browser's reading of it as
    markup. *)
Theorem tab_label (st : State) (tab : Tab) :
  let sep := λ c : ascii, Ascii.eqb c "/"%char || Ascii.eqb c "\"%char in
  let label := el_name (tabEl st tab) in
  (path tab = None ∨ path tab = Some "" →
     label = "Untitled" ∧ shown_name label = Some "Untitled")
  ∧ (∀ p, path tab = Some p → p ≠ "" →
       has_sep sep label = false
       ∧ (has_sep sep p = false → label = p)
       ∧ (has_sep sep p = true →
            ∃ dir c, sep c = true ∧ p = dir +:+ String c label)
       ∧ (∀ dir c, sep c = true → p = dir +:+ String c "" → label = "")
       ∧ (plain_text p = true → shown_name label = Some label))
  ∧ (shown_name label = Some label ↔ plain_text label = true)
  ∧ (shown_name label = None ↔ plain_text label = false).
Proof.
  intros sep label. subst label. unfold tabEl, path_or. simpl. split.
  { by intros [-> | ->]. }
  split.
  { intros p -> Hp. apply truthy_str_true in Hp. rewrite Hp.
    unfold basename. fold sep.
    split; [apply last_segment_clean|].
    split; [apply last_segment_whole|].
    split; [apply last_segment_split|].
    split; [intros dir c Hc ->; by apply last_segment_trailing|].
    intros Hplain. unfold shown_name.
    destruct (has_sep sep p) eqn:Hsep.
    - destruct (last_segment_split sep p Hsep) as (dir & c & _ & Heq).
      rewrite Heq in Hplain.
      change (String c (last_segment sep p))
        with (String c "" +:+ last_segment sep p) in Hplain.
      rewrite !plain_text_app in Hplain.
      apply andb_true_iff in Hplain as [_ [_ ->]%andb_true_iff]. reflexivity.
    - rewrite (last_segment_whole sep p Hsep). by rewrite Hplain. }
  unfold shown_name.
  destruct (plain_text _); split; split; congruence.
Qed.

(** X2. The language of a path.  Without a path, or with an empty one, it
    is plain text.  Otherwise the extension looked up is a dot followed
    by the part of the path after its last dot (the whole path when it
    has none); the result is the identifier of the first registered
    language whose extension list contains it, and plain text when no
    registered language lists it. *)
Theorem language_of_path (p : option string) :
  (p = None ∨ p = Some "" → languageFromPath p = "plaintext")
  ∧ (∀ s, p = Some s → s ≠ "" →
       let ext := "." +:+ after_last_dot s in
       let lists (l : Language) :=
         ∃ exts, extensions l = Some exts ∧ ext ∈ exts in
       ((∀ l, l ∈ getLanguages → ¬ lists l) ∧ languageFromPath p = "plaintext")
       ∨ ∃ before l after,
           getLanguages = (before ++ l :: after)%list
           ∧ lists l
           ∧ (∀ l', l' ∈ before → ¬ lists l')
           ∧ languageFromPath p = lang_id l).
Proof.
  split; [by intros [-> | ->]|].
  intros s -> Hs ext lists. unfold languageFromPath.
  apply truthy_str_true in Hs. rewrite Hs. simpl. fold ext.
  set (f := λ l : Language,
              match extensions l with
              | Some exts => bool_decide (ext ∈ exts)
              | None => false
              end).
  assert (Hf : ∀ l, f l = true ↔ lists l).
  { intros l. unfold f, lists. destruct (extensions l) as [exts|].
    - rewrite bool_decide_eq_true. split; [eauto|]. by intros (? & [= <-] & ?).
    - split; [discriminate|]. by intros (? & ? & _). }
  destruct (List.find f getLanguages) as [l|] eqn:Hfind.
  - right. destruct (find_split f _ _ Hfind) as (before & after & Heq & Hl & Hb).
    exists before, l, after. split; [exact Heq|]. split; [by apply Hf|].
    split; [|reflexivity].
    intros l' Hl' Hlists. apply Hf in Hlists. rewrite (Hb l' Hl') in Hlists. discriminate.
  - left. split; [|reflexivity].
    intros l Hl Hlists. apply Hf in Hlists.
    apply list_elem_of_In in Hl.
    rewrite (List.find_none f _ Hfind l Hl) in Hlists. discriminate.
Qed.

(** ** Computations that keep a property *)

Lemma keeps_bind {A B : Type} P (m : M A) (f : A → M B) :
  keeps P m → (∀ a, keeps P (f a)) → keeps P (m ≫= f).
Proof.
  intros Hm Hf st HP. unfold mbind, M_bind.
  specialize (Hm st HP). destruct (m st) as [[e|a] st']; simpl in *; [done|].
  by apply Hf.
Qed.

Lemma keeps_lift {A : Type} P (r : Exn + A) : keeps P (lift_exn r).
Proof. by intros st HP. Qed.

Lemma keeps_gets {A : Type} P (f : State → A) : keeps P (gets f).
Proof. by intros st HP. Qed.

Lemma keeps_ret {A : Type} P (a : A) : keeps P (mret a : M A).
Proof. by intros st HP. Qed.

Lemma keeps_throw {A : Type} P (e : Exn) : keeps P (throw e : M A).
Proof. by intros st HP. Qed.

Lemma keeps_modify P (f : State → State) :
  (∀ st, P st → P (f st)) → keeps P (modify f).
Proof. intros Hf st HP. by apply Hf. Qed.

Section Closed.
Variable P : State → Prop.
Hypothesis P_emit : ∀ e st, P st → P (emit e st).
Hypothesis P_value : ∀ k v st, P st → P (update_tab k (set_value v) st).
Hypothesis P_change : ∀ k st, P st → P (onDidChangeContent k st).
Hypothesis P_view :
  ∀ v st, P st → P (with_editor (mkEditor (ed_model (editor st)) v) st).
Hypothesis P_cancel : ∀ st, P st → P (cancelSurgicalReplace st).

Lemma keeps_pushEditOperations k m r text :
  keeps P (pushEditOperations k m r text).
Proof.
  unfold pushEditOperations.
  apply keeps_bind; [apply keeps_modify; intros; by apply P_emit|].
  intros _. apply keeps_bind; [apply keeps_lift|].
  intros [v notified].
  apply keeps_bind; [apply keeps_modify; intros; by apply P_value|].
  intros _. destruct notified.
  - apply keeps_modify. intros. by apply P_change.
  - apply keeps_ret.
Qed.

Lemma keeps_reveal r : keeps P (editor_revealRangeInCenter r).
Proof.
  intros st HP. unfold editor_revealRangeInCenter.
  destruct (isIRange r); [|done]. simpl.
  destruct (ed_model (editor st)) eqn:He; [|done].
  rewrite <- He. by apply P_view.
Qed.


Lemma keeps_applySurgicalReplace_try : keeps P applySurgicalReplace_try.
Proof.
  unfold applySurgicalReplace_try.
  apply keeps_bind; [apply keeps_gets|]. intros input.
  repeat (apply keeps_bind; [apply keeps_lift|]; intros ?).
  apply keeps_bind.
  { destruct (_ || _); [apply keeps_throw | apply keeps_ret]. }
  intros _. apply keeps_bind; [apply keeps_gets|]. intros [tab|].
  - apply keeps_bind.
    + apply keeps_bind.
      { destruct (truthy _); [apply keeps_ret | apply keeps_lift]. }
      intros endColumn.
      apply keeps_bind; [apply keeps_pushEditOperations|].
      intros _. apply keeps_reveal.
    + intros _. apply keeps_modify, P_cancel.
  - apply keeps_bind; [apply keeps_ret|].
    intros _. apply keeps_modify, P_cancel.
Qed.

Lemma applySurgicalReplace_keeps st : P st → P (applySurgicalReplace st).
Proof.
  intros HP. unfold applySurgicalReplace.
  destruct (negb _); [by apply P_cancel|].
  unfold try_catch. pose proof (keeps_applySurgicalReplace_try st HP) as Htry.
  destruct (applySurgicalReplace_try st) as [[e|[]] st']; simpl in Htry; [|done].
  rewrite catch_is_alert. by apply P_emit.
Qed.

End Closed.

(** ** [switchTab], unfolded once *)

Lemma switchTab_eq j st :
  switchTab j st
  = if decide (activeTabId st = j) then st else renderTabs (switched j st).
Proof.
  unfold switchTab. case_decide; [reflexivity|].
  rewrite outgoing_saved_eq. unfold switched, incoming_shown.
  change (getActiveTab (with_activeTabId j (outgoing_saved st)))
    with (getTab j (outgoing_saved st)).
  destruct (getTab j (outgoing_saved st) ≫= viewState); reflexivity.
Qed.

Lemma outgoing_saved_frame st :
  nextTabId (outgoing_saved st) = nextTabId st
  ∧ activeTabId (outgoing_saved st) = activeTabId st
  ∧ editor (outgoing_saved st) = editor st
  ∧ modelCount (outgoing_saved st) = modelCount st
  ∧ dom (outgoing_saved st) = dom st
  ∧ host (outgoing_saved st) = host st
  ∧ trace (outgoing_saved st) = trace st.
Proof. apply update_tab_frame. Qed.

(** ** Operations that leave the dialog alone and raise no alert *)

Lemma alerts_app tr1 tr2 : alerts (tr1 ++ tr2) = (alerts tr1 ++ alerts tr2)%list.
Proof. apply List.filter_app. Qed.

Lemma calm_refl st : calm st st.
Proof. by split. Qed.

Lemma calm_trans st1 st2 st3 : calm st1 st2 → calm st2 st3 → calm st1 st3.
Proof. intros [Hd1 Ha1] [Hd2 Ha2]. split; congruence. Qed.

Lemma calm_emit e st : is_alert e = false → calm st (emit e st).
Proof.
  intros He. split; [reflexivity|]. simpl. rewrite alerts_app. simpl.
  rewrite He. apply app_nil_r.
Qed.

Lemma calm_update_tab k f st : calm st (update_tab k f st).
Proof.
  destruct (update_tab_frame f k st) as (_ & _ & _ & _ & Hd & _ & Ht).
  unfold calm, dialog. by rewrite Hd, Ht.
Qed.

Lemma alerts_host_notification st : alerts (host_notification st) = [].
Proof. unfold host_notification. by destruct (has_set_active_tab (host st)). Qed.

Lemma calm_renderTabs st : calm st (renderTabs st).
Proof.
  destruct (renderTabs_dom st) as (Hm & Hv & Hp & _ & _).
  split.
  - unfold dialog. by rewrite Hm, Hv, Hp.
  - rewrite renderTabs_trace, alerts_app. simpl.
    rewrite alerts_host_notification. apply app_nil_r.
Qed.

Lemma calm_switched j st : calm st (switched j st).
Proof.
  destruct (outgoing_saved_frame st) as (_ & _ & _ & _ & Hd & _ & Ht).
  unfold calm, dialog, switched. simpl. by rewrite Hd, Ht.
Qed.

Lemma calm_switchTab j st : calm st (switchTab j st).
Proof.
  rewrite switchTab_eq. case_decide; [apply calm_refl|].
  eapply calm_trans; [apply calm_switched | apply calm_renderTabs].
Qed.

Lemma calm_addTab p text st : calm st (addTab p text st).
Proof.
  destruct (existing_tab p st) as [t|] eqn:Hex.
  - rewrite (addTab_existing _ _ _ _ Hex). apply calm_switchTab.
  - rewrite (addTab_new _ _ _ Hex).
    eapply calm_trans; [|apply calm_switchTab]. by split.
Qed.

Lemma calm_onDidChangeContent k st : calm st (onDidChangeContent k st).
Proof.
  unfold onDidChangeContent. destruct (getTab k st) as [t|]; [|apply calm_refl].
  destruct (isDirty t); simpl; [apply calm_refl|].
  eapply calm_trans; [apply calm_update_tab | apply calm_renderTabs].
Qed.

Lemma calm_save_response k res st : calm st (save_response k res st).
Proof.
  unfold save_response, path_or.
  destruct res as [r|]; [|apply calm_refl].
  destruct (saved r); [|apply calm_refl].
  destruct (res_path r) as [p|]; [|apply calm_refl].
  destruct (truthy_str p); [|apply calm_refl].
  eapply calm_trans; [|apply calm_renderTabs].
  eapply calm_trans; [|apply calm_update_tab].
  eapply calm_trans; [|apply calm_update_tab].
  apply calm_update_tab.
Qed.

Lemma calm_doSave res st : calm st (doSave res st).
Proof.
  unfold doSave. destruct (getActiveTab st); [|apply calm_refl].
  eapply calm_trans; [|apply calm_save_response]. by apply calm_emit.
Qed.

Lemma calm_doSaveAs res st : calm st (doSaveAs res st).
Proof.
  unfold doSaveAs. destruct (getActiveTab st); [|apply calm_refl].
  eapply calm_trans; [|apply calm_save_response]. by apply calm_emit.
Qed.

Lemma calm_doOpen res st : calm st (doOpen res st).
Proof.
  unfold doOpen. destruct (has_open_dialog (host st)); [|apply calm_refl]. simpl.
  assert (Hreq : calm st (emit open_dialog st)) by (by apply calm_emit).
  destruct res as [r|]; [|exact Hreq].
  destruct (open_path r), (open_text r); try exact Hreq.
  eapply calm_trans; [exact Hreq | apply calm_addTab].
Qed.

Lemma calm_closeTab_remove i k st : calm st (closeTab_remove i k st).2.
Proof.
  destruct (tabs st !! i) as [t|] eqn:Hl.
  - rewrite (closeTab_remove_eq _ _ _ _ Hl). simpl.
    assert (Hrem : calm st (removed_at i t st)) by (by split).
    case_decide; [|exact Hrem].
    eapply calm_trans; [exact Hrem | apply calm_switchTab].
  - unfold closeTab_remove. rewrite Hl. apply calm_refl.
Qed.

Lemma calm_closeTab_refill st : calm st (closeTab_refill st).
Proof.
  unfold closeTab_refill. case_bool_decide; [apply calm_addTab | apply calm_renderTabs].
Qed.

Lemma closeTab_eq confirmed tabId st :
  (closeTab confirmed tabId st).2
  = match list_find (λ t, id t = tabId) (tabs st) with
    | None => st
    | Some (tabIdx, t) =>
        if isDirty t then
          if confirmed then
            closeTab_refill (closeTab_remove tabIdx tabId (emit unsaved_changes st)).2
          else emit unsaved_changes st
        else closeTab_refill (closeTab_remove tabIdx tabId st).2
    end.
Proof.
  destruct (list_find _ _) as [[i t]|] eqn:Hf.
  - destruct (isDirty t) eqn:Hd.
    + destruct confirmed.
      * rewrite (closeTab_proceeds true tabId st i t Hf (or_intror eq_refl)).
        simpl. by rewrite Hd.
      * destruct (find_first _ _ _ _ Hf) as (Hidx & Hget & _).
        unfold closeTab. by rewrite Hidx, Hget, Hd.
    + rewrite (closeTab_proceeds confirmed tabId st i t Hf (or_introl Hd)).
      simpl. by rewrite Hd.
  - unfold closeTab, findIndex. by rewrite Hf.
Qed.

Lemma calm_closeTab confirmed tabId st : calm st (closeTab confirmed tabId st).2.
Proof.
  rewrite closeTab_eq.
  assert (Hreq : calm st (emit unsaved_changes st)) by (by apply calm_emit).
  destruct (list_find _ _) as [[i t]|]; [|apply calm_refl].
  destruct (isDirty t); [destruct confirmed; [|exact Hreq]|].
  - eapply calm_trans; [exact Hreq|].
    eapply calm_trans; [apply calm_closeTab_remove | apply calm_closeTab_refill].
  - eapply calm_trans; [apply calm_closeTab_remove | apply calm_closeTab_refill].
Qed.

(** The rest of [closeTab] after the confirmation: nothing happens when
    no tab sits at the index any more. *)
Lemma close_proceed_eq i k st :
  ((closeTab_remove i k ;; modify closeTab_refill) st).2
  = match tabs st !! i with
    | Some _ => closeTab_refill (closeTab_remove i k st).2
    | None => st
    end.
Proof.
  unfold mbind, M_bind, modify. destruct (tabs st !! i) as [t|] eqn:Hl.
  - by rewrite (closeTab_remove_eq _ _ _ _ Hl).
  - unfold closeTab_remove. by rewrite Hl.
Qed.

Lemma closeTab_resume_eq confirmed i k st :
  (closeTab_resume confirmed i k st).2
  = if confirmed then
      match tabs st !! i with
      | Some _ => closeTab_refill (closeTab_remove i k st).2
      | None => st
      end
    else st.
Proof.
  unfold closeTab_resume. destruct confirmed; [apply close_proceed_eq | reflexivity].
Qed.

(** [closeTab] up to its [await], in terms of [closeTab]. *)
Lemma closeTab_begin_eq tabId st :
  (closeTab_begin tabId st).2
  = match list_find (λ t, id t = tabId) (tabs st) with
    | None => st
    | Some (tabIdx, t) =>
        if isDirty t then suspend (AwaitConfirm tabIdx tabId) (emit unsaved_changes st)
        else closeTab_refill (closeTab_remove tabIdx tabId st).2
    end.
Proof.
  destruct (list_find _ _) as [[i t]|] eqn:Hf.
  - destruct (find_first _ _ _ _ Hf) as (Hidx & Hget & _).
    unfold closeTab_begin. rewrite Hidx, Hget.
    destruct (isDirty t); [reflexivity|].
    rewrite close_proceed_eq.
    apply list_find_Some in Hf as (-> & _). reflexivity.
  - unfold closeTab_begin, findIndex. by rewrite Hf.
Qed.

Lemma calm_with_pending ps st : calm st (with_pending ps st).
Proof. by split. Qed.

Lemma calm_closeTab_begin tabId st : calm st (closeTab_begin tabId st).2.
Proof.
  rewrite closeTab_begin_eq.
  destruct (list_find _ _) as [[i t]|]; [|apply calm_refl].
  destruct (isDirty t).
  - eapply calm_trans; [|apply calm_with_pending]. by apply calm_emit.
  - eapply calm_trans; [apply calm_closeTab_remove | apply calm_closeTab_refill].
Qed.

Lemma calm_closeTab_resume confirmed i k st :
  calm st (closeTab_resume confirmed i k st).2.
Proof.
  rewrite closeTab_resume_eq. destruct confirmed; [|apply calm_refl].
  destruct (tabs st !! i); [|apply calm_refl].
  eapply calm_trans; [apply calm_closeTab_remove | apply calm_closeTab_refill].
Qed.

Lemma calm_doOpen_resume res st : calm st (doOpen_resume res st).
Proof.
  unfold doOpen_resume. destruct res as [r|]; [|apply calm_refl].
  destruct (open_path r), (open_text r); try apply calm_refl. apply calm_addTab.
Qed.

Lemma calm_save_resume k res st : calm st (save_resume k res st).
Proof.
  unfold save_resume. destruct (getTab k st); [apply calm_save_response|].
  destruct res as [r|]; [|apply calm_refl]. destruct (saved r); [|apply calm_refl].
  unfold path_or. destruct (res_path r) as [p|]; [|apply calm_refl].
  destruct (truthy_str p); [|apply calm_refl].
  destruct setModelLanguage_disposed; [apply calm_refl | apply calm_renderTabs].
Qed.

Lemma calm_userEdit text st : calm st (userEdit text st).
Proof.
  unfold userEdit. destruct (getActiveTab st); [|apply calm_refl].
  eapply calm_trans; [apply calm_update_tab | apply calm_onDidChangeContent].
Qed.

(** X3. Tab and file operations leave the dialog alone and are silent.
    Every event other than the four of the dialog itself (show, apply,
    cancel, typing into it) leaves the dialog as it is, open or hidden,
    with its input and its template, and raises no alert: opening,
    saving and closing never report a failure. *)
Theorem background_events_calm (ev : Event) (st : State) :
  is_dialog_event ev = false →
  modal_hidden (dom (step ev st)) = modal_hidden (dom st)
  ∧ surg_value (dom (step ev st)) = surg_value (dom st)
  ∧ surg_placeholder (dom (step ev st)) = surg_placeholder (dom st)
  ∧ alerts (trace (step ev st)) = alerts (trace st).
Proof.
  intros Hev.
  assert (Hcalm : calm st (step ev st)).
  { destruct ev; try discriminate; unfold step.
    - apply calm_addTab.
    - case_bool_decide; [apply calm_switchTab | apply calm_refl].
    - apply calm_closeTab_begin.
    - unfold doOpen_begin. destruct (negb _); [apply calm_refl|].
      eapply calm_trans; [|apply calm_with_pending]. by apply calm_emit.
    - unfold doSave_begin. destruct (getActiveTab st); [|apply calm_refl].
      eapply calm_trans; [|apply calm_with_pending]. by apply calm_emit.
    - unfold doSaveAs_begin. destruct (getActiveTab st); [|apply calm_refl].
      eapply calm_trans; [|apply calm_with_pending]. by apply calm_emit.
    - destruct (pending st !! n) as [p|]; [|apply calm_refl].
      destruct p, a; try apply calm_refl;
        (eapply calm_trans; [apply (calm_with_pending (delete n (pending st)))|]).
      + apply calm_closeTab_resume.
      + apply calm_doOpen_resume.
      + apply calm_save_resume.
    - by split.
    - apply calm_userEdit.
    - by split. }
  destruct Hcalm as [Hd Ha]. unfold dialog in Hd.
  injection Hd as Hm Hv Hp. auto.
Qed.

(** ** Outcomes of computations that may throw *)










(** ** Lines the model does not have *)

Lemma getLineMaxColumn_out_of_range m n :
  n < 1 ∨ Z.of_nat (List.length (lines_of (value m))) < n →
  getLineMaxColumn m (num n) = inl (Error "Illegal value for lineNumber").
Proof.
  intros Hn. rewrite getLineMaxColumn_whole.
  replace (Z.ltb n 1 || Z.ltb (Z.of_nat (List.length (lines_of (value m)))) n)
    with true; [reflexivity|].
  symmetry. apply orb_true_iff. rewrite !Z.ltb_lt. exact Hn.
Qed.

(** X5. A line number out of range is caught, not applied.  With valid
    required fields, an active tab, no usable [end_column], and an
    [end_line] that is a number below 1 or beyond the last line of the
    model, the application stops at the lookup of the line's end: the
    error is shown as an alert (under the dialog's one title), no edit
    reaches the model, and the state is otherwise as before, the dialog
    still open. *)
Theorem apply_line_out_of_range (st : State) (data : JsVal) (tab : Tab) (n : Z) :
  surg_value (dom st) ≠ "" →
  JSON_parse (surg_value (dom st)) = inr data →
  has_required data = true →
  getActiveTab st = Some tab →
  truthy (field data "end_column") = false →
  field data "end_line" = num n →
  n < 1 ∨ Z.of_nat (List.length (lines_of (value (model tab)))) < n →
  applySurgicalReplace st
  = emit (alert_of st (Error "Illegal value for lineNumber")) st.
Proof.
  intros Hne Hparse Hreq Hact Hecol Heline Hn.
  assert (Hobj : ∀ k, get_prop data k = inr (field data k)).
  { intros k. destruct data; simpl in *; try discriminate; reflexivity. }
  unfold applySurgicalReplace. apply truthy_str_true in Hne. rewrite Hne. simpl.
  unfold try_catch, applySurgicalReplace_try.
  unfold mbind, M_bind, gets, lift_exn at 1 2 3 4 5 6. simpl.
  rewrite Hparse, !Hobj.
  rewrite has_required_nullish, Hreq. simpl.
  unfold mret at 1, M_ret. rewrite Hact, Hecol, Heline.
  rewrite (getLineMaxColumn_out_of_range _ _ Hn).
  unfold lift_exn. apply catch_is_alert.
Qed.

(** ** Operations that neither add, remove nor re-select tabs *)

Lemma same_shape_refl st : same_shape st st.
Proof. by repeat split. Qed.

Lemma same_shape_trans st1 st2 st3 :
  same_shape st1 st2 → same_shape st2 st3 → same_shape st1 st3.
Proof. intros (?&?&?) (?&?&?). repeat split; congruence. Qed.

Lemma same_shape_update_tab k f st :
  (∀ t, id (f t) = id t) → same_shape st (update_tab k f st).
Proof.
  intros Hf. destruct (update_tab_frame f k st) as (Hn & Ha & _).
  split; [by apply update_tab_ids|]. by split.
Qed.

Lemma same_shape_renderTabs st : same_shape st (renderTabs st).
Proof.
  destruct (renderTabs_frame st) as (Ht & Hn & Ha & _).
  unfold same_shape. by rewrite Ht, Hn, Ha.
Qed.

Lemma same_shape_onDidChangeContent k st : same_shape st (onDidChangeContent k st).
Proof.
  unfold onDidChangeContent. destruct (getTab k st) as [t|]; [|apply same_shape_refl].
  destruct (isDirty t); simpl; [apply same_shape_refl|].
  eapply same_shape_trans; [|apply same_shape_renderTabs].
  by apply same_shape_update_tab.
Qed.

Lemma same_shape_save_response k res st : same_shape st (save_response k res st).
Proof.
  unfold save_response, path_or.
  destruct res as [r|]; [|apply same_shape_refl].
  destruct (saved r); [|apply same_shape_refl].
  destruct (res_path r) as [p|]; [|apply same_shape_refl].
  destruct (truthy_str p); [|apply same_shape_refl].
  eapply same_shape_trans; [|apply same_shape_renderTabs].
  eapply same_shape_trans; [|by apply same_shape_update_tab].
  eapply same_shape_trans; [|by apply same_shape_update_tab].
  by apply same_shape_update_tab.
Qed.

Lemma same_shape_save_resume k res st : same_shape st (save_resume k res st).
Proof.
  unfold save_resume. destruct (getTab k st); [apply same_shape_save_response|].
  destruct res as [r|]; [|apply same_shape_refl].
  destruct (saved r); [|apply same_shape_refl].
  unfold path_or. destruct (res_path r) as [p|]; [|apply same_shape_refl].
  destruct (truthy_str p); [|apply same_shape_refl].
  destruct setModelLanguage_disposed; [apply same_shape_refl | apply same_shape_renderTabs].
Qed.

Lemma same_shape_doSave res st : same_shape st (doSave res st).
Proof.
  unfold doSave. destruct (getActiveTab st); [|apply same_shape_refl].
  eapply same_shape_trans; [|apply same_shape_save_response]. by repeat split.
Qed.

Lemma same_shape_doSaveAs res st : same_shape st (doSaveAs res st).
Proof.
  unfold doSaveAs. destruct (getActiveTab st); [|apply same_shape_refl].
  eapply same_shape_trans; [|apply same_shape_save_response]. by repeat split.
Qed.

Lemma same_shape_userEdit text st : same_shape st (userEdit text st).
Proof.
  unfold userEdit. destruct (getActiveTab st); [|apply same_shape_refl].
  eapply same_shape_trans; [|apply same_shape_onDidChangeContent].
  by apply same_shape_update_tab.
Qed.

Lemma same_shape_applySurgicalReplace st : same_shape st (applySurgicalReplace st).
Proof.
  apply (applySurgicalReplace_keeps (same_shape st)); [..|apply same_shape_refl].
  - intros e s Hs. eapply same_shape_trans; [exact Hs|]. by repeat split.
  - intros k v s Hs. eapply same_shape_trans; [exact Hs|].
    by apply same_shape_update_tab.
  - intros k s Hs. eapply same_shape_trans; [exact Hs|].
    apply same_shape_onDidChangeContent.
  - intros v s Hs. eapply same_shape_trans; [exact Hs|]. by repeat split.
  - intros s Hs. eapply same_shape_trans; [exact Hs|]. by repeat split.
Qed.

Lemma switchTab_shape j st :
  id <$> tabs (switchTab j st) = id <$> tabs st
  ∧ nextTabId (switchTab j st) = nextTabId st.
Proof.
  split; [by apply switchTab_preserves|]. apply switchTab_counters.
Qed.

(** ** Applying the dialog: the three outcomes *)





(** ** Which tab is active *)

Lemma getTab_is_Some k st : is_Some (getTab k st) ↔ k ∈ id <$> tabs st.
Proof.
  split.
  - intros [t Ht]. apply getTab_id in Ht as [<- Hin]. by apply list_elem_of_fmap_2.
  - intros (t & -> & Hin)%list_elem_of_fmap.
    destruct (getTab (id t) st) eqn:Hget; [eauto|].
    rewrite getTab_None in Hget. by destruct (Hget t Hin).
Qed.

Lemma live_iff st : live st ↔ activeTabId st ∈ id <$> tabs st.
Proof. apply getTab_is_Some. Qed.

Lemma live_same_shape st st' : same_shape st st' → live st → live st'.
Proof. intros (Hi & Ha & _). rewrite !live_iff. by rewrite Hi, Ha. Qed.

Lemma live_switchTab j st : j ∈ id <$> tabs st → live (switchTab j st).
Proof.
  intros Hj. apply live_iff. rewrite switchTab_active.
  by destruct (switchTab_shape j st) as [-> _].
Qed.

Lemma live_addTab p text st : live (addTab p text st).
Proof.
  destruct (existing_tab p st) as [t|] eqn:Hex.
  - rewrite (addTab_existing _ _ _ _ Hex). apply live_switchTab.
    apply existing_tab_Some in Hex as (s & _ & _ & Hin & _).
    by apply list_elem_of_fmap_2.
  - rewrite (addTab_new _ _ _ Hex). apply live_switchTab.
    unfold appended. simpl. rewrite fmap_app. apply elem_of_app. right. simpl. left.
Qed.

Lemma live_closeTab_refill st : (tabs st ≠ [] → live st) → live (closeTab_refill st).
Proof.
  intros Hlive. unfold closeTab_refill. case_bool_decide as Hlen.
  - apply live_addTab.
  - apply (live_same_shape st); [apply same_shape_renderTabs|].
    apply Hlive. intros Hnil. by rewrite Hnil in Hlen.
Qed.

Lemma newActiveIdx_lt tabIdx n :
  (tabIdx < S n)%nat → (0 < n)%nat → (newActiveIdx tabIdx < n)%nat.
Proof. unfold newActiveIdx. lia. Qed.

Lemma live_closeTab_remove i k st t :
  tabs st !! i = Some t → id t = k → live st →
  tabs (closeTab_remove i k st).2 ≠ [] → live (closeTab_remove i k st).2.
Proof.
  intros Hl Hid Hlive. rewrite (closeTab_remove_eq _ _ _ _ Hl). cbn [snd].
  pose proof (lookup_lt_Some _ _ _ Hl) as Hlt.
  case_decide as Hact.
  - (* the active tab goes: another one is selected *)
    intros Hne.
    assert (Hlen : List.length (tabs (removed_at i t st)) ≠ 0%nat).
    { rewrite <- (switchTab_length
                    (from_option id (-1) (tabs (removed_at i t st) !! newActiveIdx i))).
      intros Hz. apply Hne. by apply nil_length_inv. }
    assert (Hidx : (newActiveIdx i < List.length (tabs (removed_at i t st)))%nat).
    { simpl in *. rewrite length_delete in * by eauto.
      apply newActiveIdx_lt; lia. }
    destruct (lookup_lt_is_Some_2 _ _ Hidx) as [t' Ht']. rewrite Ht'. simpl.
    apply live_switchTab. apply list_elem_of_fmap_2.
    by eapply list_elem_of_lookup_2.
  - (* a background tab goes: the active one stays *)
    intros _. unfold live, getActiveTab, getTab in *. simpl.
    destruct Hlive as [ta Hta].
    assert (Hother : ¬ id t = activeTabId st) by congruence.
    pose proof (list_find_delete_other (λ x, id x = activeTabId st) _ _ _ Hl Hother)
      as Hfind.
    rewrite Hfind, Hta. eauto.
Qed.

Lemma live_closeTab confirmed tabId st : live st → live (closeTab confirmed tabId st).2.
Proof.
  intros Hlive. rewrite closeTab_eq.
  destruct (list_find _ _) as [[i t]|] eqn:Hf; [|done].
  apply list_find_Some in Hf as (Hl & Hid & _).
  assert (Hgo : ∀ st0, tabs st0 = tabs st → live st0 →
            live (closeTab_refill (closeTab_remove i tabId st0).2)).
  { intros st0 Ht0 Hl0. apply live_closeTab_refill.
    apply (live_closeTab_remove i tabId st0 t); [by rewrite Ht0 | done | done]. }
  destruct (isDirty t); [destruct confirmed|]; [| |by apply Hgo].
  - by apply Hgo.
  - done.
Qed.

(** ** The tab bar follows the tabs *)

Lemma tabEl_active st st' t :
  activeTabId st' = activeTabId st → tabEl st' t = tabEl st t.
Proof. intros Ha. unfold tabEl. by rewrite Ha. Qed.

Lemma in_sync_renderTabs st : in_sync (renderTabs st).
Proof.
  unfold in_sync.
  destruct (renderTabs_frame st) as (Ht & _ & Ha & _).
  destruct (renderTabs_dom st) as (_ & _ & _ & _ & Hc).
  rewrite Hc, Ht. apply list_fmap_ext. intros _ t _. symmetry. by apply tabEl_active.
Qed.



Lemma in_sync_switchTab_other j st : activeTabId st ≠ j → in_sync (switchTab j st).
Proof.
  intros Hne. rewrite switchTab_eq, decide_False by done. apply in_sync_renderTabs.
Qed.






Lemma WF_closeTab_remove i k st : WF st → WF (closeTab_remove i k st).2.
Proof.
  intros Hwf. destruct (tabs st !! i) as [t|] eqn:Hl.
  - rewrite (closeTab_remove_eq _ _ _ _ Hl). cbn [snd].
    pose proof (WF_removed_at i t st Hl Hwf) as Hrem.
    case_decide; [|done]. apply WF_switchTab; [|done].
    destruct (tabs (removed_at i t st) !! newActiveIdx i) as [t'|] eqn:Ht'.
    + apply list_elem_of_lookup_2 in Ht'.
      pose proof (WF_ids_of_tab _ t' Hrem Ht') as Hrange. simpl in *. lia.
    + destruct Hrem. simpl in *. lia.
  - unfold closeTab_remove. by rewrite Hl.
Qed.

Lemma in_sync_closeTab confirmed tabId st :
  WF st → in_sync st → in_sync (closeTab confirmed tabId st).2.
Proof.
  intros Hwf Hs. rewrite closeTab_eq.
  assert (Hgo : ∀ i st0, WF st0 →
            in_sync (closeTab_refill (closeTab_remove i tabId st0).2)).
  { intros i st0 Hwf0. unfold closeTab_refill.
    case_bool_decide; [|apply in_sync_renderTabs].
    destruct (WF_closeTab_remove i tabId st0 Hwf0) as [_ _ Hact _ _ _ _].
    rewrite addTab_new by reflexivity. apply in_sync_switchTab_other.
    unfold appended. simpl. lia. }
  destruct (list_find _ _) as [[i t]|]; [|done].
  destruct (isDirty t); [destruct confirmed|]; [| |by apply Hgo].
  - apply Hgo. by apply WF_emit.
  - done.
Qed.















(** ** What tabs an operation can leave behind *)

Section Stable.
Context {B : Type} (g : Tab → B).
Hypothesis g_view : ∀ v t, g (set_viewState v t) = g t.
Hypothesis g_path : ∀ p t, g (set_path p t) = g t.
Hypothesis g_dirty : ∀ d t, g (set_isDirty d t) = g t.
Hypothesis g_language : ∀ l t, g (set_language l t) = g t.

Lemma grows_same st st' :
  g <$> tabs st' = g <$> tabs st → nextTabId st' = nextTabId st → grows g st st'.
Proof. intros Ht Hn. split; [rewrite Ht; auto | lia]. Qed.

Lemma grows_refl st : grows g st st.
Proof. by apply grows_same. Qed.

Lemma onDidChangeContent_tabs k st :
  g <$> tabs (onDidChangeContent k st) = g <$> tabs st.
Proof.
  unfold onDidChangeContent. destruct (getTab k st) as [t|]; [|done].
  destruct (isDirty t); cbn [negb]; [done|].
  destruct (renderTabs_frame (update_tab k (set_isDirty true) st)) as (-> & _).
  by apply update_tab_preserves.
Qed.

Lemma save_response_tabs k res st :
  g <$> tabs (save_response k res st) = g <$> tabs st.
Proof.
  unfold save_response, path_or.
  destruct res as [r|]; [|done]. destruct (saved r); [|done].
  destruct (res_path r) as [p|]; [|done]. destruct (truthy_str p); [|done].
  match goal with
  | |- context [renderTabs ?s] => destruct (renderTabs_frame s) as (-> & _)
  end.
  rewrite !update_tab_preserves; done.
Qed.

Lemma addTab_tabs p text st :
  (g <$> tabs (addTab p text st) = g <$> tabs st
   ∧ nextTabId (addTab p text st) = nextTabId st)
  ∨ ∃ newTab,
      id newTab = nextTabId st
      ∧ g <$> tabs (addTab p text st) = ((g <$> tabs st) ++ [g newTab])%list
      ∧ nextTabId (addTab p text st) = nextTabId st + 1.
Proof.
  destruct (existing_tab p st) as [t|] eqn:Hex.
  - left. rewrite (addTab_existing _ _ _ _ Hex).
    split; [by apply switchTab_preserves | apply switchTab_counters].
  - right. rewrite (addTab_new _ _ _ Hex).
    eexists. split; [|split].
    2:{ rewrite (switchTab_preserves g) by done. unfold appended. simpl.
        rewrite fmap_app. reflexivity. }
    + reflexivity.
    + by destruct (switchTab_counters (nextTabId st) (appended p text st)) as (-> & _).
Qed.

Lemma grows_addTab p text st : grows g st (addTab p text st).
Proof.
  destruct (addTab_tabs p text st) as [[Ht Hn] | (newTab & Hid & Ht & Hn)].
  - by apply grows_same.
  - split; [|lia]. rewrite Ht. intros x [Hx|Hx]%elem_of_app; [by left|].
    apply list_elem_of_singleton in Hx. right. eauto.
Qed.

Lemma closeTab_remove_tabs i k st :
  (∀ x, x ∈ g <$> tabs (closeTab_remove i k st).2 → x ∈ g <$> tabs st)
  ∧ nextTabId (closeTab_remove i k st).2 = nextTabId st.
Proof.
  destruct (tabs st !! i) as [t|] eqn:Hl.
  - rewrite (closeTab_remove_eq _ _ _ _ Hl). cbn [snd].
    assert (Hrem : ∀ x, x ∈ g <$> tabs (removed_at i t st) → x ∈ g <$> tabs st).
    { simpl. intros x. rewrite list_fmap_delete. apply list_elem_of_delete_inv. }
    case_decide; [|by split].
    split; [by rewrite (switchTab_preserves g) by done|].
    match goal with
    | |- context [switchTab ?j ?s] => by destruct (switchTab_counters j s) as (-> & _)
    end.
  - unfold closeTab_remove. rewrite Hl. by split.
Qed.

Lemma grows_closeTab confirmed tabId st : grows g st (closeTab confirmed tabId st).2.
Proof.
  rewrite closeTab_eq.
  assert (Hgo : ∀ i st0, g <$> tabs st0 = g <$> tabs st → nextTabId st0 = nextTabId st →
            grows g st (closeTab_refill (closeTab_remove i tabId st0).2)).
  { intros i st0 Ht0 Hn0.
    destruct (closeTab_remove_tabs i tabId st0) as [Hsub Hn].
    set (st1 := (closeTab_remove i tabId st0).2) in *.
    unfold closeTab_refill. case_bool_decide.
    - destruct (grows_addTab None "" st1) as [Hin Hnext].
      split; [|lia]. intros x Hx. destruct (Hin x Hx) as [Hold|(t & -> & Hid)].
      + left. rewrite <- Ht0. by apply Hsub.
      + right. exists t. split; [done|]. lia.
    - destruct (renderTabs_frame st1) as (Ht & Hnr & _).
      split; [|lia]. rewrite Ht. intros x Hx. left. rewrite <- Ht0. by apply Hsub. }
  destruct (list_find _ _) as [[i t]|]; [|apply grows_refl].
  destruct (isDirty t); [destruct confirmed|]; [| |by apply Hgo].
  - by apply Hgo.
  - by apply grows_same.
Qed.

(** The rest of [closeTab], whatever index it holds. *)
Lemma grows_close_proceed i k st :
  grows g st (closeTab_refill (closeTab_remove i k st).2).
Proof.
  destruct (closeTab_remove_tabs i k st) as [Hsub Hn].
  set (st1 := (closeTab_remove i k st).2) in *.
  unfold closeTab_refill. case_bool_decide.
  - destruct (grows_addTab None "" st1) as [Hin Hnext].
    split; [|lia]. intros x Hx. destruct (Hin x Hx) as [Hold|(t & -> & Hid)].
    + left. by apply Hsub.
    + right. exists t. split; [done|]. lia.
  - destruct (renderTabs_frame st1) as (Ht & Hnr & _).
    split; [|lia]. rewrite Ht. intros x Hx. left. by apply Hsub.
Qed.

Lemma save_resume_tabs k res st :
  g <$> tabs (save_resume k res st) = g <$> tabs st.
Proof.
  unfold save_resume. destruct (getTab k st); [apply save_response_tabs|].
  destruct res as [r|]; [|done]. destruct (saved r); [|done].
  unfold path_or. destruct (res_path r) as [p|]; [|done].
  destruct (truthy_str p); [|done].
  destruct setModelLanguage_disposed; [done|].
  by destruct (renderTabs_frame st) as (-> & _).
Qed.

(** One event. *)
Lemma grows_step ev st :
  is_edit_event ev = false ∨ (∀ v t, g (set_value v t) = g t) →
  grows g st (step ev st).
Proof.
  intros Hedit. destruct ev; unfold step.
  - apply grows_addTab.
  - case_bool_decide; [|apply grows_refl].
    apply grows_same; [by apply switchTab_preserves | apply switchTab_counters].
  - rewrite closeTab_begin_eq.
    destruct (list_find _ _) as [[i t]|]; [|apply grows_refl].
    destruct (isDirty t); [by apply grows_same | apply grows_close_proceed].
  - unfold doOpen_begin. destruct (negb _); [apply grows_refl | by apply grows_same].
  - unfold doSave_begin. destruct (getActiveTab st); [by apply grows_same | apply grows_refl].
  - unfold doSaveAs_begin. destruct (getActiveTab st); [by apply grows_same | apply grows_refl].
  - destruct (pending st !! n) as [p|]; [|apply grows_refl].
    destruct p, a; try apply grows_refl.
    + rewrite closeTab_resume_eq. destruct confirmed; [|by apply grows_same].
      destruct (_ !! tabIdx); [|by apply grows_same].
      apply (grows_close_proceed tabIdx tabId (with_pending (delete n (pending st)) st)).
    + unfold doOpen_resume. destruct res as [r|]; [|by apply grows_same].
      destruct (open_path r), (open_text r); try (by apply grows_same).
      apply (grows_addTab (Some s) s0 (with_pending (delete n (pending st)) st)).
    + apply grows_same.
      * by rewrite save_resume_tabs.
      * apply (same_shape_save_resume tabId res (with_pending (delete n (pending st)) st)).
  - by apply grows_same.
  - destruct Hedit as [?|g_value]; [discriminate|].
    apply grows_same; [|apply same_shape_applySurgicalReplace].
    apply (applySurgicalReplace_keeps (λ s, g <$> tabs s = g <$> tabs st));
      [..|reflexivity].
    + by intros e s Hs.
    + intros k v s Hs. rewrite <- Hs. by apply update_tab_preserves.
    + intros k s Hs. rewrite <- Hs. apply onDidChangeContent_tabs.
    + by intros v s Hs.
    + by intros s Hs.
  - by apply grows_same.
  - by apply grows_same.
  - by apply grows_same.
  - destruct Hedit as [?|g_value]; [discriminate|].
    apply grows_same; [|apply same_shape_userEdit].
    unfold userEdit. destruct (getActiveTab st); [|done].
    rewrite onDidChangeContent_tabs. by apply update_tab_preserves.
  - by apply grows_same.
Qed.

(** Any number of events, for a view [g] that tells tabs with different
    identifiers apart. *)
Lemma grows_run evs st :
  (∀ t t', g t = g t' → id t = id t') →
  Forall (λ ev, is_edit_event ev = false) evs ∨ (∀ v t, g (set_value v t) = g t) →
  (∀ t', t' ∈ tabs (run evs st) →
     (∃ t, t ∈ tabs st ∧ g t' = g t) ∨ (nextTabId st ≤ id t')%Z)
  ∧ (nextTabId st ≤ nextTabId (run evs st))%Z.
Proof.
  intros Hinj. revert st. induction evs as [|ev evs IH]; intros st Hedit.
  { split; [|simpl; lia]. intros t' Ht'. left. eauto. }
  assert (Hev : is_edit_event ev = false ∨ (∀ v t, g (set_value v t) = g t)).
  { destruct Hedit as [Hall|?]; [left; by inversion Hall | by right]. }
  assert (Hevs : Forall (λ ev, is_edit_event ev = false) evs
                 ∨ (∀ v t, g (set_value v t) = g t)).
  { destruct Hedit as [Hall|?]; [left; by inversion Hall | by right]. }
  destruct (grows_step ev st Hev) as [Hstep Hnext].
  destruct (IH (step ev st) Hevs) as [Hrun Hnextrun].
  split; [|simpl; lia].
  intros t' Ht'. destruct (Hrun t' Ht') as [(t1 & Ht1 & Hg)|Hnew]; [|right; lia].
  destruct (Hstep (g t1) (list_elem_of_fmap_2 g _ _ Ht1)) as [Hold|(t & Hgt & Hid)].
  - left. apply list_elem_of_fmap in Hold as (t & Hgt & Ht). exists t.
    split; [done | congruence].
  - right. rewrite (Hinj t' t1 Hg), (Hinj t1 t Hgt). lia.
Qed.

End Stable.

(** X9. Tab identifiers are never reused.  Over any sequence of events
    the counter never goes back, and an identifier below the counter
    that no tab carries (one handed out earlier to a tab closed since)
    is carried by no tab ever after. *)
Theorem identifiers_never_reused (st : State) (evs : list Event) :
  (nextTabId st ≤ nextTabId (run evs st))%Z
  ∧ ∀ i, (i < nextTabId st)%Z → i ∉ id <$> tabs st →
         i ∉ id <$> tabs (run evs st).
Proof.
  destruct (grows_run id (λ _ _, eq_refl) (λ _ _, eq_refl) (λ _ _, eq_refl)
              (λ _ _, eq_refl) evs st (λ _ _ Heq, Heq) (or_intror (λ _ _, eq_refl)))
    as [Hrun Hnext].
  split; [exact Hnext|].
  intros i Hlt Hout (t' & -> & Ht')%list_elem_of_fmap.
  destruct (Hrun t' Ht') as [(t & Ht & Hid)|Hnew]; [|lia].
  apply Hout. rewrite Hid. by apply list_elem_of_fmap_2.
Qed.

(** X10. Only edits change a document.  Over any sequence of events
    that contains neither a user edit nor an application of the dialog
    (adding, switching, closing, opening, saving, scrolling, ...), every
    tab of the final state that was not created on the way is a tab of
    the initial state with the same identifier, the same model object
    and the same text. *)
Theorem text_changes_only_by_edits (st : State) (evs : list Event) :
  Forall (λ ev, is_edit_event ev = false) evs →
  ∀ t', t' ∈ tabs (run evs st) →
    (∃ t, t ∈ tabs st ∧ id t' = id t ∧ uri (model t') = uri (model t)
          ∧ value (model t') = value (model t))
    ∨ (nextTabId st ≤ id t')%Z.
Proof.
  intros Hevs t' Ht'.
  destruct (grows_run doc (λ _ _, eq_refl) (λ _ _, eq_refl) (λ _ _, eq_refl)
              (λ _ _, eq_refl) evs st) as [Hrun _].
  { intros t1 t2 Hdoc. unfold doc in Hdoc. congruence. }
  { by left. }
  destruct (Hrun t' Ht') as [(t & Ht & Hdoc)|Hnew]; [left|by right].
  exists t. unfold doc in Hdoc. injection Hdoc as Hid Huri Hval. auto.
Qed.

(** ** Opening files *)

Lemma existing_tab_none s st :
  (∀ t, t ∈ tabs st → path t ≠ Some s) → existing_tab (Some s) st = None.
Proof.
  intros Hnone. destruct (existing_tab (Some s) st) as [t|] eqn:Hex; [|reflexivity].
  apply existing_tab_Some in Hex as (s' & [= <-] & _ & Hin & Hp).
  by destruct (Hnone t Hin).
Qed.

(** X11. [doOpen], with the host's answer at hand.  Without
    [open_dialog] in the host API nothing happens.  With it, a cancelled
    dialog (no response, or one without a path or without text) leaves
    the state as it was but for the request.  A response naming, by a
    path that is not empty, a file that is already open activates the
    first tab with that path and changes no tab's path, model or dirty
    flag: the text that came with the response is dropped, the text in
    memory stays.  A response whose path is empty, or is carried by no
    tab, appends a clean tab with that path, the text of the response as
    a new model holds it (line ends normalised) and the language of the
    path, and activates it; so an empty path opens a new tab every
    time. *)
Theorem doOpen_outcomes (res : option OpenResponse) (st : State) :
  (has_open_dialog (host st) = false → doOpen res st = st)
  ∧ (has_open_dialog (host st) = true →
     (res = None
      ∨ (∃ r, res = Some r ∧ (open_path r = None ∨ open_text r = None)) →
      doOpen res st = emit open_dialog st)
     ∧ (∀ p text t,
          res = Some (mkOpenResponse (Some p) (Some text)) →
          p ≠ "" → t ∈ tabs st → path t = Some p →
          content <$> tabs (doOpen res st) = content <$> tabs st
          ∧ nextTabId (doOpen res st) = nextTabId st
          ∧ ∃ t', existing_tab (Some p) st = Some t'
                  ∧ activeTabId (doOpen res st) = id t')
     ∧ (∀ p text,
          res = Some (mkOpenResponse (Some p) (Some text)) →
          p = "" ∨ (∀ t, t ∈ tabs st → path t ≠ Some p) →
          content <$> tabs (doOpen res st)
          = ((content <$> tabs st)
               ++ [(nextTabId st, Some p,
                    mkTextModel (modelCount st) (createModel_value text)
                                (languageFromPath (Some p)),
                    false)])%list
          ∧ activeTabId (doOpen res st) = nextTabId st)).
Proof.
  split; [intros Hno; unfold doOpen; by rewrite Hno|].
  intros Hyes. unfold doOpen. rewrite Hyes. simpl. split; [|split].
  - intros [->|(r & -> & [Hp|Ht])]; [reflexivity| |].
    + by rewrite Hp.
    + rewrite Ht. by destruct (open_path r).
  - intros p text t -> Hp Hin Hpath. simpl.
    destruct (existing_tab_found p st t Hp Hin Hpath) as [t' Hex].
    assert (Hex' : existing_tab (Some p) (emit open_dialog st) = Some t') by exact Hex.
    rewrite (addTab_existing _ _ _ _ Hex').
    split; [by rewrite (switchTab_preserves content) by apply content_set_viewState|].
    split; [by destruct (switchTab_counters (id t') (emit open_dialog st)) as (-> & _)|].
    exists t'. split; [exact Hex | apply switchTab_active].
  - intros p text -> Hnone. simpl.
    assert (Hex : existing_tab (Some p) (emit open_dialog st) = None).
    { destruct Hnone as [->|Hnone]; [reflexivity | by apply existing_tab_none]. }
    rewrite (addTab_new _ _ _ Hex).
    split; [|apply switchTab_active].
    rewrite (switchTab_preserves content) by apply content_set_viewState.
    by rewrite appended_content.
Qed.

(** ** Saving spares the other tabs *)



(** ** Closing a background tab *)

Lemma close_proceed_background i t active st :
  WF st →
  tabs st !! i = Some t →
  getActiveTab st = Some active →
  id t ≠ activeTabId st →
  leaves_out i st (closeTab_refill (closeTab_remove i (id t) st).2).
Proof.
  intros Hwf Hl Hact Hother. pose proof Hwf as [Hids _ _ _ Huris _ Hshown].
  rewrite (closeTab_remove_eq i (id t) st t) by done.
  cbn [snd]. rewrite decide_False by congruence.
  (* the editor does not show the closed tab's model *)
  assert (Huri : uri (model active) ≠ uri (model t)).
  { intros Heq. destruct (getTab_Some _ _ _ Hact) as [j Hj].
    apply list_find_Some in Hj as (Hlj & Hidj & _).
    assert (j = i); [|congruence].
    apply (NoDup_lookup (uri ∘ model <$> tabs st) j i (uri (model t)));
      [done| |]; rewrite list_lookup_fmap; [rewrite Hlj|rewrite Hl]; simpl; congruence. }
  assert (Hed : editor (removed_at i t st) = editor st).
  { simpl. unfold dispose. rewrite decide_False; [done|].
    rewrite Hshown, Hact. simpl. congruence. }
  assert (Hget : getActiveTab (removed_at i t st) = Some active).
  { unfold getActiveTab, getTab. simpl.
    rewrite (list_find_delete_other _ _ _ _ Hl) by done. exact Hact. }
  assert (Hrender : closeTab_refill (removed_at i t st)
                    = renderTabs (removed_at i t st)).
  { unfold closeTab_refill. rewrite bool_decide_eq_false_2; [done|].
    apply getTab_id in Hget as [_ Hin]. intros Hlen.
    apply nil_length_inv in Hlen. rewrite Hlen in Hin. by apply elem_of_nil in Hin. }
  rewrite Hrender.
  destruct (renderTabs_frame (removed_at i t st)) as (Ht & _ & Ha & He & _).
  split; [by rewrite Ht|].
  split; [by rewrite Ha|].
  split; [|by rewrite He].
  rewrite Hact. unfold getActiveTab. rewrite Ha, getTab_renderTabs. exact Hget.
Qed.

(** X13. Closing a tab that is not the active one takes just that tab
    out of the collection: the other tabs are exactly as they were, the
    active tab stays active, and the editor keeps showing its model with
    its current view.  A clean tab goes at once.  For a dirty tab the
    click only asks the host for confirmation and remembers where the
    tab sits; the tab goes when the host confirms while the tab still
    sits there, and when the host declines nothing changes. *)
Theorem close_background_tab (st : State) (tabIdx : nat) (t active : Tab) :
  WF st →
  tabs st !! tabIdx = Some t →
  getActiveTab st = Some active →
  id t ≠ activeTabId st →
  (isDirty t = false → leaves_out tabIdx st (step (EvCloseTab (id t)) st))
  ∧ (isDirty t = true →
       step (EvCloseTab (id t)) st
       = suspend (AwaitConfirm tabIdx (id t)) (emit unsaved_changes st))
  ∧ (∀ n, pending st !! n = Some (AwaitConfirm tabIdx (id t)) →
       leaves_out tabIdx st (step (EvAnswer n (Confirmed true)) st)
       ∧ step (EvAnswer n (Confirmed false)) st
         = with_pending (delete n (pending st)) st).
Proof.
  intros Hwf Hl Hact Hother. pose proof Hwf as [Hids _ _ _ _ _ _].
  assert (Hfind : list_find (λ x, id x = id t) (tabs st) = Some (tabIdx, t))
    by (by apply find_unique).
  split; [|split].
  - intros Hclean. unfold step. rewrite closeTab_begin_eq, Hfind, Hclean.
    by apply (close_proceed_background tabIdx t active).
  - intros Hdirty. unfold step. by rewrite closeTab_begin_eq, Hfind, Hdirty.
  - intros n Hn. unfold step. rewrite Hn. cbv zeta. split; [|reflexivity].
    rewrite closeTab_resume_eq.
    change (tabs (with_pending (delete n (pending st)) st)) with (tabs st).
    rewrite Hl.
    exact (close_proceed_background tabIdx t active
             (with_pending (delete n (pending st)) st)
             (WF_with_pending _ _ Hwf) Hl Hact Hother).
Qed.

(** ** A confirmation that comes late *)

(** X19. A confirmation that comes late closes the wrong tab.  [closeTab]
    computes the index of the tab before it asks, and removes whatever
    sits at that index when the answer comes.  When in the meantime the
    active tab has moved to that index (a tab before the dirty one was
    closed), confirming removes the active tab instead: the tab the user
    asked to close is still there, the active identifier names a tab
    that is gone, no tab is active and the editor shows no model. *)
Theorem stale_close_loses_active_tab (st : State) (n tabIdx : nat) (tabId : Z)
    (t : Tab) :
  WF st →
  pending st !! n = Some (AwaitConfirm tabIdx tabId) →
  tabs st !! tabIdx = Some t →
  id t = activeTabId st →
  tabId ≠ activeTabId st →
  (1 < List.length (tabs st))%nat →
  tabs (step (EvAnswer n (Confirmed true)) st) = delete tabIdx (tabs st)
  ∧ activeTabId (step (EvAnswer n (Confirmed true)) st) = activeTabId st
  ∧ getActiveTab (step (EvAnswer n (Confirmed true)) st) = None
  ∧ ed_model (editor (step (EvAnswer n (Confirmed true)) st)) = None
  ∧ getTab tabId (step (EvAnswer n (Confirmed true)) st) = getTab tabId st.
Proof.
  intros Hwf Hn Hl Hid Hother Hlen. pose proof Hwf as [Hids _ _ _ _ _ Hshown].
  assert (Hact : getActiveTab st = Some t).
  { unfold getActiveTab, getTab. rewrite <- Hid.
    by rewrite (find_unique _ _ _ Hids Hl). }
  unfold step. rewrite Hn. cbv zeta. rewrite closeTab_resume_eq.
  set (st1 := with_pending (delete n (pending st)) st).
  change (tabs st1) with (tabs st). rewrite Hl.
  rewrite (closeTab_remove_eq tabIdx tabId st1 t) by done.
  cbn [snd]. rewrite decide_False by (simpl; congruence).
  assert (Hrender : closeTab_refill (removed_at tabIdx t st1)
                    = renderTabs (removed_at tabIdx t st1)).
  { unfold closeTab_refill. rewrite bool_decide_eq_false_2; [done|].
    simpl. rewrite length_delete by eauto. lia. }
  rewrite Hrender.
  destruct (renderTabs_frame (removed_at tabIdx t st1)) as (Ht & _ & Ha & He & _).
  split; [by rewrite Ht|]. split; [by rewrite Ha|].
  split.
  { unfold getActiveTab. rewrite Ha, getTab_renderTabs.
    apply getTab_None. intros x Hx. simpl in Hx. simpl. rewrite <- Hid.
    by apply (delete_misses (tabs st) tabIdx t x). }
  split.
  { rewrite He. simpl. unfold dispose. rewrite decide_True; [done|].
    rewrite Hshown, Hact. reflexivity. }
  rewrite getTab_renderTabs. unfold getTab. simpl.
  apply (list_find_delete_other _ _ _ _ Hl). congruence.
Qed.

(** ** Opening the dialog *)

Lemma showSurgicalReplace_eq st :
  showSurgicalReplace st
  = with_dom (mkDom false ""
                (JSON_stringify (JObj (sampleSchema (getSelection (editor st)))))
                (tabs_container (dom st)) (status_filepath (dom st)) FocusSurgText) st.
Proof.
  unfold showSurgicalReplace, sampleSchema.
  destruct (getSelection (editor st)) as [s|]; [|reflexivity].
  by destruct (isEmpty s).
Qed.

(** X14. [showSurgicalReplace].  The dialog opens with an empty input,
    whatever was typed before, the focus in the textarea, and as
    placeholder the rendering of a template; tabs, editor and trace are
    not touched.  The template always has the six keys of the schema in
    the schema's order and passes the required-field check.  With a
    non-empty selection it carries the selection's four coordinates;
    otherwise its lines are 1 and its two column entries are still the
    schema's descriptions, which are non-empty strings.  Applying the
    dialog right after opening it just closes it again. *)
Theorem show_opens_fresh (st : State) :
  modal_hidden (dom (showSurgicalReplace st)) = false
  ∧ surg_value (dom (showSurgicalReplace st)) = ""
  ∧ focus (dom (showSurgicalReplace st)) = FocusSurgText
  ∧ surg_placeholder (dom (showSurgicalReplace st))
    = JSON_stringify (JObj (sampleSchema (getSelection (editor st))))
  ∧ tabs (showSurgicalReplace st) = tabs st
  ∧ editor (showSurgicalReplace st) = editor st
  ∧ trace (showSurgicalReplace st) = trace st
  ∧ applySurgicalReplace (showSurgicalReplace st)
    = cancelSurgicalReplace (showSurgicalReplace st)
  ∧ (∀ sel,
       fst <$> sampleSchema sel = fst <$> SURGICAL_SCHEMA
       ∧ has_required (JObj (sampleSchema sel)) = true)
  ∧ (∀ s, isEmpty s = false →
       field (JObj (sampleSchema (Some s))) "start_line" = num (selStartLine s)
       ∧ field (JObj (sampleSchema (Some s))) "end_line" = num (selEndLine s)
       ∧ field (JObj (sampleSchema (Some s))) "start_column" = num (selStartColumn s)
       ∧ field (JObj (sampleSchema (Some s))) "end_column" = num (selEndColumn s))
  ∧ (∀ sel, sel = None ∨ (∃ s, sel = Some s ∧ isEmpty s = true) →
       field (JObj (sampleSchema sel)) "start_line" = num 1
       ∧ field (JObj (sampleSchema sel)) "end_line" = num 1
       ∧ field (JObj (sampleSchema sel)) "start_column" = JStr "number (optional)"
       ∧ field (JObj (sampleSchema sel)) "end_column" = JStr "number (optional)"
       ∧ truthy (field (JObj (sampleSchema sel)) "start_column") = true
       ∧ truthy (field (JObj (sampleSchema sel)) "end_column") = true).
Proof.
  rewrite showSurgicalReplace_eq.
  repeat (split; [reflexivity|]).
  split; [|split].
  - intros sel. unfold sampleSchema. destruct sel as [s|]; [|by split].
    destruct (isEmpty s); by split.
  - intros s Hs. unfold sampleSchema. rewrite Hs. by repeat split.
  - intros sel [->|(s & -> & Hs)]; unfold sampleSchema; rewrite ?Hs; by repeat split.
Qed.

(** ** Boot *)


Lemma boot_first_tab BOOT h :
  tabs (addTab (boot_path BOOT) (boot_text BOOT) (initState h)) = [first_tab BOOT]
  ∧ getActiveTab (addTab (boot_path BOOT) (boot_text BOOT) (initState h))
    = Some (first_tab BOOT)
  ∧ activeTabId (addTab (boot_path BOOT) (boot_text BOOT) (initState h)) = 0
  ∧ nextTabId (addTab (boot_path BOOT) (boot_text BOOT) (initState h)) = 1
  ∧ editor (addTab (boot_path BOOT) (boot_text BOOT) (initState h))
    = mkEditor (Some 0%nat) initialView
  ∧ alerts (trace (addTab (boot_path BOOT) (boot_text BOOT) (initState h))) = [].
Proof.
  assert (Hex : existing_tab (boot_path BOOT) (initState h) = None).
  { unfold existing_tab, path_or. destruct (boot_path BOOT) as [s|]; [|reflexivity].
    by destruct (truthy_str s). }
  rewrite (addTab_new _ _ _ Hex), switchTab_eq.
  rewrite decide_False by (simpl; lia).
  destruct (renderTabs_frame (switched (nextTabId (initState h))
              (appended (boot_path BOOT) (boot_text BOOT) (initState h))))
    as (Ht & Hn & Ha & He & _).
  unfold getActiveTab. rewrite getTab_renderTabs, Ht, Hn, Ha, He.
  destruct (calm_renderTabs (switched (nextTabId (initState h))
              (appended (boot_path BOOT) (boot_text BOOT) (initState h))))
    as [_ ->].
  repeat split.
Qed.

Lemma bind_modify {B : Type} (f : State → State) (k : unit → M B) st :
  (modify f ≫= k) st = k tt (f st).
Proof. reflexivity. Qed.

(** A range is accepted by the editor exactly when the four arguments of
    its constructor are numbers, in whichever order they end up. *)
Lemma isIRange_newRange a b c d :
  isIRange (newRange a b c d)
  = is_number a && is_number b && is_number c && is_number d.
Proof.
  unfold newRange. destruct (_ || _); unfold isIRange; simpl;
    by destruct (is_number a), (is_number b), (is_number c), (is_number d).
Qed.



(** The end of the boot-time replacement: the selection is reset, which
    the editor accepts, and the replaced range is revealed, which it
    refuses unless the range is numeric; neither touches the tabs or the
    record of effects. *)
Lemma boot_tail {B : Type} (r : Range) (b : B) (st : State) :
  ∃ st',
    (editor_setSelection (newRange (num 0) (num 0) (num 0) (num 0)) ;;
     editor_revealRangeInCenter r ;;
     mret b) st
    = (if isIRange r then inr b else inl (Error "Invalid arguments"), st')
    ∧ tabs st' = tabs st ∧ activeTabId st' = activeTabId st
    ∧ trace st' = trace st.
Proof.
  unfold mbind, M_bind, editor_setSelection, editor_revealRangeInCenter.
  change (isIRange (newRange (num 0) (num 0) (num 0) (num 0))) with true.
  cbv iota.
  destruct (isIRange r), (ed_model (editor st)) eqn:He; simpl; rewrite ?He;
    (eexists; split; [reflexivity|]); by repeat split.
Qed.


(** X16. When the payload asks for no replacement (no replacement text,
    or a start or end line that is missing or 0), boot edits nothing and
    schedules no save: the only tab holds the payload's text as the
    model normalised it and is clean, and nothing is added to the record
    of effects after the tab was opened.  When the payload names no
    lines, or names them by numbers, boot returns normally; when it
    names lines of which one is not a number, the editor refuses to
    reveal them and the exception [Invalid arguments] escapes. *)
Theorem boot_without_replacement (BOOT : Boot) (h : HostApi) :
  boot_replaces BOOT = false →
  ∃ st',
    bootMonaco_open BOOT (initState h)
    = (if negb (truthy (boot_sline BOOT) && truthy (boot_eline BOOT))
          || is_number (boot_sline BOOT) && is_number (boot_eline BOOT)
       then inr false else inl (Error "Invalid arguments"), st')
    ∧ tabs st' = [first_tab BOOT]
    ∧ activeTabId st' = 0
    ∧ trace st' = trace (addTab (boot_path BOOT) (boot_text BOOT) (initState h)).
Proof.
  intros Hno.
  destruct (boot_first_tab BOOT h) as (Ht & Hg & Ha & _).
  unfold bootMonaco_open. rewrite bind_modify.
  revert Ht Hg Ha. generalize (addTab (boot_path BOOT) (boot_text BOOT) (initState h)).
  intros st1 Ht Hg Ha.
  unfold mbind at 1, M_bind at 1, gets. rewrite Hg.
  change (negb (nullish (boot_replaceText BOOT))
          && truthy (boot_sline BOOT) && truthy (boot_eline BOOT))
    with (boot_replaces BOOT).
  rewrite Hno.
  destruct (truthy (boot_sline BOOT) && truthy (boot_eline BOOT)); simpl.
  - set (r := newRange (boot_sline BOOT) (num 1) (boot_eline BOOT) (num 1)).
    assert (Hr : isIRange r
                 = is_number (boot_sline BOOT) && is_number (boot_eline BOOT)).
    { unfold r. rewrite isIRange_newRange. simpl. by rewrite !andb_true_r. }
    unfold mbind, M_bind, editor_revealRangeInCenter, editor_setSelection.
    rewrite Hr.
    destruct (is_number (boot_sline BOOT) && is_number (boot_eline BOOT)).
    + destruct (ed_model (editor st1)) eqn:He; simpl; rewrite ?He;
        (eexists; split; [reflexivity|]); rewrite <- Ht, <- Ha; by repeat split.
    + eexists. split; [reflexivity|]. by rewrite <- Ht, <- Ha.
  - eexists. split; [reflexivity|]. by rewrite <- Ht, <- Ha.
Qed.

(** X17. When the payload asks for a replacement, boot tries exactly one
    edit, on the first tab, over the range the widget builds from the
    payload, with the start column defaulting to 1 and the end column to
    the end of the end line.  If that end column cannot be computed the
    exception escapes before any edit; if the widget refuses the edit
    the exception escapes with the tab still holding the payload's text,
    clean.  If the edit goes through the tab holds the new text and is
    dirty exactly when the widget announced a change; then the editor is
    asked to reveal the range, and when a coordinate of the range is not
    a number the exception [Invalid arguments] escapes with the edit
    made.  A save is scheduled only when nothing escaped, and then
    exactly when the payload says so. *)
Theorem boot_replacement (BOOT : Boot) (h : HostApi) :
  boot_replaces BOOT = true →
  match boot_endColumn BOOT with
  | inl e =>
      bootMonaco_open BOOT (initState h)
      = (inl e, addTab (boot_path BOOT) (boot_text BOOT) (initState h))
  | inr endColumn =>
      match applyEdits (createModel_value (boot_text BOOT))
                       (boot_range BOOT endColumn) (boot_replaceText BOOT) with
      | inl e =>
          bootMonaco_open BOOT (initState h)
          = (inl e,
             emit (push_edit 0 (boot_range BOOT endColumn) (boot_replaceText BOOT))
                  (addTab (boot_path BOOT) (boot_text BOOT) (initState h)))
      | inr (v, notified) =>
          ∃ st',
            bootMonaco_open BOOT (initState h)
            = (if isIRange (boot_range BOOT endColumn)
               then inr (truthy (boot_autosave BOOT))
               else inl (Error "Invalid arguments"), st')
            ∧ tabs st' = [mkTab 0 (boot_path BOOT)
                            (mkTextModel 0 v (languageFromPath (boot_path BOOT)))
                            None notified]
            ∧ activeTabId st' = 0
            ∧ alerts (trace st') = []
            ∧ push_edit 0 (boot_range BOOT endColumn) (boot_replaceText BOOT)
              ∈ trace st'
      end
  end.
Proof.
  intros Hyes.
  destruct (boot_first_tab BOOT h) as (Ht & Hg & Ha & _ & _ & Hal).
  set (st1 := addTab (boot_path BOOT) (boot_text BOOT) (initState h)) in *.
  assert (Hopen : ∀ r,
    (endColumn ← (if truthy (boot_ecol BOOT) then mret (boot_ecol BOOT)
                  else lift_exn (getLineMaxColumn (model (first_tab BOOT))
                                                  (boot_eline BOOT))) ;
     pushEditOperations (id (first_tab BOOT)) (model (first_tab BOOT))
       (boot_range BOOT endColumn) (boot_replaceText BOOT) ;;
     editor_setSelection (newRange (num 0) (num 0) (num 0) (num 0)) ;;
     editor_revealRangeInCenter (boot_range BOOT endColumn) ;;
     mret (truthy (boot_autosave BOOT))) st1 = r →
    bootMonaco_open BOOT (initState h) = r).
  { intros r <-. unfold bootMonaco_open. rewrite bind_modify.
    change (addTab (boot_path BOOT) (boot_text BOOT) (initState h)) with st1.
    unfold mbind at 1, M_bind at 1, gets. rewrite Hg.
    change (negb (nullish (boot_replaceText BOOT))
            && truthy (boot_sline BOOT) && truthy (boot_eline BOOT))
      with (boot_replaces BOOT).
    rewrite Hyes. reflexivity. }
  clearbody st1.
  assert (Hcol : ∀ endColumn,
    boot_endColumn BOOT = inr endColumn →
    ∀ r,
      (pushEditOperations (id (first_tab BOOT)) (model (first_tab BOOT))
         (boot_range BOOT endColumn) (boot_replaceText BOOT) ;;
       editor_setSelection (newRange (num 0) (num 0) (num 0) (num 0)) ;;
       editor_revealRangeInCenter (boot_range BOOT endColumn) ;;
       mret (truthy (boot_autosave BOOT))) st1 = r →
      bootMonaco_open BOOT (initState h) = r).
  { intros endColumn Hend r <-. apply Hopen.
    unfold boot_endColumn in Hend. unfold mbind at 1, M_bind at 1.
    destruct (truthy (boot_ecol BOOT)).
    - injection Hend as ->. reflexivity.
    - unfold lift_exn. rewrite Hend. reflexivity. }
  destruct (boot_endColumn BOOT) as [e|endColumn] eqn:Hend.
  { apply Hopen. unfold boot_endColumn in Hend. unfold mbind at 1, M_bind at 1.
    destruct (truthy (boot_ecol BOOT)); [discriminate|].
    unfold lift_exn. by rewrite Hend. }
  specialize (Hcol endColumn eq_refl).
  destruct (applyEdits (createModel_value (boot_text BOOT))
                       (boot_range BOOT endColumn)
                       (boot_replaceText BOOT)) as [e|[v notified]] eqn:Hedit.
  { apply Hcol. unfold pushEditOperations, mbind, M_bind, modify, lift_exn.
    change (value (model (first_tab BOOT))) with (createModel_value (boot_text BOOT)).
    by rewrite Hedit. }
  assert (Hpush : ∀ s, @elem_of Effect (list Effect) _
            (push_edit 0 (boot_range BOOT endColumn) (boot_replaceText BOOT))
            (trace (emit (push_edit 0 (boot_range BOOT endColumn)
                                    (boot_replaceText BOOT)) s))).
  { intros s. simpl. apply list.elem_of_app. right. by left. }
  set (st2 := emit (push_edit 0 (boot_range BOOT endColumn) (boot_replaceText BOOT))
                   st1).
  set (st3 := update_tab 0 (set_value v) st2).
  assert (Ht3 : tabs st3 = [set_value v (first_tab BOOT)]).
  { unfold st3, update_tab. change (tabs st2) with (tabs st1). rewrite Ht.
    reflexivity. }
  assert (Hc3 : calm st1 st3).
  { eapply calm_trans; [|apply calm_update_tab]. by apply calm_emit. }
  assert (Ha3 : activeTabId st3 = 0).
  { unfold st3.
    by destruct (update_tab_frame (set_value v) 0 st2) as (_ & -> & _). }
  assert (Htr3 : trace st3 = trace st2).
  { unfold st3.
    by destruct (update_tab_frame (set_value v) 0 st2)
      as (_ & _ & _ & _ & _ & _ & ->). }
  destruct notified.
  - destruct (boot_tail (boot_range BOOT endColumn) (truthy (boot_autosave BOOT))
                (onDidChangeContent 0 st3)) as (st' & Heq & Ht' & Ha' & Htr').
    exists st'. split.
    { rewrite <- Heq. apply Hcol.
      unfold pushEditOperations, mbind, M_bind, modify, lift_exn.
      change (value (model (first_tab BOOT)))
        with (createModel_value (boot_text BOOT)).
      rewrite Hedit. reflexivity. }
    rewrite Ht', Ha', Htr'.
    split.
    { assert (Hget : getTab 0 st3 = Some (set_value v (first_tab BOOT)))
        by (unfold getTab; rewrite Ht3; reflexivity).
      unfold onDidChangeContent. rewrite Hget.
      change (negb (isDirty (set_value v (first_tab BOOT)))) with true. cbv iota.
      destruct (renderTabs_frame (update_tab 0 (set_isDirty true) st3)) as (-> & _).
      unfold update_tab. rewrite Ht3. reflexivity. }
    split.
    { by destruct (same_shape_onDidChangeContent 0 st3) as (_ & -> & _). }
    split.
    { destruct (calm_onDidChangeContent 0 st3) as [_ ->].
      destruct Hc3 as [_ ->]. exact Hal. }
    destruct (onDidChangeContent_trace 0 st3) as (rest & -> & _).
    rewrite Htr3. apply list.elem_of_app. left. apply Hpush.
  - destruct (boot_tail (boot_range BOOT endColumn) (truthy (boot_autosave BOOT))
                st3) as (st' & Heq & Ht' & Ha' & Htr').
    exists st'. split.
    { rewrite <- Heq. apply Hcol.
      unfold pushEditOperations, mbind, M_bind, modify, lift_exn.
      change (value (model (first_tab BOOT)))
        with (createModel_value (boot_text BOOT)).
      rewrite Hedit. reflexivity. }
    rewrite Ht', Ha', Htr'.
    split; [exact Ht3|]. split; [exact Ha3|].
    split; [destruct Hc3 as [_ ->]; exact Hal|].
    rewrite Htr3. apply Hpush.
Qed.

(** ** The status bar *)

Lemma renderTabs_status st :
  status_filepath (dom (renderTabs st))
  = from_option (λ t, path_or (path t) (λ s, s) "[Untitled]") "[Untitled]"
                (getActiveTab st).
Proof. unfold renderTabs. simpl. by destruct (has_set_active_tab (host st)). Qed.

Lemma getActiveTab_renderTabs st : getActiveTab (renderTabs st) = getActiveTab st.
Proof.
  unfold getActiveTab. rewrite getTab_renderTabs.
  by destruct (renderTabs_frame st) as (_ & _ & -> & _).
Qed.

Lemma status_ok_renderTabs st : status_ok (renderTabs st).
Proof.
  intros t Ht. rewrite getActiveTab_renderTabs in Ht.
  by rewrite renderTabs_status, Ht.
Qed.








Lemma status_ok_close_proceed i k st :
  WF st → status_ok (closeTab_refill (closeTab_remove i k st).2).
Proof.
  intros Hwf. unfold closeTab_refill.
  case_bool_decide; [|apply status_ok_renderTabs].
  destruct (WF_closeTab_remove i k st Hwf) as [_ _ Hact _ _ _ _].
  rewrite addTab_new by reflexivity. rewrite switchTab_eq.
  rewrite decide_False by (unfold appended; simpl; lia).
  apply status_ok_renderTabs.
Qed.

Lemma status_ok_closeTab confirmed tabId st :
  WF st → status_ok st → status_ok (closeTab confirmed tabId st).2.
Proof.
  intros Hwf Hs. rewrite closeTab_eq.
  destruct (list_find _ _) as [[i t]|]; [|done].
  destruct (isDirty t); [destruct confirmed|];
    [| |by apply status_ok_close_proceed].
  - apply status_ok_close_proceed. by apply WF_emit.
  - done.
Qed.




(** ** The host answering at once *)

Lemma step_answer_last p a e st :
  step (EvAnswer (List.length (pending st)) a) (suspend p (emit e st))
  = match p, a with
    | AwaitConfirm tabIdx tabId, Confirmed confirmed =>
        (closeTab_resume confirmed tabIdx tabId (emit e st)).2
    | AwaitOpen, Opened res => doOpen_resume res (emit e st)
    | AwaitSave tabId, Saved res => save_resume tabId res (emit e st)
    | _, _ => suspend p (emit e st)
    end.
Proof.
  unfold step.
  change (pending (suspend p (emit e st))) with (pending st ++ [p])%list.
  rewrite list_lookup_middle by reflexivity. cbv zeta.
  rewrite delete_middle, app_nil_r.
  assert (Heta : with_pending (pending st) (suspend p (emit e st)) = emit e st)
    by (by destruct st).
  rewrite Heta. by destruct p, a.
Qed.

(** X20. The functions that wait for the host, taken in one piece with
    the host's answer as an argument, are what the event loop does when
    the answer comes before anything else happens: the request followed
    at once by the answer to it.  [closeTab] asks only for a dirty tab,
    [doOpen] only when the host offers the dialog, [doSave] and
    [doSaveAs] only when a tab is active; otherwise the request is all
    there is. *)
Theorem answered_at_once (st : State) :
  (∀ confirmed tabId,
     (closeTab confirmed tabId st).2
     = match getTab tabId st with
       | Some t =>
           if isDirty t then
             run [EvCloseTab tabId;
                  EvAnswer (List.length (pending st)) (Confirmed confirmed)] st
           else step (EvCloseTab tabId) st
       | None => step (EvCloseTab tabId) st
       end)
  ∧ (∀ res,
       doOpen res st
       = if has_open_dialog (host st) then
           run [EvOpen; EvAnswer (List.length (pending st)) (Opened res)] st
         else step EvOpen st)
  ∧ (∀ res,
       doSave res st
       = match getActiveTab st with
         | Some _ => run [EvSave; EvAnswer (List.length (pending st)) (Saved res)] st
         | None => step EvSave st
         end)
  ∧ (∀ res,
       doSaveAs res st
       = match getActiveTab st with
         | Some _ => run [EvSaveAs; EvAnswer (List.length (pending st)) (Saved res)] st
         | None => step EvSaveAs st
         end).
Proof.
  split; [|split; [|split]].
  - intros confirmed tabId. rewrite closeTab_eq.
    unfold run. cbn [foldl].
    change (step (EvCloseTab tabId) st) with (closeTab_begin tabId st).2.
    rewrite closeTab_begin_eq. unfold getTab.
    destruct (list_find _ _) as [[i t]|] eqn:Hf; [|reflexivity]. cbn [fmap option_fmap option_map snd].
    destruct (isDirty t); [|reflexivity].
    rewrite step_answer_last, closeTab_resume_eq.
    destruct confirmed; [|reflexivity].
    apply list_find_Some in Hf as (Hl & _).
    change (tabs (emit unsaved_changes st)) with (tabs st). by rewrite Hl.
  - intros res. unfold doOpen, run. cbn [foldl].
    change (step EvOpen st) with (doOpen_begin st). unfold doOpen_begin.
    destruct (has_open_dialog (host st)); [|reflexivity]. cbn [negb].
    by rewrite step_answer_last.
  - intros res. unfold doSave, run. cbn [foldl].
    change (step EvSave st) with (doSave_begin st). unfold doSave_begin.
    destruct (getActiveTab st) as [tab|] eqn:Hact; [|reflexivity].
    rewrite step_answer_last. unfold save_resume.
    assert (Hget : getTab (id tab) st = Some tab).
    { unfold getActiveTab in Hact. by destruct (getTab_id _ _ _ Hact) as [-> _]. }
    change (getTab (id tab) (emit (save_dialog (value (model tab)) (path tab)) st))
      with (getTab (id tab) st).
    by rewrite Hget.
  - intros res. unfold doSaveAs, run. cbn [foldl].
    change (step EvSaveAs st) with (doSaveAs_begin st). unfold doSaveAs_begin.
    destruct (getActiveTab st) as [tab|] eqn:Hact; [|reflexivity].
    rewrite step_answer_last. unfold save_resume.
    assert (Hget : getTab (id tab) st = Some tab).
    { unfold getActiveTab in Hact. by destruct (getTab_id _ _ _ Hact) as [-> _]. }
    change (getTab (id tab) (emit (save_as_dialog (value (model tab)) (path tab)) st))
      with (getTab (id tab) st).
    by rewrite Hget.
Qed.

End Further.

(** * Concrete runs of the further properties *)

(** The name of [/tmp/a.py] is what follows its last slash, and the tab
    element shows it. *)
Lemma tab_label_witness :
  path Demo.file_tab = Some "/tmp/a.py"
  ∧ plain_text "/tmp/a.py" = true
  ∧ (∃ dir c,
       Ascii.eqb c "/"%char || Ascii.eqb c "\"%char = true
       ∧ "/tmp/a.py" = dir +:+ String c (el_name (tabEl Demo.one_tab Demo.file_tab)))
  ∧ shown_name (el_name (tabEl Demo.one_tab Demo.file_tab)) = Some "a.py".
Proof.
  split; [reflexivity|]. split; [reflexivity|].
  destruct (tab_label Demo.one_tab Demo.file_tab) as (_ & Hp & _).
  destruct (Hp "/tmp/a.py" eq_refl ltac:(discriminate)) as (_ & _ & Hs & _ & Hshown).
  split; [apply Hs; reflexivity|].
  rewrite (Hshown eq_refl). reflexivity.
Defined.

(** [/tmp/a.py] is looked up as [.py]: the answer is the first registered
    language that lists [.py]. *)
Lemma language_of_path_witness :
  ((∀ l, l ∈ getLanguages →
      ¬ ∃ exts, extensions l = Some exts ∧ ".py" ∈ exts)
   ∧ languageFromPath (Some "/tmp/a.py") = "plaintext")
  ∨ ∃ before l after,
      getLanguages = (before ++ l :: after)%list
      ∧ (∃ exts, extensions l = Some exts ∧ ".py" ∈ exts)
      ∧ (∀ l', l' ∈ before → ¬ ∃ exts, extensions l' = Some exts ∧ ".py" ∈ exts)
      ∧ languageFromPath (Some "/tmp/a.py") = lang_id l.
Proof.
  destruct (language_of_path (Some "/tmp/a.py")) as [_ Hs].
  exact (Hs "/tmp/a.py" eq_refl ltac:(discriminate)).
Defined.

(** Adding a tab while the dialog is open with a patch typed in. *)
Lemma background_events_calm_witness :
  is_dialog_event (EvAddTab None "") = false
  ∧ modal_hidden (dom (step (EvAddTab None "") (Demo.dialog_with Demo.patch_text)))
    = false
  ∧ surg_value (dom (step (EvAddTab None "") (Demo.dialog_with Demo.patch_text)))
    = Demo.patch_text
  ∧ alerts (trace (step (EvAddTab None "") (Demo.dialog_with Demo.patch_text))) = [].
Proof.
  split; [reflexivity|].
  destruct (background_events_calm (EvAddTab None "")
              (Demo.dialog_with Demo.patch_text) eq_refl) as (Hm & Hv & _ & Ha).
  split; [rewrite Hm; reflexivity|].
  split; [rewrite Hv; reflexivity|].
  rewrite Ha. reflexivity.
Defined.


(** A patch for line 2 applied to a document of one line. *)
Lemma apply_line_out_of_range_witness :
  getActiveTab Demo.short_dialog = Some Demo.short_tab
  ∧ JSON_parse (surg_value (dom Demo.short_dialog)) = inr Demo.patch
  ∧ field Demo.patch "end_line" = num 2
  ∧ (Z.of_nat (List.length (lines_of (value (model Demo.short_tab)))) < 2)%Z
  ∧ applySurgicalReplace Demo.short_dialog
    = emit (alert_of Demo.short_dialog (Error "Illegal value for lineNumber"))
           Demo.short_dialog.
Proof.
  assert (H1 : surg_value (dom Demo.short_dialog) ≠ "")
    by (vm_compute; discriminate).
  assert (H2 : JSON_parse (surg_value (dom Demo.short_dialog)) = inr Demo.patch)
    by reflexivity.
  assert (H3 : getActiveTab Demo.short_dialog = Some Demo.short_tab) by reflexivity.
  assert (H4 : (Z.of_nat (List.length (lines_of (value (model Demo.short_tab)))) < 2)%Z)
    by reflexivity.
  split; [exact H3|]. split; [exact H2|]. split; [reflexivity|]. split; [exact H4|].
  exact (apply_line_out_of_range Demo.short_dialog Demo.patch Demo.short_tab 2
           H1 H2 eq_refl H3 eq_refl eq_refl (or_intror H4)).
Defined.




(** Identifier 0, free after its tab was closed, stays free when two
    more tabs are added. *)
Lemma identifiers_never_reused_witness :
  (0 < nextTabId Demo.closed_first)%Z
  ∧ (0 ∉ id <$> tabs Demo.closed_first)
  ∧ (0 ∉ id <$> tabs (run [EvAddTab None ""; EvAddTab (Some "/tmp/a.py") "x"]
                          Demo.closed_first)).
Proof.
  assert (H1 : (0 < nextTabId Demo.closed_first)%Z) by reflexivity.
  assert (H2 : 0 ∉ id <$> tabs Demo.closed_first).
  { change (id <$> tabs Demo.closed_first) with [1].
    intros Hin. apply list_elem_of_singleton in Hin. discriminate. }
  split; [exact H1|]. split; [exact H2|].
  destruct (identifiers_never_reused Demo.closed_first
              [EvAddTab None ""; EvAddTab (Some "/tmp/a.py") "x"]) as [_ Hfree].
  exact (Hfree 0 H1 H2).
Defined.

(** Switching, a declined save and a close leave the file's tab with its
    text. *)
Lemma text_changes_only_by_edits_witness :
  Forall (λ ev, is_edit_event ev = false)
         [EvSwitchTab 0; EvSave; EvAnswer 0 (Saved None); EvCloseTab 1]
  ∧ Demo.file_tab_left
    ∈ tabs (run [EvSwitchTab 0; EvSave; EvAnswer 0 (Saved None); EvCloseTab 1]
                Demo.two_tabs)
  ∧ ((∃ t, t ∈ tabs Demo.two_tabs ∧ id Demo.file_tab_left = id t
           ∧ uri (model Demo.file_tab_left) = uri (model t)
           ∧ value (model Demo.file_tab_left) = value (model t))
     ∨ (nextTabId Demo.two_tabs ≤ id Demo.file_tab_left)%Z).
Proof.
  assert (H1 : Forall (λ ev, is_edit_event ev = false)
                 [EvSwitchTab 0; EvSave; EvAnswer 0 (Saved None); EvCloseTab 1])
    by (repeat constructor).
  assert (H2 : Demo.file_tab_left
               ∈ tabs (run [EvSwitchTab 0; EvSave; EvAnswer 0 (Saved None);
                            EvCloseTab 1]
                           Demo.two_tabs)).
  { change (tabs (run [EvSwitchTab 0; EvSave; EvAnswer 0 (Saved None); EvCloseTab 1]
                      Demo.two_tabs))
      with [Demo.file_tab_left]. by left. }
  split; [exact H1|]. split; [exact H2|].
  exact (text_changes_only_by_edits Demo.two_tabs _ H1 _ H2).
Defined.

(** Opening the file that is already in the first tab: the text sent
    along is dropped. *)
Lemma doOpen_outcomes_witness :
  has_open_dialog (host Demo.two_tabs) = true
  ∧ Demo.file_tab_left ∈ tabs Demo.two_tabs
  ∧ content <$> tabs (doOpen (Some (mkOpenResponse (Some "/tmp/a.py") (Some "stale")))
                            Demo.two_tabs)
    = content <$> tabs Demo.two_tabs
  ∧ nextTabId (doOpen (Some (mkOpenResponse (Some "/tmp/a.py") (Some "stale")))
                      Demo.two_tabs)
    = 2.
Proof.
  assert (Hin : Demo.file_tab_left ∈ tabs Demo.two_tabs) by (vm_compute; by left).
  assert (Hh : has_open_dialog (host Demo.two_tabs) = true) by (vm_compute; reflexivity).
  split; [exact Hh|]. split; [exact Hin|].
  destruct (doOpen_outcomes (Some (mkOpenResponse (Some "/tmp/a.py") (Some "stale")))
              Demo.two_tabs) as [_ Hon].
  destruct (Hon Hh) as (_ & Hex & _).
  destruct (Hex "/tmp/a.py" "stale" Demo.file_tab_left eq_refl
              ltac:(discriminate) Hin eq_refl) as (Hc & Hn & _).
  split; [exact Hc|]. rewrite Hn. vm_compute. reflexivity.
Defined.

(** Closing the file's tab while the untitled one is active. *)
Lemma close_background_tab_witness :
  WF Demo.two_tabs
  ∧ tabs Demo.two_tabs !! 0%nat = Some Demo.file_tab_left
  ∧ getActiveTab Demo.two_tabs = Some Demo.untitled_tab
  ∧ tabs (step (EvCloseTab 0) Demo.two_tabs) = [Demo.untitled_tab]
  ∧ activeTabId (step (EvCloseTab 0) Demo.two_tabs) = 1
  ∧ editor (step (EvCloseTab 0) Demo.two_tabs) = editor Demo.two_tabs.
Proof.
  assert (H1 : WF Demo.two_tabs) by apply reachable_WF, reachable_two_tabs.
  assert (H2 : tabs Demo.two_tabs !! 0%nat = Some Demo.file_tab_left) by reflexivity.
  assert (H3 : getActiveTab Demo.two_tabs = Some Demo.untitled_tab) by reflexivity.
  assert (H4 : id Demo.file_tab_left ≠ activeTabId Demo.two_tabs) by discriminate.
  split; [exact H1|]. split; [exact H2|]. split; [exact H3|].
  destruct (close_background_tab Demo.two_tabs 0 Demo.file_tab_left
              Demo.untitled_tab H1 H2 H3 H4) as (Hclean & _ & _).
  destruct (Hclean eq_refl) as (Ht & Ha & _ & He).
  split; [exact Ht|]. split; [exact Ha | exact He].
Defined.

(** The confirmation for the edited tab arrives after the file's tab was
    closed: it takes the active tab, and leaves the edited one alone in
    the bar with no tab active. *)
Lemma stale_close_loses_active_tab_witness :
  WF Demo.asked_late
  ∧ pending Demo.asked_late !! 0%nat = Some (AwaitConfirm 1 1)
  ∧ tabs Demo.asked_late = [Demo.draft_tab; Demo.last_tab]
  ∧ activeTabId Demo.asked_late = 2
  ∧ tabs (step (EvAnswer 0 (Confirmed true)) Demo.asked_late) = [Demo.draft_tab]
  ∧ getActiveTab (step (EvAnswer 0 (Confirmed true)) Demo.asked_late) = None
  ∧ ed_model (editor (step (EvAnswer 0 (Confirmed true)) Demo.asked_late)) = None.
Proof.
  assert (H1 : WF Demo.asked_late).
  { apply reachable_WF. do 2 apply reachable_run. apply reachable_init. }
  assert (H2 : pending Demo.asked_late !! 0%nat = Some (AwaitConfirm 1 1))
    by (vm_compute; reflexivity).
  assert (H3 : tabs Demo.asked_late !! 1%nat = Some Demo.last_tab)
    by (vm_compute; reflexivity).
  assert (H4 : id Demo.last_tab = activeTabId Demo.asked_late)
    by (vm_compute; reflexivity).
  assert (H5 : 1 ≠ activeTabId Demo.asked_late) by (vm_compute; discriminate).
  assert (H6 : (1 < List.length (tabs Demo.asked_late))%nat) by (vm_compute; lia).
  split; [exact H1|]. split; [exact H2|].
  split; [vm_compute; reflexivity|]. split; [vm_compute; reflexivity|].
  destruct (stale_close_loses_active_tab Demo.asked_late 0 1 1 Demo.last_tab
              H1 H2 H3 H4 H5 H6) as (Ht & _ & Hg & He & _).
  split; [rewrite Ht; vm_compute; reflexivity|]. split; [exact Hg | exact He].
Defined.

(** The template for a selection from 2:1 to 2:5, and for no selection. *)
Lemma show_opens_fresh_witness :
  isEmpty (mkSelection 2 1 2 5) = false
  ∧ field (JObj (sampleSchema (Some (mkSelection 2 1 2 5)))) "start_line" = num 2
  ∧ field (JObj (sampleSchema (Some (mkSelection 2 1 2 5)))) "end_column" = num 5
  ∧ field (JObj (sampleSchema None)) "end_line" = num 1
  ∧ truthy (field (JObj (sampleSchema None)) "end_column") = true.
Proof.
  split; [reflexivity|].
  destruct (show_opens_fresh Demo.one_tab)
    as (_ & _ & _ & _ & _ & _ & _ & _ & _ & Hsel & Hnone).
  destruct (Hsel (mkSelection 2 1 2 5) eq_refl) as (Hsl & _ & _ & Hec).
  destruct (Hnone None (or_introl eq_refl)) as (_ & Hel & _ & _ & _ & Htr).
  auto.
Defined.


(** Boot with lines to reveal but no replacement text: numbers are
    revealed, strings make the editor throw. *)
Lemma boot_without_replacement_witness :
  boot_replaces BootDemo.revealing = false
  ∧ boot_replaces BootDemo.revealing_strings = false
  ∧ (∃ st',
       bootMonaco_open BootDemo.revealing (initState Demo.host_on) = (inr false, st')
       ∧ tabs st' = [Demo.file_tab]
       ∧ activeTabId st' = 0)
  ∧ (∃ st',
       bootMonaco_open BootDemo.revealing_strings (initState Demo.host_on)
       = (inl (Error "Invalid arguments"), st')
       ∧ tabs st' = [Demo.file_tab]
       ∧ activeTabId st' = 0).
Proof.
  split; [reflexivity|]. split; [reflexivity|]. split.
  - destruct (boot_without_replacement BootDemo.revealing Demo.host_on eq_refl)
      as (st' & Hrun & Ht & Ha & _).
    exists st'. split; [exact Hrun|]. split; [exact Ht | exact Ha].
  - destruct (boot_without_replacement BootDemo.revealing_strings Demo.host_on eq_refl)
      as (st' & Hrun & Ht & Ha & _).
    exists st'. split; [exact Hrun|]. split; [exact Ht | exact Ha].
Defined.

(** Boot with a replacement for the second line and autosave: the line
    is replaced up to its end, column 11, and the save is scheduled.
    With the start column given as a string the line is replaced all the
    same, but the editor then refuses to reveal the range and no save is
    scheduled. *)
Lemma boot_replacement_witness :
  boot_replaces BootDemo.patching = true
  ∧ boot_replaces BootDemo.patching_column = true
  ∧ (∃ st',
       bootMonaco_open BootDemo.patching (initState Demo.host_on) = (inr true, st')
       ∧ tabs st' = [mkTab 0 (Some "/tmp/a.py")
                       (mkTextModel 0 ("first" +:+ nl +:+ "X") "python") None true]
       ∧ activeTabId st' = 0
       ∧ alerts (trace st') = []
       ∧ push_edit 0 (mkRange (num 2) (num 1) (num 2) (num 11)) (JStr "X")
         ∈ trace st')
  ∧ (∃ st',
       bootMonaco_open BootDemo.patching_column (initState Demo.host_on)
       = (inl (Error "Invalid arguments"), st')
       ∧ tabs st' = [mkTab 0 (Some "/tmp/a.py")
                       (mkTextModel 0 ("first" +:+ nl +:+ "X") "python") None true]
       ∧ activeTabId st' = 0
       ∧ alerts (trace st') = []
       ∧ push_edit 0 (mkRange (num 2) (JStr "1") (num 2) (num 11)) (JStr "X")
         ∈ trace st').
Proof.
  split; [reflexivity|]. split; [reflexivity|]. split.
  - exact (boot_replacement BootDemo.patching Demo.host_on eq_refl).
  - exact (boot_replacement BootDemo.patching_column Demo.host_on eq_refl).
Defined.

